(** * Random-forest training scripts: data loading and preprocessing

    A shallow embedding of the data-loading part of [3_randomforest.py]
    and [randomforest.py]: the map-file reader, the raster band reads, the
    alpha masking, the channel assignments into the pixel buffers, the
    annotation reader and the assembly of the image and label lists.

    Python exceptions are values of [exn] carried by the [result] monad;
    the files on disk and the three I/O libraries (text files, rasters,
    XML) are a [World]; the floating-point kernels of the numeric
    libraries (interpolation in [resize], sampling in [warpAffine]) are
    the fields of a [Kernels] record, about which nothing is assumed. *)

From Stdlib Require Import String Ascii ZArith QArith Lia Bool Arith PeanoNat List.
Import ListNotations.
Open Scope string_scope.
Open Scope list_scope.
Open Scope nat_scope.

Set Implicit Arguments.

(** ** Exceptions and the error monad *)

Inductive exn : Type :=
| FileNotFoundError
| RasterioIOError
| IndexError
| ValueError
| ParseError
| UnboundLocalError
| AttributeError
| UnicodeDecodeError.

Inductive result (A : Type) : Type :=
| Ok (a : A)
| Raise (e : exn).

Arguments Ok {A} a.
Arguments Raise {A} e.

Definition bind {A B : Type} (m : result A) (k : A -> result B) : result B :=
  match m with
  | Ok a => k a
  | Raise e => Raise e
  end.

Notation "x <- m ;; k" := (bind m (fun x => k))
  (at level 61, m at next level, right associativity).
Notation "' p <- m ;; k" := (bind m (fun x => match x with p => k end))
  (at level 61, p pattern, m at next level, right associativity).

(** A [for] loop whose body appends one value per item and may raise. *)
Fixpoint mapM {A B : Type} (f : A -> result B) (l : list A) : result (list B) :=
  match l with
  | [] => Ok []
  | x :: l' =>
      y <- f x ;;
      ys <- mapM f l' ;;
      Ok (y :: ys)
  end.

Definition is_ok {A : Type} (m : result A) : bool :=
  match m with Ok _ => true | Raise _ => false end.

(** ** Python string operations used by the map-file loop *)

Module PyStr.

Definition newline : ascii := ascii_of_nat 10.
Definition backslash : ascii := ascii_of_nat 92.
Definition slash : ascii := ascii_of_nat 47.

(** [str.isspace] on one character (code points below 256). *)
Definition isspace (c : ascii) : bool :=
  let n := nat_of_ascii c in
  ((9 <=? n) && (n <=? 13)) || ((28 <=? n) && (n <=? 32))
  || (n =? 133) || (n =? 160).

Definition snoc (s : string) (c : ascii) : string :=
  (s ++ String c "")%string.

(** [file.readlines()]: the text cut after every newline, which stays at
    the end of its line; a last line without newline is kept. *)
Fixpoint readlines_go (cur : string) (s : string) : list string :=
  match s with
  | "" => match cur with "" => [] | _ => [cur] end
  | String c s' =>
      if Ascii.eqb c newline
      then snoc cur c :: readlines_go "" s'
      else readlines_go (snoc cur c) s'
  end.

Definition readlines (s : string) : list string := readlines_go "" s.

(** [s.lstrip('\n')] and [s.rstrip('\n')]; [strip] does both. *)
Fixpoint lstrip (c : ascii) (s : string) : string :=
  match s with
  | String d s' => if Ascii.eqb d c then lstrip c s' else s
  | "" => ""
  end.

Fixpoint rstrip (c : ascii) (s : string) : string :=
  match s with
  | "" => ""
  | String d s' =>
      match rstrip c s' with
      | "" => if Ascii.eqb d c then "" else String d ""
      | r => String d r
      end
  end.

Definition strip (c : ascii) (s : string) : string := rstrip c (lstrip c s).

(** [s.replace(old, new)] for one-character [old] and [new]. *)
Fixpoint replace (old new : ascii) (s : string) : string :=
  match s with
  | "" => ""
  | String d s' =>
      String (if Ascii.eqb d old then new else d) (replace old new s')
  end.

(** [s.split()]: maximal runs of characters that are not whitespace. *)
Fixpoint split_go (cur : string) (s : string) : list string :=
  match s with
  | "" => match cur with "" => [] | _ => [cur] end
  | String c s' =>
      if isspace c
      then match cur with
           | "" => split_go "" s'
           | _ => cur :: split_go "" s'
           end
      else split_go (snoc cur c) s'
  end.

Definition split (s : string) : list string := split_go "" s.

End PyStr.

(** [element[k]] on a Python list. *)
Definition getitem {A : Type} (l : list A) (k : nat) : result A :=
  match nth_error l k with
  | Some x => Ok x
  | None => Raise IndexError
  end.

(** ** NumPy arrays: a shape and a row-major buffer *)

(** The indices of an array of shape [(n0, n1)], and of shape
    [(n0, n1, n2)], in row-major order. *)
Definition indices2 (n0 n1 : nat) : list (nat * nat) :=
  flat_map (fun i => map (fun j => (i, j)) (seq 0 n1)) (seq 0 n0).

Definition indices3 (n0 n1 n2 : nat) : list (nat * nat * nat) :=
  flat_map (fun i =>
    flat_map (fun j => map (fun c => (i, j, c)) (seq 0 n2)) (seq 0 n1))
    (seq 0 n0).

Record array2 (A : Type) : Type := mk_array2 {
  nrows : nat;
  ncols : nat;
  data2 : list A
}.

Record array3 (A : Type) : Type := mk_array3 {
  dim0 : nat;
  dim1 : nat;
  dim2 : nat;
  data3 : list A
}.

Definition shape2 {A : Type} (a : array2 A) : nat * nat := (nrows a, ncols a).
Definition shape3 {A : Type} (a : array3 A) : nat * nat * nat :=
  (dim0 a, dim1 a, dim2 a).

(** The buffer holds one value per index. *)
Definition wf_array2 {A : Type} (a : array2 A) : Prop :=
  length (data2 a) = nrows a * ncols a.

Definition wf_array3 {A : Type} (a : array3 A) : Prop :=
  length (data3 a) = dim0 a * dim1 a * dim2 a.

(** [a[i, j]], [None] outside the buffer. *)
Definition get2 {A : Type} (a : array2 A) (i j : nat) : option A :=
  nth_error (data2 a) (i * ncols a + j).

(** Row [r] of [a], that is [a[r, :]]. *)
Definition row_of {A : Type} (a : array2 A) (r : nat) : list A :=
  flat_map (fun j => match get2 a r j with Some x => [x] | None => [] end)
    (seq 0 (ncols a)).

(** [np.flipud(a)], that is [a[::-1, :]]: the rows in reverse order. *)
Definition flipud {A : Type} (a : array2 A) : array2 A :=
  mk_array2 (nrows a) (ncols a)
    (flat_map (fun i => row_of a (nrows a - 1 - i)) (seq 0 (nrows a))).

(** [a != 0], elementwise. *)
Definition ne0 (a : array2 Z) : array2 bool :=
  mk_array2 (nrows a) (ncols a) (map (fun x => negb (Z.eqb x 0)) (data2 a)).

(** [a[m]] for a boolean array [m] of the shape of [a]: the values of [a]
    where [m] is true, as a one-dimensional array in C order. *)
Definition bool_index {A : Type} (a : array2 A) (m : array2 bool)
  : result (list A) :=
  if (nrows a =? nrows m) && (ncols a =? ncols m)
  then Ok (map fst (filter snd (combine (data2 a) (data2 m))))
  else Raise IndexError.

(** [np.zeros([n0, n1, n2])]. *)
Definition zeros3 {F : Type} (zero : F) (n0 n1 n2 : nat) : array3 F :=
  mk_array3 n0 n1 n2 (repeat zero (n0 * n1 * n2)).

(** NumPy's broadcasting rule for an assignment of a value of shape
    [(r, c)] to a target of shape [(n0, n1)]. *)
Definition broadcastable (src dst : nat * nat) : bool :=
  ((fst src =? fst dst) || (fst src =? 1))
  && ((snd src =? snd dst) || (snd src =? 1)).

(** [dst[:, :, ch] = src], converting every value with [conv]: the buffer
    of [dst] is walked together with its indices [(i, j, c)], and the
    value at channel [ch] is replaced by the value of [src] at [(i, j)],
    or at row 0 or column 0 where [src] is broadcast. *)
Definition set_channel {B F : Type} (conv : B -> F)
    (dst : array3 F) (ch : nat) (src : array2 B) : result (array3 F) :=
  if negb (ch <? dim2 dst) then Raise IndexError
  else if negb (broadcastable (shape2 src) (dim0 dst, dim1 dst))
  then Raise ValueError
  else
    Ok (mk_array3 (dim0 dst) (dim1 dst) (dim2 dst)
          (map
             (fun p =>
                let '(i, j, c, old) := p in
                if c =? ch
                then match get2 src (if nrows src =? 1 then 0 else i)
                                    (if ncols src =? 1 then 0 else j) with
                     | Some x => conv x
                     | None => old
                     end
                else old)
             (combine (indices3 (dim0 dst) (dim1 dst) (dim2 dst))
                      (data3 dst)))).

(** [a.flatten()]. *)
Definition flatten3 {F : Type} (a : array3 F) : list F := data3 a.

(** [v.reshape(n0, n1, n2)] on a one-dimensional array. *)
Definition reshape3 {F : Type} (v : list F) (n0 n1 n2 : nat)
  : result (array3 F) :=
  if length v =? n0 * n1 * n2
  then Ok (mk_array3 n0 n1 n2 v)
  else Raise ValueError.

(** ** The numeric kernels

    [resize] (skimage) and [warpAffine] (OpenCV) compute floating-point
    samples; only the shape of what they return is fixed here.  [float]
    stands for float64, [of_int] for the conversion a float buffer applies
    to an integer pixel stored in it. *)

Record RotationMatrix2D : Type := mk_rotation {
  center : Q * Q;
  angle : Q;
  scale : Q
}.

Record Kernels : Type := mk_kernels {
  float : Type;
  fzero : float;
  of_int : Z -> float;
  resize_sample : list Z -> nat * nat -> nat -> nat -> float;
  warp_sample :
    array3 float -> RotationMatrix2D -> nat * nat -> nat -> nat -> nat -> float
}.

(** [cv2.getRotationMatrix2D(center, angle, scale)]. *)
Definition getRotationMatrix2D (c : Q * Q) (a s : Q) : RotationMatrix2D :=
  mk_rotation c a s.

(** [skimage.transform.resize(image, output_shape)] on a one-dimensional
    [image], which is read as a column of shape [(k, 1)]: an array of shape
    [output_shape]; an empty image is refused. *)
Definition resize (K : Kernels) (image : list Z) (output_shape : nat * nat)
  : result (array2 (float K)) :=
  match image with
  | [] => Raise ValueError
  | _ :: _ =>
      let (r, c) := output_shape in
      Ok (mk_array2 r c
            (map (fun p => resize_sample K image output_shape (fst p) (snd p))
               (indices2 r c)))
  end.

(** [cv2.warpAffine(src, M, dsize)] with [dsize = (columns, rows)]. *)
Definition warpAffine (K : Kernels) (src : array3 (float K))
    (M : RotationMatrix2D) (dsize : nat * nat) : array3 (float K) :=
  let (w, h) := dsize in
  let c := dim2 src in
  mk_array3 h w c
    (map (fun p => let '(i, j, k) := p in warp_sample K src M dsize i j k)
       (indices3 h w c)).

(** ** Raster datasets *)

(** A raster file: its size and its bands, each a row-major buffer of
    [height * width] pixels. *)
Record Dataset : Type := mk_dataset {
  width : nat;
  height : nat;
  bands : list (list Z)
}.

Definition count (ds : Dataset) : nat := length (bands ds).

Definition wf_dataset (ds : Dataset) : bool :=
  forallb (fun b => length b =? height ds * width ds) (bands ds).

(** Band [n], counted from one, as an array of shape [(height, width)]. *)
Definition band_array (ds : Dataset) (n : nat) : array2 Z :=
  mk_array2 (height ds) (width ds) (nth (n - 1) (bands ds) []).

(** rasterio's [dataset.read(bidx)]: [IndexError] when there is no band
    [bidx]. *)
Definition read (ds : Dataset) (bidx : nat) : result (array2 Z) :=
  if (1 <=? bidx) && (bidx <=? count ds)
  then Ok (band_array ds bidx)
  else Raise IndexError.

(** GDAL's [ds.GetRasterBand(n)]: [None] when there is no such band. *)
Definition GetRasterBand (ds : Dataset) (n : nat) : option (array2 Z) :=
  if (1 <=? n) && (n <=? count ds)
  then Some (band_array ds n)
  else None.

(** [band.ReadAsArray()]; on [None] the attribute lookup fails. *)
Definition ReadAsArray (band : option (array2 Z)) : result (array2 Z) :=
  match band with
  | Some a => Ok a
  | None => Raise AttributeError
  end.

(** ** XML element trees *)

Set Warnings "-register-all".

Inductive Element : Type :=
| mkElement (tag : string) (text : option string) (children : list Element).

Definition tag (e : Element) : string :=
  match e with mkElement t _ _ => t end.
Definition text (e : Element) : option string :=
  match e with mkElement _ x _ => x end.
Definition children (e : Element) : list Element :=
  match e with mkElement _ _ c => c end.

(** [Element.iter(tag)]: the element itself when its tag matches, then the
    matches of each child, in order. *)
Fixpoint iter (t : string) (e : Element) : list Element :=
  match e with
  | mkElement tg _ ch =>
      (if String.eqb tg t then [e] else []) ++ flat_map (iter t) ch
  end.

(** ** The files on disk, as the libraries see them *)

Record World : Type := mk_world {
  (** [open(path)] and the text [file.readlines()] reads from it, line
      ends already translated to a newline as text mode does:
      [FileNotFoundError] from [open] when the file is missing,
      [UnicodeDecodeError] from the read when its bytes are not text *)
  open_read : string -> result string;
  (** [rasterio.open(path)] *)
  rasterio_open : string -> result Dataset;
  (** [gdal.Open(path)]: [None] when the file cannot be opened *)
  gdal_Open : string -> option Dataset;
  (** [ET.parse(path).getroot()] *)
  ET_parse : string -> result Element
}.

(** ** [3_randomforest.py] *)

(** One turn of the map-file loop (ll. 33-37); [prefix] is what is put
    before each of the two tokens. *)
Definition map_line (prefix : string) (line : string)
  : result (string * string) :=
  let element := PyStr.strip PyStr.newline line in
  let element := PyStr.replace PyStr.backslash PyStr.slash element in
  let element := PyStr.split element in
  e0 <- getitem element 0 ;;
  e1 <- getitem element 1 ;;
  Ok ((prefix ++ e0)%string, (prefix ++ e1)%string).

Definition get_training_data (w : World) (path_to_data : string)
  : result (list string * list string) :=
  let mapfile := (path_to_data ++ "/map.txt")%string in
  file <- open_read w mapfile ;;
  pairs <- mapM (map_line (path_to_data ++ "/")%string) (PyStr.readlines file) ;;
  Ok (map fst pairs, map snd pairs).

Definition default_path : string := "Inputs/training_data_attempt_1".

Definition preprocess_image (w : World) (image : string)
  : result (nat * nat * array2 Z * array2 Z * array2 Z * array2 Z) :=
  dataset <- rasterio_open w image ;;
  let nX := width dataset in
  let nY := height dataset in
  red <- read dataset 1 ;;
  green <- read dataset 2 ;;
  blue <- read dataset 3 ;;
  alpha <- read dataset 4 ;;
  Ok (nX, nY, red, green, blue, alpha).

(** The value of [classification] after the loop of ll. 128-129: unbound
    ([None]) until the first turn, then the text of the element of the
    last turn. *)
Definition classification_after (elems : list Element)
  : option (option string) :=
  fold_left (fun _ elem => Some (text elem)) elems None.

Definition extract_classification (w : World) (label : string)
  : result (option string) :=
  root <- ET_parse w label ;;
  match classification_after (iter "name" root) with
  | Some classification => Ok classification
  | None => Raise UnboundLocalError
  end.

(** The label loop, the same in the three loaders (ll. 85-87, 174-176,
    221-223). *)
Definition label_loop (w : World) (label_path : list string)
  : result (list (option string)) :=
  mapM (extract_classification w) label_path.

Section Loaders.

Variable K : Kernels.
Variable w : World.

(** The three masks (ll. 66-68, 153-155, 195-197). *)
Definition mask_bands (red green blue alpha : array2 Z)
  : result (list Z * list Z * list Z) :=
  red_masked <- bool_index red (ne0 alpha) ;;
  green_masked <- bool_index green (ne0 alpha) ;;
  blue_masked <- bool_index blue (ne0 alpha) ;;
  Ok (red_masked, green_masked, blue_masked).

(** The three resizes and the stacking into a fresh buffer
    (ll. 70-77, 157-166, 199-207). *)
Definition resize_stack (nX nY : nat) (masked : list Z * list Z * list Z)
  : result (array3 (float K)) :=
  let '(red_masked, green_masked, blue_masked) := masked in
  red_masked <- resize K red_masked (nX, nY) ;;
  green_masked <- resize K green_masked (nX, nY) ;;
  blue_masked <- resize K blue_masked (nX, nY) ;;
  let rgb := zeros3 (fzero K) nX nY 3 in
  rgb <- set_channel (fun x => x) rgb 0 red_masked ;;
  rgb <- set_channel (fun x => x) rgb 1 green_masked ;;
  rgb <- set_channel (fun x => x) rgb 2 blue_masked ;;
  Ok rgb.

(** One turn of the image loop of [preprocess_training_data]
    (ll. 55-83). *)
Definition preprocess_training_data_image (image : string)
  : result (list (float K)) :=
  ' (nX, nY, red, green, blue, alpha) <- preprocess_image w image ;;
  let rgb := zeros3 (fzero K) nX nY 3 in
  rgb <- set_channel (of_int K) rgb 0 red ;;
  rgb <- set_channel (of_int K) rgb 1 green ;;
  rgb <- set_channel (of_int K) rgb 2 blue ;;
  masked <- mask_bands red green blue alpha ;;
  rgb <- resize_stack nX nY masked ;;
  let flattened_image := flatten3 rgb in
  Ok flattened_image.

Definition preprocess_training_data (image_path label_path : list string)
  : result (list (list (float K)) * list (option string)) :=
  images <- mapM preprocess_training_data_image image_path ;;
  labels <- label_loop w label_path ;;
  Ok (images, labels).

(** One turn of the image loop of [augment_flip] (ll. 146-172). *)
Definition augment_flip_image (image : string) : result (list (float K)) :=
  ' (nX, nY, red, green, blue, alpha) <- preprocess_image w image ;;
  let flipped_red := flipud red in
  let flipped_green := flipud green in
  let flipped_blue := flipud blue in
  let flipped_alpha := flipud alpha in
  masked <- mask_bands flipped_red flipped_green flipped_blue flipped_alpha ;;
  rgb <- resize_stack nX nY masked ;;
  let flattened_image := flatten3 rgb in
  Ok flattened_image.

Definition augment_flip (image_path label_path : list string)
  : result (list (list (float K)) * list (option string)) :=
  images <- mapM augment_flip_image image_path ;;
  labels <- label_loop w label_path ;;
  Ok (images, labels).

(** One turn of the image loop of [augment_flip_rotate_90]
    (ll. 193-218). *)
Definition augment_flip_rotate_90_image (image : string) : result (list (float K)) :=
  ' (nX, nY, red, green, blue, alpha) <- preprocess_image w image ;;
  masked <- mask_bands red green blue alpha ;;
  rgb_flip <- resize_stack nX nY masked ;;
  let rotation_angle := 90%Q in
  let rotation_matrix :=
    getRotationMatrix2D
      ((Z.of_nat nX # 2)%Q, (Z.of_nat nY # 2)%Q) rotation_angle 1%Q in
  let rotated_rgb := warpAffine K rgb_flip rotation_matrix (nY, nX) in
  let flattened_image := flatten3 rotated_rgb in
  Ok flattened_image.

Definition augment_flip_rotate_90 (image_path label_path : list string)
  : result (list (list (float K)) * list (option string)) :=
  images <- mapM augment_flip_rotate_90_image image_path ;;
  labels <- label_loop w label_path ;;
  Ok (images, labels).

(** The script up to the combined lists (ll. 228-246). *)
Definition main : result (list (list (float K)) * list (option string)) :=
  ' (image_path, label_path) <- get_training_data w default_path ;;
  ' (images, labels) <- preprocess_training_data image_path label_path ;;
  ' (augmented_images, augmented_labels) <- augment_flip image_path label_path ;;
  ' (augmented_images2, augmented_labels2) <-
      augment_flip_rotate_90 image_path label_path ;;
  let combined_images := images ++ augmented_images ++ augmented_images2 in
  let combined_labels := labels ++ augmented_labels ++ augmented_labels2 in
  Ok (combined_images, combined_labels).

(** [images[i].reshape(50, 50, 3)] of the first visualisation loop
    (l. 256) on one feature vector. *)
Definition image_show (v : list (float K)) : result (array3 (float K)) :=
  reshape3 v 50 50 3.

End Loaders.

(** ** [randomforest.py] *)

Module Randomforest.

Definition data_prefix : string :=
  "/home/s1885898/scratch/data/training_16_bit/".

Definition mapfile : string :=
  "/home/s1885898/scratch/data/training_16_bit/map.txt".

(** The map-file loop (ll. 16-22). *)
Definition map_loop (w : World) : result (list string * list string) :=
  file <- open_read w mapfile ;;
  pairs <- mapM (map_line data_prefix) (PyStr.readlines file) ;;
  Ok (map fst pairs, map snd pairs).

Section Loops.

Variable K : Kernels.
Variable w : World.

(** One turn of the image loop (ll. 28-46). *)
Definition image_step (image : string) : result (list (float K)) :=
  i <- match gdal_Open w image with
       | Some i => Ok i
       | None => Raise AttributeError
       end ;;
  let nX := width i in
  let nY := height i in
  let step_size := 50 in
  let datas := zeros3 (fzero K) step_size step_size 4 in
  nir <- ReadAsArray (GetRasterBand i 4) ;;
  blue <- ReadAsArray (GetRasterBand i 3) ;;
  green <- ReadAsArray (GetRasterBand i 2) ;;
  red <- ReadAsArray (GetRasterBand i 1) ;;
  datas <- set_channel (of_int K) datas 0 red ;;
  datas <- set_channel (of_int K) datas 1 green ;;
  datas <- set_channel (of_int K) datas 2 blue ;;
  datas <- set_channel (of_int K) datas 3 nir ;;
  let flattened_image := flatten3 datas in
  Ok flattened_image.

Definition image_loop (image_path : list string)
  : result (list (list (float K))) :=
  mapM image_step image_path.

(** One turn of the label loop (ll. 49-52): one label appended for
    every [name] element of the file. *)
Definition label_step (label : string) : result (list (option string)) :=
  root <- ET_parse w label ;;
  Ok (map text (iter "name" root)).

Definition label_loop (labels_path : list string)
  : result (list (option string)) :=
  per_file <- mapM label_step labels_path ;;
  Ok (concat per_file).

(** The script up to the two lists (ll. 12-52). *)
Definition load : result (list (list (float K)) * list (option string)) :=
  ' (image_path, labels_path) <- map_loop w ;;
  images <- image_loop image_path ;;
  labels <- label_loop labels_path ;;
  Ok (images, labels).

(** [X_test[i].reshape(50, 50, 4)] (l. 109) on one feature vector. *)
Definition image_show (v : list (float K)) : result (array3 (float K)) :=
  reshape3 v 50 50 4.

End Loops.

End Randomforest.

(** ** Reference formulations *)

(** A line without its trailing newline. *)
Fixpoint chomp (line : string) : string :=
  match line with
  | "" => ""
  | String c rest =>
      match rest with
      | "" => if Ascii.eqb c PyStr.newline then "" else line
      | _ => String c (chomp rest)
      end
  end.

(** The whitespace-separated tokens of a line of the map file, once its
    trailing newline is gone and every backslash is a slash. *)
Definition line_tokens (line : string) : list string :=
  PyStr.split (PyStr.replace PyStr.backslash PyStr.slash (chomp line)).

(** What position [k] contributes to a mask: the value of [xs] there when
    [ms] is not zero there. *)
Definition pick (xs ms : list Z) (k : nat) : list Z :=
  match nth_error ms k, nth_error xs k with
  | Some m, Some x => if Z.eqb m 0 then [] else [x]
  | _, _ => []
  end.

(** The values of [a] at the positions [(i, j)] where [alpha] is not zero,
    position by position in row-major order. *)
Definition values_where (a alpha : array2 Z) : list Z :=
  flat_map (fun i =>
    flat_map (fun j =>
      match get2 alpha i j, get2 a i j with
      | Some m, Some x => if Z.eqb m 0 then [] else [x]
      | _, _ => []
      end) (seq 0 (ncols a)))
    (seq 0 (nrows a)).

(** All the elements of a document, in document order. *)
Fixpoint document_order (e : Element) : list Element :=
  match e with
  | mkElement _ _ ch => e :: flat_map document_order ch
  end.

Definition is_name (e : Element) : bool := String.eqb (tag e) "name".

(** The [name] elements of a document, in document order. *)
Definition name_elements (root : Element) : list Element :=
  filter is_name (document_order root).

(** ** Fixtures: small files and a stand-in for the numeric kernels *)

Module Fixtures.

(** Integer sampling standing in for the floating-point kernels when the
    loaders are run on the fixtures: [resize] repeats value [i] of the
    column along row [i], [warpAffine] transposes. *)
Definition nearest_kernels : Kernels :=
  mk_kernels 0%Z (fun x => x)
    (fun image _ i _ => nth (Nat.min i (length image - 1)) image 0%Z)
    (fun src _ _ i j c =>
       nth ((j * dim1 src + i) * dim2 src + c) (data3 src) 0%Z).

Definition lookup {A : Type} (files : list (string * A)) (path : string)
  : option A :=
  match find (fun p => String.eqb (fst p) path) files with
  | Some p => Some (snd p)
  | None => None
  end.

(** A directory of map files, rasters and annotations; an annotation is
    either a parsed tree or a parse error. *)
Definition world_of (texts : list (string * string))
    (rasters : list (string * Dataset))
    (xmls : list (string * option Element)) : World :=
  mk_world
    (fun path => match lookup texts path with
                 | Some s => Ok s
                 | None => Raise FileNotFoundError
                 end)
    (fun path => match lookup rasters path with
                 | Some ds => Ok ds
                 | None => Raise RasterioIOError
                 end)
    (fun path => lookup rasters path)
    (fun path => match lookup xmls path with
                 | Some (Some root) => Ok root
                 | Some None => Raise ParseError
                 | None => Raise FileNotFoundError
                 end).

(** A raster of the given size whose [n] bands are filled with 1, 2, ... *)
Definition flat_raster (wd ht n : nat) : Dataset :=
  mk_dataset wd ht
    (map (fun b => repeat (Z.of_nat (S b)) (ht * wd)) (seq 0 n)).

(** A 2 x 2 raster with one transparent pixel. *)
Definition tile_2x2 : Dataset :=
  mk_dataset 2 2
    [[11; 12; 13; 14]; [21; 22; 23; 24]; [31; 32; 33; 34]; [255; 0; 255; 255]]%Z.

(** Pascal VOC annotations with one object, two objects and none. *)
Definition object_named (n : string) : Element :=
  mkElement "object" None
    [mkElement "name" (Some n) []; mkElement "bndbox" None []].

Definition voc_one : Element :=
  mkElement "annotation" None
    [mkElement "filename" (Some "a.tif") []; object_named "tree"].

Definition voc_two : Element :=
  mkElement "annotation" None
    [mkElement "filename" (Some "b.tif") [];
     object_named "tree"; object_named "road"].

Definition voc_none : Element :=
  mkElement "annotation" None [mkElement "filename" (Some "c.tif") []].

Definition map_text : string :=
  "images\a.tif labels\a.xml
images\b.tif labels\b.xml
".

Definition rf3_dir : string := "Inputs/training_data_attempt_1".
Definition rf_dir : string := "/home/s1885898/scratch/data/training_16_bit".

(** The two data folders of the scripts, each with the map file above:
    rasters [a] and [b] in the first, [a'] and [b'] in the second, and
    the annotations [xa] and [xb] in both. *)
Definition training_world (a b a' b' : Dataset) (xa xb : option Element)
  : World :=
  world_of
    [((rf3_dir ++ "/map.txt")%string, map_text);
     ((rf_dir ++ "/map.txt")%string, map_text)]
    [((rf3_dir ++ "/images/a.tif")%string, a);
     ((rf3_dir ++ "/images/b.tif")%string, b);
     ((rf_dir ++ "/images/a.tif")%string, a');
     ((rf_dir ++ "/images/b.tif")%string, b')]
    [((rf3_dir ++ "/labels/a.xml")%string, xa);
     ((rf3_dir ++ "/labels/b.xml")%string, xb);
     ((rf_dir ++ "/labels/a.xml")%string, xa);
     ((rf_dir ++ "/labels/b.xml")%string, xb)].

(** Square tiles for the first script, one-pixel tiles for the second. *)
Definition small_world : World :=
  training_world tile_2x2 (flat_raster 2 2 4)
    (flat_raster 1 1 4) (flat_raster 1 1 4) (Some voc_one) (Some voc_two).

(** A three-band raster in both folders. *)
Definition three_band_world : World :=
  training_world (flat_raster 2 2 3) tile_2x2
    (flat_raster 50 50 3) (flat_raster 1 1 4) (Some voc_one) (Some voc_two).

(** A raster 50 pixels wide and 1 pixel high in the second folder. *)
Definition strip_world : World :=
  training_world tile_2x2 tile_2x2
    (flat_raster 50 1 4) (flat_raster 1 1 4) (Some voc_one) (Some voc_one).

(** Tiles of 50 x 50 pixels in both folders. *)
Definition tiles_world : World :=
  training_world (flat_raster 50 50 4) (flat_raster 50 50 4)
    (flat_raster 50 50 4) (flat_raster 50 50 4) (Some voc_one) (Some voc_two).

(** A missing raster, a malformed annotation. *)
Definition broken_world : World :=
  world_of
    [((rf3_dir ++ "/map.txt")%string, map_text)]
    [((rf3_dir ++ "/images/a.tif")%string, flat_raster 2 2 3)]
    [((rf3_dir ++ "/labels/a.xml")%string, None)].

Definition a_tif : string := (rf3_dir ++ "/images/a.tif")%string.
Definition b_tif : string := (rf3_dir ++ "/images/b.tif")%string.
Definition a_xml : string := (rf3_dir ++ "/labels/a.xml")%string.
Definition b_xml : string := (rf3_dir ++ "/labels/b.xml")%string.
Definition a_tif' : string := (rf_dir ++ "/images/a.tif")%string.
Definition b_tif' : string := (rf_dir ++ "/images/b.tif")%string.

End Fixtures.

(** ** Reference formulations for the rest of the scripts *)

(** A line that ends with its newline and has no other. *)
Definition ends_with_newline (line : string) : Prop :=
  exists body,
    line = PyStr.snoc body PyStr.newline /\
    ~ In PyStr.newline (list_ascii_of_string body).

(** A last line without newline. *)
Definition unterminated (line : string) : Prop :=
  line <> "" /\ ~ In PyStr.newline (list_ascii_of_string line).

(** A token that can stand in a path: not empty, no whitespace, no
    backslash. *)
Definition clean_token (t : string) : Prop :=
  t <> "" /\
  forall c, In c (list_ascii_of_string t) ->
            PyStr.isspace c = false /\ c <> PyStr.backslash.

(** More files for the examples. *)
Module MoreFixtures.

(** A map file whose second line is blank. *)
Definition blank_line_text : string :=
  "images\a.tif labels\a.xml

images\b.tif labels\b.xml
".

Definition blank_line_world : World :=
  Fixtures.world_of
    [((Fixtures.rf3_dir ++ "/map.txt")%string, blank_line_text);
     ((Fixtures.rf_dir ++ "/map.txt")%string, blank_line_text)]
    [] [].

End MoreFixtures.

(** The values of row [i] of [a] where [alpha] is not zero, left to
    right. *)
Definition masked_row (a alpha : array2 Z) (i : nat) : list Z :=
  flat_map (fun j =>
    match get2 alpha i j, get2 a i j with
    | Some m, Some x => if Z.eqb m 0 then [] else [x]
    | _, _ => []
    end) (seq 0 (ncols a)).

(** Whether some pixel of the band is not zero. *)
Definition some_nonzero (alpha : array2 Z) : bool :=
  existsb (fun x => negb (Z.eqb x 0)) (data2 alpha).

(** [a[i, j, c]], [None] outside the buffer. *)
Definition get3 {A : Type} (a : array3 A) (i j c : nat) : option A :=
  nth_error (data3 a) ((i * dim1 a + j) * dim2 a + c).

(** ** The figures of the two scripts *)

(** [a[..., idx]] for a list of channel indices. *)
Definition take_channels {A : Type} (a : array3 A) (idx : list nat)
  : result (array3 A) :=
  if forallb (fun c => c <? dim2 a) idx
  then Ok (mk_array3 (dim0 a) (dim1 a) (length idx)
             (flat_map (fun p =>
                flat_map (fun c =>
                  match get3 a (fst p) (snd p) c with
                  | Some x => [x]
                  | None => []
                  end) idx)
                (indices2 (dim0 a) (dim1 a))))
  else Raise IndexError.

(** [a[:, :, :n]]: a slice never raises, it stops at the last channel. *)
Definition slice_channels {A : Type} (a : array3 A) (n : nat) : array3 A :=
  let m := Nat.min n (dim2 a) in
  mk_array3 (dim0 a) (dim1 a) m
    (flat_map (fun p =>
       flat_map (fun c =>
         match get3 a (fst p) (snd p) c with
         | Some x => [x]
         | None => []
         end) (seq 0 m))
       (indices2 (dim0 a) (dim1 a))).

(** A function applied to every value of an array. *)
Definition map3 {A B : Type} (f : A -> B) (a : array3 A) : array3 B :=
  mk_array3 (dim0 a) (dim1 a) (dim2 a) (map f (data3 a)).

Definition same_lengths {A : Type} (rows : list (list A)) : bool :=
  match rows with
  | [] => true
  | r :: rest => forallb (fun r' => length r' =? length r) rest
  end.

(** [np.array(rows)] on a list of one-dimensional arrays: the
    two-dimensional array of the rows when they have one length.  When
    they do not, NumPy 1.24 and later raise [ValueError]; earlier
    versions build an array of the rows as objects ([ragged_allowed]).
    Either way row [i] of the result is row [i] of the list. *)
Definition np_array {A : Type} (ragged_allowed : bool) (rows : list (list A))
  : result (list (list A)) :=
  if same_lengths rows || ragged_allowed then Ok rows else Raise ValueError.

(** A label inside an f-string. *)
Definition py_str (label : option string) : string :=
  match label with
  | Some s => s
  | None => "None"
  end.

Section Figures.

Variable K : Kernels.

(** [np.clip(x, 0, 1)] on one value. *)
Variable clip_0_1 : float K -> float K.

Variable ragged_allowed : bool.

(** A row of 50 x 50 x 3 values as a picture, clipped, and its title. *)
Definition shown (row : list (float K)) (label : option string)
  : array3 (float K) * string :=
  (mk_array3 50 50 3 (map clip_0_1 row), ("Label: " ++ py_str label)%string).

(** One turn of the loop of the first figure of [3_randomforest.py]
    (ll. 256-271): the picture handed to [imshow] and its title. *)
Definition sample_figure (images : list (list (float K)))
    (labels : list (option string)) (i : nat)
  : result (array3 (float K) * string) :=
  row <- getitem images i ;;
  image_show <- reshape3 row 50 50 3 ;;
  label <- getitem labels i ;;
  image_show_rgb <- take_channels image_show [0; 1; 2] ;;
  let image_show_rgb := map3 (fun x => x) image_show_rgb in
  let image_show_rgb := map3 clip_0_1 image_show_rgb in
  Ok (image_show_rgb, ("Label: " ++ py_str label)%string).

(** The first figure (ll. 248-271). *)
Definition sample_figures (combined_images : list (list (float K)))
    (combined_labels : list (option string))
  : result (list (array3 (float K) * string)) :=
  images <- np_array ragged_allowed combined_images ;;
  let labels := combined_labels in
  let num_samples := 5 in
  mapM (sample_figure images labels) (seq 0 num_samples).

(** The script through its first figure. *)
Definition main_figures : World -> result (list (array3 (float K) * string)) :=
  fun w =>
    ' (combined_images, combined_labels) <- main K w ;;
    sample_figures combined_images combined_labels.

(** One turn of the loop of the figure of the test images, with
    [channels] 3 in [3_randomforest.py] (ll. 332-340) and 4 in
    [randomforest.py] (ll. 108-116). *)
Definition test_figure (channels : nat) (X_test : list (list (float K)))
    (y_test y_pred : list (option string)) (i : nat)
  : result (array3 (float K) * string) :=
  row <- getitem X_test i ;;
  image_show <- reshape3 row 50 50 channels ;;
  label <- getitem y_test i ;;
  pred_label <- getitem y_pred i ;;
  Ok (slice_channels image_show 3,
      ("True: " ++ py_str label
       ++ String PyStr.newline ("Predicted: " ++ py_str pred_label))%string).

Definition test_figures (channels : nat) (X_test : list (list (float K)))
    (y_test y_pred : list (option string))
  : result (list (array3 (float K) * string)) :=
  let num_images := 5 in
  mapM (test_figure channels X_test y_test y_pred) (seq 0 num_images).

End Figures.

(** ** Reference formulations for the map file *)

(** The lines of a text: joined they give the text back, every line but
    the last ends with its only newline, and the last does too or is a
    rest without newline that is not empty. *)
Definition lines_of (file : string) (lines : list string) : Prop :=
  String.concat "" lines = file /\
  Forall ends_with_newline (removelast lines) /\
  Forall (fun line => ends_with_newline line \/ unterminated line) lines.

(** A word: not empty, without whitespace. *)
Definition word (t : string) : Prop :=
  t <> "" /\
  forall c, In c (list_ascii_of_string t) -> PyStr.isspace c = false.

(** A text that is over or goes on with whitespace. *)
Definition starts_blank (s : string) : Prop :=
  match s with
  | "" => True
  | String c _ => PyStr.isspace c = true
  end.

(** [tokens_of s ts]: [ts] are the whitespace-separated tokens of [s],
    from left to right; whitespace is passed over, and a token is a word
    that ends where the text ends or whitespace follows. *)
Inductive tokens_of : string -> list string -> Prop :=
| tokens_end : tokens_of "" []
| tokens_blank (c : ascii) (s : string) (ts : list string) :
    PyStr.isspace c = true -> tokens_of s ts -> tokens_of (String c s) ts
| tokens_word (t s : string) (ts : list string) :
    word t -> starts_blank s -> tokens_of s ts ->
    tokens_of (t ++ s)%string (t :: ts).

(** [slashed s s']: [s'] is [s] with every backslash replaced by a
    slash, and nothing else changed. *)
Inductive slashed : string -> string -> Prop :=
| slashed_end : slashed "" ""
| slashed_backslash (s s' : string) :
    slashed s s' ->
    slashed (String PyStr.backslash s) (String PyStr.slash s')
| slashed_other (c : ascii) (s s' : string) :
    c <> PyStr.backslash -> slashed s s' ->
    slashed (String c s) (String c s').

(** A line with at least [n] tokens, and one with fewer. *)
Definition has_tokens (n : nat) (line : string) : Prop :=
  exists ts, tokens_of line ts /\ n <= length ts.

Definition lacks_tokens (n : nat) (line : string) : Prop :=
  exists ts, tokens_of line ts /\ length ts < n.

(** What a line of the map file contributes: [prefix] followed by its
    first token, and by its second, the tokens being those of the line
    without its trailing newline and with its backslashes replaced. *)
Definition line_pair (prefix line image label : string) : Prop :=
  exists body t0 t1 rest,
    slashed (chomp line) body /\
    tokens_of body (t0 :: t1 :: rest) /\
    image = (prefix ++ t0)%string /\
    label = (prefix ++ t1)%string.

(** ** Reference formulation for the stacked channels *)



(** * Properties *)

Unset Implicit Arguments.

(** ** The models at work *)

Example readlines_example :
  PyStr.readlines "a b
c d

e" = ["a b
"; "c d
"; "
"; "e"].
Proof. reflexivity. Qed.

Example map_line_example :
  map_line "data/" "images\000.tif	labels\000.xml
" = Ok ("data/images/000.tif", "data/labels/000.xml").
Proof. reflexivity. Qed.

Example map_line_blank : map_line "data/" "
" = Raise IndexError.
Proof. reflexivity. Qed.

Example flipud_example :
  flipud (mk_array2 3 2 [1; 2; 3; 4; 5; 6])
  = mk_array2 3 2 [5; 6; 3; 4; 1; 2].
Proof. reflexivity. Qed.

Example bool_index_example :
  bool_index (mk_array2 2 2 [11; 12; 13; 14]%Z)
    (ne0 (mk_array2 2 2 [255; 0; 0; 255]%Z))
  = Ok [11; 14]%Z.
Proof. reflexivity. Qed.

(** A row of two values is broadcast over the two rows of the target. *)
Example set_channel_broadcast :
  set_channel (fun x : Z => x) (zeros3 0%Z 2 2 2) 1
    (mk_array2 1 2 [7; 8]%Z)
  = Ok (mk_array3 2 2 2 [0; 7; 0; 8; 0; 7; 0; 8]%Z).
Proof. reflexivity. Qed.

Example set_channel_transposed :
  set_channel (fun x : Z => x) (zeros3 0%Z 2 3 3) 0
    (mk_array2 3 2 [1; 2; 3; 4; 5; 6]%Z)
  = Raise ValueError.
Proof. reflexivity. Qed.

Example iter_example :
  map text (iter "name" Fixtures.voc_two) = [Some "tree"; Some "road"].
Proof. reflexivity. Qed.

(** ** The error monad and its loops *)

Lemma bind_ok {A B : Type} (m : result A) (k : A -> result B) (b : B) :
  bind m k = Ok b -> exists a, m = Ok a /\ k a = Ok b.
Proof. destruct m as [a|e]; simpl; [eauto | discriminate]. Qed.

Lemma bind_raise {A B : Type} (m : result A) (k : A -> result B) (e : exn) :
  m = Raise e -> bind m k = Raise e.
Proof. intros ->. reflexivity. Qed.

Tactic Notation "bind_inv" hyp(H) "as" ident(a) ident(E) :=
  apply bind_ok in H; destruct H as (a & E & H).

Lemma mapM_Forall2 {A B : Type} (f : A -> result B) (l : list A) (l' : list B) :
  mapM f l = Ok l' -> Forall2 (fun x y => f x = Ok y) l l'.
Proof.
  revert l'. induction l as [|x l IH]; simpl; intros l' H.
  - injection H as <-. constructor.
  - bind_inv H as y Hy. bind_inv H as ys Hys. injection H as <-.
    constructor; auto.
Qed.

Lemma mapM_length {A B : Type} (f : A -> result B) (l : list A) (l' : list B) :
  mapM f l = Ok l' -> length l' = length l.
Proof.
  intros H. apply mapM_Forall2 in H. symmetry. eapply Forall2_length; eauto.
Qed.

Lemma mapM_ok {A B : Type} (f : A -> result B) (l : list A) :
  Forall (fun x => exists y, f x = Ok y) l -> exists l', mapM f l = Ok l'.
Proof.
  induction 1 as [|x l (y & Hy) _ (l' & Hl')]; simpl.
  - eauto.
  - rewrite Hy, Hl'. simpl. eauto.
Qed.

(** The loop stops at the first item whose body raises, with that
    exception. *)
Lemma mapM_raise {A B : Type} (f : A -> result B)
    (pre post : list A) (x : A) (e : exn) :
  Forall (fun y => is_ok (f y) = true) pre ->
  f x = Raise e ->
  mapM f (pre ++ x :: post) = Raise e.
Proof.
  intros Hpre Hx. induction Hpre as [|y pre Hy _ IH]; simpl.
  - now rewrite Hx.
  - destruct (f y); [|discriminate]. simpl. now rewrite IH.
Qed.

(** ** Shapes *)

Lemma flat_map_length_const {A B : Type} (f : A -> list B) (l : list A) (c : nat) :
  (forall x, In x l -> length (f x) = c) ->
  length (flat_map f l) = length l * c.
Proof.
  induction l as [|x l IH]; intros H; simpl; [reflexivity|].
  rewrite length_app, H, IH.
  - reflexivity.
  - intros y Hy. apply H. now right.
  - now left.
Qed.

Lemma indices2_length (n0 n1 : nat) : length (indices2 n0 n1) = n0 * n1.
Proof.
  unfold indices2. rewrite (flat_map_length_const _ _ n1).
  - now rewrite length_seq.
  - intros i _. now rewrite length_map, length_seq.
Qed.

Lemma indices3_length (n0 n1 n2 : nat) :
  length (indices3 n0 n1 n2) = n0 * n1 * n2.
Proof.
  unfold indices3. rewrite (flat_map_length_const _ _ (n1 * n2)).
  - rewrite length_seq. lia.
  - intros i _. rewrite (flat_map_length_const _ _ n2).
    + now rewrite length_seq.
    + intros j _. now rewrite length_map, length_seq.
Qed.

Lemma zeros3_wf {F : Type} (z : F) (n0 n1 n2 : nat) :
  wf_array3 (zeros3 z n0 n1 n2).
Proof. apply repeat_length. Qed.

Lemma set_channel_ok {B F : Type} (conv : B -> F) (dst r : array3 F)
    (ch : nat) (src : array2 B) :
  set_channel conv dst ch src = Ok r ->
  shape3 r = shape3 dst /\ (wf_array3 dst -> wf_array3 r) /\
  ch < dim2 dst /\ broadcastable (shape2 src) (dim0 dst, dim1 dst) = true.
Proof.
  unfold set_channel.
  destruct (ch <? dim2 dst) eqn:Hch; simpl; [|discriminate].
  destruct (broadcastable _ _) eqn:Hb; simpl; [|discriminate].
  intros H. injection H as <-. unfold wf_array3. simpl.
  rewrite length_map, length_combine, indices3_length.
  apply Nat.ltb_lt in Hch. repeat split; auto. lia.
Qed.

Lemma set_channel_succeeds {B F : Type} (conv : B -> F) (dst : array3 F)
    (ch : nat) (src : array2 B) :
  ch < dim2 dst ->
  broadcastable (shape2 src) (dim0 dst, dim1 dst) = true ->
  exists r, set_channel conv dst ch src = Ok r /\ shape3 r = shape3 dst.
Proof.
  intros Hch Hb. unfold set_channel.
  apply Nat.ltb_lt in Hch. rewrite Hch, Hb. simpl.
  eexists; split; reflexivity.
Qed.

Lemma set_channel_mismatch {B F : Type} (conv : B -> F) (dst : array3 F)
    (ch : nat) (src : array2 B) :
  ch < dim2 dst ->
  broadcastable (shape2 src) (dim0 dst, dim1 dst) = false ->
  set_channel conv dst ch src = Raise ValueError.
Proof.
  intros Hch Hb. unfold set_channel.
  apply Nat.ltb_lt in Hch. now rewrite Hch, Hb.
Qed.

(** A [(height, width)] band fits a [(width, height)] target exactly when
    the raster is square. *)
Lemma broadcastable_transposed (nX nY : nat) :
  broadcastable (nY, nX) (nX, nY) = true <-> nX = nY.
Proof.
  unfold broadcastable; simpl.
  rewrite andb_true_iff, !orb_true_iff, !Nat.eqb_eq. lia.
Qed.

Lemma broadcastable_fixed (nX nY n : nat) :
  broadcastable (nY, nX) (n, n) = true
  <-> (nX = n \/ nX = 1) /\ (nY = n \/ nY = 1).
Proof.
  unfold broadcastable; simpl.
  rewrite andb_true_iff, !orb_true_iff, !Nat.eqb_eq. lia.
Qed.

Lemma broadcastable_refl (s : nat * nat) : broadcastable s s = true.
Proof. unfold broadcastable. now rewrite !Nat.eqb_refl. Qed.

Lemma resize_ok (K : Kernels) (image : list Z) (s : nat * nat)
    (r : array2 (float K)) :
  resize K image s = Ok r ->
  image <> [] /\ shape2 r = s /\ wf_array2 r.
Proof.
  unfold resize. destruct image as [|x image]; [discriminate|].
  destruct s as [n m]. intros H. injection H as <-.
  split; [discriminate|]. split; [reflexivity|].
  unfold wf_array2; simpl. now rewrite length_map, indices2_length.
Qed.

Lemma resize_succeeds (K : Kernels) (image : list Z) (s : nat * nat) :
  image <> [] -> exists r, resize K image s = Ok r /\ shape2 r = s.
Proof.
  destruct image as [|x image]; [congruence|]. intros _.
  destruct s as [n m]. simpl. eauto.
Qed.

Lemma resize_stack_ok (K : Kernels) (nX nY : nat)
    (masked : list Z * list Z * list Z) (rgb : array3 (float K)) :
  resize_stack K nX nY masked = Ok rgb ->
  shape3 rgb = (nX, nY, 3) /\ length (data3 rgb) = nX * nY * 3.
Proof.
  destruct masked as [[rm gm] bm]. unfold resize_stack. intros H.
  bind_inv H as r Hr. bind_inv H as g Hg. bind_inv H as b Hb.
  bind_inv H as c0 H0. apply set_channel_ok in H0 as (S0 & W0 & _).
  bind_inv H as c1 H1. apply set_channel_ok in H1 as (S1 & W1 & _).
  bind_inv H as c2 H2. apply set_channel_ok in H2 as (S2 & W2 & _).
  injection H as <-.
  assert (S : shape3 c2 = (nX, nY, 3)) by now rewrite S2, S1, S0.
  split; [exact S|].
  specialize (W2 (W1 (W0 (zeros3_wf _ _ _ _)))). unfold wf_array3 in W2.
  injection S as E0 E1 E2. now rewrite W2, E0, E1, E2.
Qed.

Lemma resize_stack_succeeds (K : Kernels) (nX nY : nat) (rm gm bm : list Z) :
  rm <> [] -> gm <> [] -> bm <> [] ->
  exists rgb, resize_stack K nX nY (rm, gm, bm) = Ok rgb.
Proof.
  intros Hr Hg Hb. unfold resize_stack.
  destruct (@resize_succeeds K _ (nX, nY) Hr) as (r & -> & Sr).
  destruct (@resize_succeeds K _ (nX, nY) Hg) as (g & -> & Sg).
  destruct (@resize_succeeds K _ (nX, nY) Hb) as (b & -> & Sb).
  simpl.
  destruct (@set_channel_succeeds _ _ (fun x : float K => x)
              (zeros3 (fzero K) nX nY 3) 0 r) as (c0 & -> & S0).
  { simpl; lia. } { rewrite Sr. apply broadcastable_refl. }
  injection S0 as A0 A1 A2. simpl in A0, A1, A2. simpl.
  destruct (@set_channel_succeeds _ _ (fun x : float K => x) c0 1 g)
    as (c1 & -> & S1).
  { lia. } { rewrite Sg, A0, A1. apply broadcastable_refl. }
  injection S1 as B0 B1 B2. simpl.
  destruct (@set_channel_succeeds _ _ (fun x : float K => x) c1 2 b)
    as (c2 & -> & S2).
  { lia. } { rewrite Sb, B0, B1, A0, A1. apply broadcastable_refl. }
  simpl. eauto.
Qed.

Lemma warpAffine_length (K : Kernels) (src : array3 (float K))
    (M : RotationMatrix2D) (w h : nat) :
  length (data3 (warpAffine K src M (w, h))) = h * w * dim2 src.
Proof. simpl. now rewrite length_map, indices3_length. Qed.

(** ** Band reads *)

Lemma read_in_range (ds : Dataset) (n : nat) :
  1 <= n <= count ds -> read ds n = Ok (band_array ds n).
Proof.
  intros [H1 H2]. unfold read.
  apply Nat.leb_le in H1, H2. now rewrite H1, H2.
Qed.

Lemma read_out_of_range (ds : Dataset) (n : nat) :
  count ds < n -> read ds n = Raise IndexError.
Proof.
  intros H. unfold read. apply Nat.leb_gt in H. rewrite H.
  now rewrite andb_false_r.
Qed.

Lemma read_ok (ds : Dataset) (n : nat) (a : array2 Z) :
  read ds n = Ok a -> 1 <= n <= count ds /\ a = band_array ds n.
Proof.
  unfold read. destruct (1 <=? n) eqn:H1; [|discriminate].
  destruct (n <=? count ds) eqn:H2; [|discriminate]. simpl.
  intros H. injection H as <-.
  apply Nat.leb_le in H1, H2. auto.
Qed.

Lemma GetRasterBand_in_range (ds : Dataset) (n : nat) :
  1 <= n <= count ds -> ReadAsArray (GetRasterBand ds n) = Ok (band_array ds n).
Proof.
  intros [H1 H2]. unfold GetRasterBand.
  apply Nat.leb_le in H1, H2. now rewrite H1, H2.
Qed.

Lemma GetRasterBand_out_of_range (ds : Dataset) (n : nat) :
  count ds < n -> ReadAsArray (GetRasterBand ds n) = Raise AttributeError.
Proof.
  intros H. unfold GetRasterBand. apply Nat.leb_gt in H. rewrite H.
  now rewrite andb_false_r.
Qed.

Lemma GetRasterBand_ok (ds : Dataset) (n : nat) (a : array2 Z) :
  ReadAsArray (GetRasterBand ds n) = Ok a ->
  1 <= n <= count ds /\ a = band_array ds n.
Proof.
  unfold GetRasterBand. destruct (1 <=? n) eqn:H1; [|discriminate].
  destruct (n <=? count ds) eqn:H2; [|discriminate]. simpl.
  intros H. injection H as <-.
  apply Nat.leb_le in H1, H2. auto.
Qed.

Lemma preprocess_image_four_bands (w : World) (image : string) (ds : Dataset) :
  rasterio_open w image = Ok ds ->
  4 <= count ds ->
  preprocess_image w image
  = Ok (width ds, height ds, band_array ds 1, band_array ds 2,
        band_array ds 3, band_array ds 4).
Proof.
  intros Hopen Hc. unfold preprocess_image. rewrite Hopen. simpl.
  rewrite !read_in_range by lia. reflexivity.
Qed.

Lemma read_raises_IndexError (ds : Dataset) (n : nat) (e : exn) :
  read ds n = Raise e -> e = IndexError.
Proof.
  unfold read. destruct (_ && _); [discriminate|]. now intros [= <-].
Qed.

Lemma preprocess_image_few_bands (w : World) (image : string) (ds : Dataset) :
  rasterio_open w image = Ok ds ->
  count ds < 4 ->
  preprocess_image w image = Raise IndexError.
Proof.
  intros Hopen Hc. unfold preprocess_image. rewrite Hopen. simpl.
  rewrite (@read_out_of_range ds 4) by lia.
  destruct (read ds 1) eqn:E1; simpl;
    [|apply read_raises_IndexError in E1; now subst].
  destruct (read ds 2) eqn:E2; simpl;
    [|apply read_raises_IndexError in E2; now subst].
  destruct (read ds 3) eqn:E3; simpl;
    [|apply read_raises_IndexError in E3; now subst].
  reflexivity.
Qed.

Lemma preprocess_image_ok (w : World) (image : string)
    (nX nY : nat) (red green blue alpha : array2 Z) :
  preprocess_image w image = Ok (nX, nY, red, green, blue, alpha) ->
  exists ds, rasterio_open w image = Ok ds /\ 4 <= count ds /\
    nX = width ds /\ nY = height ds /\
    red = band_array ds 1 /\ green = band_array ds 2 /\
    blue = band_array ds 3 /\ alpha = band_array ds 4.
Proof.
  unfold preprocess_image. intros H.
  bind_inv H as ds Hopen.
  bind_inv H as r Hr. bind_inv H as g Hg.
  bind_inv H as b Hb. bind_inv H as a Ha.
  injection H as <- <- <- <- <- <-.
  apply read_ok in Hr as [_ ->], Hg as [_ ->], Hb as [_ ->], Ha as [Hc ->].
  exists ds. repeat split; auto; lia.
Qed.

(** ** The length of a feature vector *)

Section FeatureVectors.

Variable K : Kernels.
Variable w : World.

Lemma preprocess_training_data_image_ok (image : string) (v : list (float K)) :
  preprocess_training_data_image K w image = Ok v ->
  exists ds, rasterio_open w image = Ok ds /\ 4 <= count ds /\
    width ds = height ds /\ length v = width ds * height ds * 3.
Proof.
  unfold preprocess_training_data_image. intros H.
  bind_inv H as t Ht. destruct t as [[[[[nX nY] red] green] blue] alpha].
  apply preprocess_image_ok in Ht
    as (ds & Hopen & Hc & -> & -> & -> & _ & _ & _).
  bind_inv H as c0 H0. apply set_channel_ok in H0 as (_ & _ & _ & Hb).
  simpl in Hb. apply broadcastable_transposed in Hb.
  bind_inv H as c1 H1. bind_inv H as c2 H2.
  bind_inv H as masked Hm. bind_inv H as rgb Hrgb.
  injection H as <-. apply resize_stack_ok in Hrgb as [_ L].
  exists ds. auto.
Qed.

Lemma augment_flip_image_ok (image : string) (v : list (float K)) :
  augment_flip_image K w image = Ok v ->
  exists ds, rasterio_open w image = Ok ds /\ 4 <= count ds /\
    length v = width ds * height ds * 3.
Proof.
  unfold augment_flip_image. intros H.
  bind_inv H as t Ht. destruct t as [[[[[nX nY] red] green] blue] alpha].
  apply preprocess_image_ok in Ht
    as (ds & Hopen & Hc & -> & -> & _).
  bind_inv H as masked Hm. bind_inv H as rgb Hrgb.
  injection H as <-. apply resize_stack_ok in Hrgb as [_ L].
  exists ds. auto.
Qed.

Lemma augment_flip_rotate_90_image_ok (image : string) (v : list (float K)) :
  augment_flip_rotate_90_image K w image = Ok v ->
  exists ds, rasterio_open w image = Ok ds /\ 4 <= count ds /\
    length v = width ds * height ds * 3.
Proof.
  unfold augment_flip_rotate_90_image. intros H.
  bind_inv H as t Ht. destruct t as [[[[[nX nY] red] green] blue] alpha].
  apply preprocess_image_ok in Ht
    as (ds & Hopen & Hc & -> & -> & _).
  bind_inv H as masked Hm. bind_inv H as rgb Hrgb.
  injection H as <-. apply resize_stack_ok in Hrgb as [S _].
  exists ds. split; [assumption|]. split; [assumption|].
  rewrite length_map, indices3_length.
  injection S as _ _ ->. reflexivity.
Qed.

Lemma image_step_ok (image : string) (v : list (float K)) :
  Randomforest.image_step K w image = Ok v ->
  exists ds, gdal_Open w image = Some ds /\ 4 <= count ds /\
    (width ds = 50 \/ width ds = 1) /\ (height ds = 50 \/ height ds = 1) /\
    length v = 50 * 50 * 4.
Proof.
  unfold Randomforest.image_step. intros H.
  bind_inv H as ds Hopen.
  destruct (gdal_Open w image) as [ds'|]; [|discriminate].
  injection Hopen as ->.
  bind_inv H as nir Hnir. apply GetRasterBand_ok in Hnir as [Hc ->].
  bind_inv H as blue Hblue. apply GetRasterBand_ok in Hblue as [_ ->].
  bind_inv H as green Hgreen. apply GetRasterBand_ok in Hgreen as [_ ->].
  bind_inv H as red Hred. apply GetRasterBand_ok in Hred as [_ ->].
  bind_inv H as c0 H0. apply set_channel_ok in H0 as (S0 & W0 & _ & Hb).
  bind_inv H as c1 H1. apply set_channel_ok in H1 as (S1 & W1 & _).
  bind_inv H as c2 H2. apply set_channel_ok in H2 as (S2 & W2 & _).
  bind_inv H as c3 H3. apply set_channel_ok in H3 as (S3 & W3 & _).
  injection H as <-.
  simpl in Hb. apply broadcastable_fixed in Hb as [Hw Hh].
  exists ds. repeat split; try assumption; try lia.
  assert (S : shape3 c3 = (50, 50, 4)) by now rewrite S3, S2, S1, S0.
  specialize (W3 (W2 (W1 (W0 (zeros3_wf _ _ _ _))))). unfold wf_array3 in W3.
  injection S as E0 E1 E2. unfold flatten3. now rewrite W3, E0, E1, E2.
Qed.

End FeatureVectors.

(** ** Boolean masks *)

Lemma flat_map_map {A B C : Type} (f : B -> list C) (g : A -> B) (l : list A) :
  flat_map f (map g l) = flat_map (fun x => f (g x)) l.
Proof. induction l as [|x l IH]; simpl; [reflexivity | now rewrite IH]. Qed.

Lemma seq_from (s n : nat) : seq s n = map (fun j => s + j) (seq 0 n).
Proof.
  revert s. induction n as [|n IH]; intros s; simpl; [reflexivity|].
  rewrite Nat.add_0_r. f_equal.
  rewrite (IH (S s)), (IH 1), map_map. apply map_ext. intros j. lia.
Qed.

Lemma flat_map_grid {B : Type} (g : nat -> list B) (r c : nat) :
  flat_map g (seq 0 (r * c))
  = flat_map (fun i => flat_map (fun j => g (i * c + j)) (seq 0 c)) (seq 0 r).
Proof.
  induction r as [|r IH]; [reflexivity|].
  replace (S r * c) with (r * c + c) by lia.
  rewrite seq_app, seq_S, !flat_map_app, IH. simpl.
  rewrite app_nil_r. f_equal.
  rewrite (seq_from (r * c) c). apply flat_map_map.
Qed.

Lemma masked_by_index (xs ms : list Z) :
  length xs = length ms ->
  map fst (filter snd (combine xs (map (fun x => negb (Z.eqb x 0)) ms)))
  = flat_map (pick xs ms) (seq 0 (length xs)).
Proof.
  revert ms. induction xs as [|x xs IH]; intros [|m ms] L;
    try discriminate; [reflexivity|].
  injection L as L.
  assert (R : flat_map (pick (x :: xs) (m :: ms)) (seq 0 (length (x :: xs)))
              = pick (x :: xs) (m :: ms) 0 ++ flat_map (pick xs ms) (seq 0 (length xs))).
  { simpl length. simpl seq. rewrite (seq_from 1). simpl flat_map.
    rewrite flat_map_map. reflexivity. }
  rewrite R, <- (IH ms L). unfold pick. simpl.
  destruct (Z.eqb m 0); reflexivity.
Qed.

Lemma bool_index_values_where (a alpha : array2 Z) :
  wf_array2 a -> wf_array2 alpha -> shape2 a = shape2 alpha ->
  bool_index a (ne0 alpha) = Ok (values_where a alpha).
Proof.
  unfold wf_array2, shape2. intros Wa Wm S. injection S as Sr Sc.
  unfold bool_index. simpl. rewrite Sr, Sc, !Nat.eqb_refl. simpl. f_equal.
  rewrite masked_by_index by lia.
  rewrite Wa, flat_map_grid. unfold values_where, get2, pick.
  rewrite Sc. reflexivity.
Qed.

Lemma get2_in_range {A : Type} (a : array2 A) (i j : nat) :
  wf_array2 a -> i < nrows a -> j < ncols a -> exists x, get2 a i j = Some x.
Proof.
  unfold wf_array2, get2. intros W Hi Hj.
  destruct (nth_error (data2 a) (i * ncols a + j)) eqn:E; [eauto|].
  apply nth_error_None in E. nia.
Qed.

Lemma row_of_length {A : Type} (a : array2 A) (r : nat) :
  wf_array2 a -> r < nrows a -> length (row_of a r) = ncols a.
Proof.
  intros W Hr. unfold row_of.
  rewrite (flat_map_length_const _ _ 1).
  - rewrite length_seq. lia.
  - intros j Hj. apply in_seq in Hj.
    destruct (@get2_in_range _ a r j W) as [x ->]; [lia | lia | reflexivity].
Qed.

Lemma flipud_wf {A : Type} (a : array2 A) : wf_array2 a -> wf_array2 (flipud a).
Proof.
  intros W. unfold wf_array2, flipud. simpl.
  rewrite (flat_map_length_const _ _ (ncols a)).
  - now rewrite length_seq.
  - intros i Hi. apply in_seq in Hi. apply row_of_length; auto; lia.
Qed.

Lemma band_array_wf (ds : Dataset) (n : nat) :
  wf_dataset ds = true -> 1 <= n <= count ds -> wf_array2 (band_array ds n).
Proof.
  unfold wf_dataset, wf_array2, band_array, count. simpl. intros W Hn.
  rewrite forallb_forall in W. apply Nat.eqb_eq, W, nth_In. lia.
Qed.

Lemma mask_bands_values_where (red green blue alpha : array2 Z) :
  wf_array2 red -> wf_array2 green -> wf_array2 blue -> wf_array2 alpha ->
  shape2 red = shape2 alpha -> shape2 green = shape2 alpha ->
  shape2 blue = shape2 alpha ->
  mask_bands red green blue alpha
  = Ok (values_where red alpha, values_where green alpha,
        values_where blue alpha).
Proof.
  intros Wr Wg Wb Wa Sr Sg Sb. unfold mask_bands.
  rewrite !bool_index_values_where by assumption. reflexivity.
Qed.

Lemma nth_error_chunks {A B : Type} (f : A -> list B) (l : list A)
    (c i j : nat) (x : A) :
  (forall y, In y l -> length (f y) = c) ->
  nth_error l i = Some x -> j < c ->
  nth_error (flat_map f l) (i * c + j) = nth_error (f x) j.
Proof.
  revert i. induction l as [|y l IH]; intros i Hc Hi Hj.
  - destruct i; discriminate.
  - simpl. destruct i as [|i]; simpl in Hi.
    + injection Hi as ->. simpl. apply nth_error_app1.
      rewrite Hc by now left. exact Hj.
    + rewrite nth_error_app2; rewrite (Hc y) by now left.
      * replace (S i * c + j - c) with (i * c + j) by lia.
        apply IH; auto. intros z Hz. apply Hc. now right.
      * simpl. lia.
Qed.

Lemma seq_nth_error (n k : nat) : k < n -> nth_error (seq 0 n) k = Some k.
Proof.
  intros H. rewrite nth_error_nth' with (d := 0) by (rewrite length_seq; lia).
  now rewrite seq_nth.
Qed.

Lemma row_of_nth {A : Type} (a : array2 A) (r j : nat) :
  wf_array2 a -> r < nrows a -> j < ncols a ->
  nth_error (row_of a r) j = get2 a r j.
Proof.
  intros W Hr Hj. unfold row_of.
  pose proof (@nth_error_chunks _ _
    (fun j => match get2 a r j with Some x => [x] | None => [] end)
    (seq 0 (ncols a)) 1 j 0 j) as E.
  rewrite Nat.mul_1_r, Nat.add_0_r in E. rewrite E.
  - destruct (@get2_in_range _ a r j W) as [x ->]; [lia | lia | reflexivity].
  - intros y Hy. apply in_seq in Hy.
    destruct (@get2_in_range _ a r y W) as [x ->]; [lia | lia | reflexivity].
  - now apply seq_nth_error.
  - lia.
Qed.

(** [flipud] read by index: row [i] of the result is row [nrows - 1 - i]
    of the argument. *)
Lemma flipud_get2 {A : Type} (a : array2 A) (i j : nat) :
  wf_array2 a -> i < nrows a -> j < ncols a ->
  get2 (flipud a) i j = get2 a (nrows a - 1 - i) j.
Proof.
  intros W Hi Hj. unfold get2 at 1. unfold flipud. simpl.
  rewrite (@nth_error_chunks _ _ _ _ (ncols a) i j i).
  - apply row_of_nth; auto; lia.
  - intros y Hy. apply in_seq in Hy. apply row_of_length; auto; lia.
  - now apply seq_nth_error.
  - exact Hj.
Qed.

(** ** Element trees *)

Lemma Element_induction (P : Element -> Prop) :
  (forall t x ch, Forall P ch -> P (mkElement t x ch)) ->
  forall e, P e.
Proof.
  intros H. fix IH 1. intros [t x ch]. apply H.
  induction ch as [|c ch IHch]; constructor; [apply IH | exact IHch].
Qed.

Lemma flat_map_filter {A B : Type} (p : B -> bool) (f g : A -> list B)
    (l : list A) :
  Forall (fun x => f x = filter p (g x)) l ->
  flat_map f l = filter p (flat_map g l).
Proof.
  induction 1 as [|x l Hx _ IH]; simpl; [reflexivity|].
  now rewrite filter_app, Hx, IH.
Qed.

(** [iter "name"] yields the [name] elements in document order. *)
Lemma iter_name_elements (root : Element) :
  iter "name" root = name_elements root.
Proof.
  unfold name_elements.
  induction root as [t x ch IH] using Element_induction.
  simpl. unfold is_name at 1. simpl.
  destruct (String.eqb t "name"); simpl; [f_equal|];
    apply flat_map_filter; exact IH.
Qed.

Lemma fold_left_last {A B : Type} (f : A -> B) (l : list A) (x : A) (acc : option B) :
  fold_left (fun _ e => Some (f e)) (l ++ [x]) acc = Some (f x).
Proof. now rewrite fold_left_app. Qed.

Lemma classification_after_nil : classification_after [] = None.
Proof. reflexivity. Qed.

Lemma classification_after_last (pre : list Element) (e : Element) :
  classification_after (pre ++ [e]) = Some (text e).
Proof. apply fold_left_last. Qed.

Lemma extract_classification_last (w : World) (label : string)
    (root : Element) (pre : list Element) (e : Element) :
  ET_parse w label = Ok root ->
  name_elements root = pre ++ [e] ->
  extract_classification w label = Ok (text e).
Proof.
  intros Hp Hn. unfold extract_classification. rewrite Hp. simpl.
  now rewrite iter_name_elements, Hn, classification_after_last.
Qed.

Lemma extract_classification_unbound (w : World) (label : string)
    (root : Element) :
  ET_parse w label = Ok root ->
  name_elements root = [] ->
  extract_classification w label = Raise UnboundLocalError.
Proof.
  intros Hp Hn. unfold extract_classification. rewrite Hp. simpl.
  now rewrite iter_name_elements, Hn.
Qed.

(** ** Strings *)

Section Strings.

Import PyStr.

Lemma isspace_swap (c : ascii) :
  isspace (if Ascii.eqb c backslash then slash else c) = isspace c.
Proof.
  destruct (Ascii.eqb c backslash) eqn:E; [|reflexivity].
  apply Ascii.eqb_eq in E. subst c. reflexivity.
Qed.

Lemma replace_snoc (old new : ascii) (s : string) (c : ascii) :
  replace old new (snoc s c)
  = snoc (replace old new s) (if Ascii.eqb c old then new else c).
Proof.
  unfold snoc. induction s as [|d s IH]; simpl; [reflexivity|].
  now rewrite IH.
Qed.

Lemma split_go_replace (s cur : string) :
  split_go (replace backslash slash cur) (replace backslash slash s)
  = map (replace backslash slash) (split_go cur s).
Proof.
  revert cur. induction s as [|c s IH]; intros cur; simpl.
  - destruct cur; reflexivity.
  - rewrite isspace_swap. destruct (isspace c).
    + destruct cur as [|d cur]; simpl.
      * apply (IH "").
      * f_equal. apply (IH "").
    + rewrite <- IH, replace_snoc. reflexivity.
Qed.

Lemma split_replace (s : string) :
  split (replace backslash slash s) = map (replace backslash slash) (split s).
Proof. apply (split_go_replace s ""). Qed.

Lemma split_lstrip (s : string) : split (lstrip newline s) = split s.
Proof.
  unfold split. induction s as [|c s IH]; simpl; [reflexivity|].
  destruct (Ascii.eqb c newline) eqn:E.
  - apply Ascii.eqb_eq in E. subst c. simpl. exact IH.
  - reflexivity.
Qed.

Lemma split_go_rstrip (s cur : string) :
  split_go cur (rstrip newline s) = split_go cur s.
Proof.
  revert cur. induction s as [|c s IH]; intros cur; simpl; [reflexivity|].
  destruct (rstrip newline s) as [|d r] eqn:R.
  - destruct (Ascii.eqb c newline) eqn:E.
    + apply Ascii.eqb_eq in E. subst c. simpl.
      destruct cur; rewrite <- IH; reflexivity.
    + simpl. destruct (isspace c); [destruct cur|]; rewrite <- IH; reflexivity.
  - simpl. destruct (isspace c); [destruct cur|]; rewrite <- IH; reflexivity.
Qed.

Lemma split_strip (s : string) : split (strip newline s) = split s.
Proof.
  unfold strip, split. rewrite split_go_rstrip. apply split_lstrip.
Qed.

Lemma split_go_chomp (s cur : string) :
  split_go cur (chomp s) = split_go cur s.
Proof.
  revert cur. induction s as [|c s IH]; intros cur; [reflexivity|].
  destruct s as [|d s].
  - simpl. destruct (Ascii.eqb c newline) eqn:E; [|reflexivity].
    apply Ascii.eqb_eq in E. subst c. simpl. destruct cur; reflexivity.
  - change (chomp (String c (String d s))) with (String c (chomp (String d s))).
    remember (String d s) as rest eqn:R. simpl.
    destruct (isspace c); [destruct cur|]; rewrite IH; reflexivity.
Qed.

(** The tokens the loop takes from a line are the tokens of the line. *)
Lemma loop_tokens (line : string) :
  split (replace backslash slash (strip newline line)) = line_tokens line.
Proof.
  unfold line_tokens. rewrite !split_replace, split_strip.
  unfold split. now rewrite split_go_chomp.
Qed.

Lemma line_tokens_length (line : string) :
  length (line_tokens line) = length (split line).
Proof.
  unfold line_tokens. rewrite split_replace, length_map.
  unfold split. now rewrite split_go_chomp.
Qed.

End Strings.

Lemma map_line_tokens (prefix line : string) :
  map_line prefix line
  = match line_tokens line with
    | t0 :: t1 :: _ => Ok ((prefix ++ t0)%string, (prefix ++ t1)%string)
    | _ => Raise IndexError
    end.
Proof.
  unfold map_line. rewrite loop_tokens.
  destruct (line_tokens line) as [|t0 [|t1 rest]]; reflexivity.
Qed.

Lemma Forall2_nth_error_l {A B : Type} (R : A -> B -> Prop)
    (l : list A) (l' : list B) (i : nat) (x : A) :
  Forall2 R l l' -> nth_error l i = Some x ->
  exists y, nth_error l' i = Some y /\ R x y.
Proof.
  intros H. revert i. induction H as [|a b l l' Hab _ IH];
    intros [|i] Hi; simpl in Hi; try discriminate.
  - injection Hi as ->. exists b. auto.
  - apply IH. exact Hi.
Qed.

(** ** The map file *)

Lemma map_loop_pairs (prefix : string) (lines : list string) :
  Forall (fun line => 2 <= length (PyStr.split line)) lines ->
  exists pairs,
    mapM (map_line prefix) lines = Ok pairs /\
    Forall2 (fun line p =>
      exists t0 t1,
        nth_error (line_tokens line) 0 = Some t0 /\
        nth_error (line_tokens line) 1 = Some t1 /\
        p = ((prefix ++ t0)%string, (prefix ++ t1)%string)) lines pairs.
Proof.
  induction 1 as [|line lines Hl _ (pairs & Hp & Hf)]; simpl.
  - exists []. split; [reflexivity | constructor].
  - rewrite map_line_tokens, Hp.
    rewrite <- line_tokens_length in Hl.
    destruct (line_tokens line) as [|t0 [|t1 rest]] eqn:E;
      simpl in Hl; try lia.
    simpl. eexists; split; [reflexivity|].
    constructor; [|exact Hf]. exists t0, t1. rewrite E. auto.
Qed.

(** ** Annotations *)

Lemma name_elements_in (root e : Element) :
  In e (name_elements root) <-> In e (document_order root) /\ tag e = "name".
Proof.
  unfold name_elements, is_name. rewrite filter_In, String.eqb_eq. tauto.
Qed.

(** C8. For an annotation file, that is a document with a [name] element,
    [extract_classification] returns the text of a [name] element of the
    document. *)
Theorem extract_classification_name (w : World) (label : string)
    (root : Element) :
  ET_parse w label = Ok root ->
  (exists e, In e (document_order root) /\ tag e = "name") ->
  exists e,
    In e (document_order root) /\ tag e = "name" /\
    extract_classification w label = Ok (text e).
Proof.
  intros Hp (e0 & Hin).
  apply name_elements_in in Hin.
  destruct (exists_last (l := name_elements root)) as (pre & e & E).
  { intros E. rewrite E in Hin. exact Hin. }
  exists e.
  assert (He : In e (name_elements root)).
  { rewrite E. apply in_or_app. right. now left. }
  apply name_elements_in in He as [He1 He2].
  split; [exact He1|]. split; [exact He2|].
  eapply extract_classification_last; eauto.
Qed.

Lemma extract_classification_name_witness :
  exists e,
    In e (document_order Fixtures.voc_one) /\ tag e = "name" /\
    extract_classification Fixtures.small_world Fixtures.a_xml = Ok (text e).
Proof.
  apply (extract_classification_name Fixtures.small_world Fixtures.a_xml
           Fixtures.voc_one).
  - reflexivity.
  - exists (mkElement "name" (Some "tree") []). split; [|reflexivity].
    simpl. right. right. right. left. reflexivity.
Defined.

(** C10. On a document without a [name] element [extract_classification]
    raises, [classification] being unbound at the [return]; on a document
    with two or more [name] elements it returns the text of the last one in
    document order. *)
Theorem extract_classification_edges (w : World) (label : string)
    (root : Element) :
  ET_parse w label = Ok root ->
  (name_elements root = [] ->
   extract_classification w label = Raise UnboundLocalError) /\
  (2 <= length (name_elements root) ->
   exists pre e,
     name_elements root = pre ++ [e] /\
     extract_classification w label = Ok (text e)).
Proof.
  intros Hp. split.
  - now apply extract_classification_unbound.
  - intros Hlen.
    destruct (exists_last (l := name_elements root)) as (pre & e & E).
    { intros E. rewrite E in Hlen. simpl in Hlen. lia. }
    exists pre, e. split; [exact E|].
    eapply extract_classification_last; eauto.
Qed.

Lemma extract_classification_edges_witness :
  extract_classification
    (Fixtures.training_world Fixtures.tile_2x2 Fixtures.tile_2x2
       Fixtures.tile_2x2 Fixtures.tile_2x2
       (Some Fixtures.voc_none) (Some Fixtures.voc_two)) Fixtures.a_xml
  = Raise UnboundLocalError /\
  exists pre e,
    name_elements Fixtures.voc_two = pre ++ [e] /\
    text e = Some "road" /\
    extract_classification
      (Fixtures.training_world Fixtures.tile_2x2 Fixtures.tile_2x2
         Fixtures.tile_2x2 Fixtures.tile_2x2
         (Some Fixtures.voc_none) (Some Fixtures.voc_two)) Fixtures.b_xml
    = Ok (text e).
Proof.
  split.
  - apply (extract_classification_edges _ Fixtures.a_xml Fixtures.voc_none);
      reflexivity.
  - destruct (extract_classification_edges
                (Fixtures.training_world Fixtures.tile_2x2 Fixtures.tile_2x2
                   Fixtures.tile_2x2 Fixtures.tile_2x2
                   (Some Fixtures.voc_none) (Some Fixtures.voc_two))
                Fixtures.b_xml Fixtures.voc_two eq_refl) as [_ H].
    destruct H as (pre & e & E & Hx); [simpl; lia|].
    exists pre, e. split; [exact E|]. split; [|exact Hx].
    change (name_elements Fixtures.voc_two)
      with ([mkElement "name" (Some "tree") []]
              ++ [mkElement "name" (Some "road") []]) in E.
    apply app_inj_tail in E as [_ <-]. reflexivity.
Defined.

(** ** Band counts *)

Lemma image_step_few_bands (K : Kernels) (w : World) (image : string)
    (ds : Dataset) :
  gdal_Open w image = Some ds ->
  count ds < 4 ->
  Randomforest.image_step K w image = Raise AttributeError.
Proof.
  intros Hopen Hc. unfold Randomforest.image_step. rewrite Hopen. simpl.
  now rewrite (GetRasterBand_out_of_range ds 4) by lia.
Qed.

(** C2, as stated, fails: the read step raises on a three-band raster, in
    both scripts. *)
Lemma three_band_read_fails :
  count (Fixtures.flat_raster 2 2 3) = 3 /\
  rasterio_open Fixtures.three_band_world Fixtures.a_tif
  = Ok (Fixtures.flat_raster 2 2 3) /\
  preprocess_image Fixtures.three_band_world Fixtures.a_tif
  = Raise IndexError /\
  count (Fixtures.flat_raster 50 50 3) = 3 /\
  gdal_Open Fixtures.three_band_world Fixtures.a_tif'
  = Some (Fixtures.flat_raster 50 50 3) /\
  Randomforest.image_step Fixtures.nearest_kernels Fixtures.three_band_world
    Fixtures.a_tif' = Raise AttributeError.
Proof. vm_compute. repeat split; reflexivity. Qed.

(** ** Exceptions *)

Section Propagation.

Variable K : Kernels.
Variable w : World.

Lemma loader_image_raises (body : string -> result (list (float K)))
    (pre post label_path : list string) (image : string) (e : exn) :
  Forall (fun y => is_ok (body y) = true) pre ->
  body image = Raise e ->
  (images <- mapM body (pre ++ image :: post) ;;
   labels <- label_loop w label_path ;;
   Ok (images, labels)) = Raise e.
Proof. intros Hpre Hx. now rewrite (mapM_raise body pre post image e). Qed.

Lemma loader_label_raises (body : string -> result (list (float K)))
    (image_path pre post : list string) (label : string) (e : exn) :
  is_ok (mapM body image_path) = true ->
  Forall (fun y => is_ok (extract_classification w y) = true) pre ->
  extract_classification w label = Raise e ->
  (images <- mapM body image_path ;;
   labels <- label_loop w (pre ++ label :: post) ;;
   Ok (images, labels)) = Raise e.
Proof.
  intros Hi Hpre Hx. destruct (mapM body image_path); [|discriminate].
  simpl. unfold label_loop.
  now rewrite (mapM_raise (extract_classification w) pre post label e).
Qed.

End Propagation.

(** C6. Nothing catches an exception.  A missing map file, a raster that
    cannot be opened or lacks a band, an annotation that is missing or
    malformed: the library's exception is the outcome of the operation
    that met it, unchanged, then of the loader whose loop reached it,
    then of the script; an outcome is a result or an exception, never
    both. *)
Theorem errors_propagate (K : Kernels) (w : World) :
  (forall path e,
     open_read w (path ++ "/map.txt")%string = Raise e ->
     get_training_data w path = Raise e) /\
  (forall image e,
     rasterio_open w image = Raise e -> preprocess_image w image = Raise e) /\
  (forall image ds,
     rasterio_open w image = Ok ds -> count ds < 4 ->
     preprocess_image w image = Raise IndexError) /\
  (forall label e,
     ET_parse w label = Raise e -> extract_classification w label = Raise e) /\
  (forall image e,
     preprocess_image w image = Raise e ->
     preprocess_training_data_image K w image = Raise e /\
     augment_flip_image K w image = Raise e /\
     augment_flip_rotate_90_image K w image = Raise e) /\
  (forall pre image post label_path e,
     (Forall (fun y => is_ok (preprocess_training_data_image K w y) = true) pre ->
      preprocess_training_data_image K w image = Raise e ->
      preprocess_training_data K w (pre ++ image :: post) label_path = Raise e) /\
     (Forall (fun y => is_ok (augment_flip_image K w y) = true) pre ->
      augment_flip_image K w image = Raise e ->
      augment_flip K w (pre ++ image :: post) label_path = Raise e) /\
     (Forall (fun y => is_ok (augment_flip_rotate_90_image K w y) = true) pre ->
      augment_flip_rotate_90_image K w image = Raise e ->
      augment_flip_rotate_90 K w (pre ++ image :: post) label_path = Raise e)) /\
  (forall image_path pre label post e,
     Forall (fun y => is_ok (extract_classification w y) = true) pre ->
     extract_classification w label = Raise e ->
     (is_ok (mapM (preprocess_training_data_image K w) image_path) = true ->
      preprocess_training_data K w image_path (pre ++ label :: post) = Raise e) /\
     (is_ok (mapM (augment_flip_image K w) image_path) = true ->
      augment_flip K w image_path (pre ++ label :: post) = Raise e) /\
     (is_ok (mapM (augment_flip_rotate_90_image K w) image_path) = true ->
      augment_flip_rotate_90 K w image_path (pre ++ label :: post) = Raise e)) /\
  (forall e, get_training_data w default_path = Raise e -> main K w = Raise e) /\
  (forall image_path label_path e,
     get_training_data w default_path = Ok (image_path, label_path) ->
     (preprocess_training_data K w image_path label_path = Raise e ->
      main K w = Raise e) /\
     (is_ok (preprocess_training_data K w image_path label_path) = true ->
      augment_flip K w image_path label_path = Raise e ->
      main K w = Raise e) /\
     (is_ok (preprocess_training_data K w image_path label_path) = true ->
      is_ok (augment_flip K w image_path label_path) = true ->
      augment_flip_rotate_90 K w image_path label_path = Raise e ->
      main K w = Raise e)).
Proof.
  repeat match goal with |- _ /\ _ => split end.
  - intros path e H. unfold get_training_data. now rewrite H.
  - intros image e H. unfold preprocess_image. now rewrite H.
  - intros image ds. apply preprocess_image_few_bands.
  - intros label e H. unfold extract_classification. now rewrite H.
  - intros image e H.
    unfold preprocess_training_data_image, augment_flip_image,
      augment_flip_rotate_90_image. rewrite H. auto.
  - intros pre image post label_path e.
    repeat split; intros Hpre Hx; now apply loader_image_raises.
  - intros image_path pre label post e Hpre Hx.
    repeat split; intros Hi; now apply loader_label_raises.
  - intros e H. unfold main. now rewrite H.
  - intros image_path label_path e Hg. unfold main. rewrite Hg. simpl.
    repeat split.
    + intros ->. reflexivity.
    + intros H1 ->.
      destruct (preprocess_training_data K w image_path label_path)
        as [[i l]|]; [reflexivity | discriminate].
    + intros H1 H2 ->.
      destruct (preprocess_training_data K w image_path label_path)
        as [[i l]|]; [|discriminate].
      destruct (augment_flip K w image_path label_path)
        as [[i' l']|]; [reflexivity | discriminate].
Qed.

Lemma errors_propagate_witness :
  get_training_data Fixtures.broken_world "nowhere" = Raise FileNotFoundError /\
  preprocess_image Fixtures.broken_world Fixtures.b_tif = Raise RasterioIOError /\
  preprocess_image Fixtures.broken_world Fixtures.a_tif = Raise IndexError /\
  extract_classification Fixtures.broken_world Fixtures.a_xml = Raise ParseError /\
  extract_classification Fixtures.broken_world Fixtures.b_xml
  = Raise FileNotFoundError /\
  preprocess_training_data Fixtures.nearest_kernels Fixtures.broken_world
    [Fixtures.a_tif; Fixtures.b_tif] [] = Raise IndexError /\
  main Fixtures.nearest_kernels Fixtures.broken_world = Raise IndexError.
Proof.
  destruct (errors_propagate Fixtures.nearest_kernels Fixtures.broken_world)
    as (Hmap & Hopen & Hband & Hxml & Hbody & Himg & _ & _ & Hmain).
  assert (Ha : preprocess_image Fixtures.broken_world Fixtures.a_tif
               = Raise IndexError).
  { apply (Hband Fixtures.a_tif (Fixtures.flat_raster 2 2 3));
      [reflexivity | vm_compute; lia]. }
  destruct (Hbody Fixtures.a_tif IndexError Ha) as [Hbody_a _].
  assert (Hl : forall label_path,
             preprocess_training_data Fixtures.nearest_kernels
               Fixtures.broken_world [Fixtures.a_tif; Fixtures.b_tif] label_path
             = Raise IndexError).
  { intros label_path.
    destruct (Himg [] Fixtures.a_tif [Fixtures.b_tif] label_path IndexError)
      as [H _].
    apply H; [constructor | exact Hbody_a]. }
  split; [apply Hmap; reflexivity|].
  split; [apply Hopen; reflexivity|].
  split; [exact Ha|].
  split; [apply Hxml; reflexivity|].
  split; [apply Hxml; reflexivity|].
  split; [apply Hl|].
  destruct (Hmain [Fixtures.a_tif; Fixtures.b_tif]
              [Fixtures.a_xml; Fixtures.b_xml] IndexError) as [H _].
  - vm_compute. reflexivity.
  - apply H, Hl.
Defined.

(** ** Labels *)

Section Labels.

Variable K : Kernels.
Variable w : World.

Lemma loader_ok (body : string -> result (list (float K)))
    (image_path label_path : list string)
    (images : list (list (float K))) (labels : list (option string)) :
  (images <- mapM body image_path ;;
   labels <- label_loop w label_path ;;
   Ok (images, labels)) = Ok (images, labels) ->
  mapM body image_path = Ok images /\ label_loop w label_path = Ok labels.
Proof.
  intros H. bind_inv H as im Him. bind_inv H as lb Hlb.
  injection H as <- <-. auto.
Qed.

(** The three loaders of [3_randomforest.py] return one vector per image
    path and one label per annotation path, label [i] being what
    [extract_classification] returns on annotation [i]. *)
Lemma loaders_aligned (image_path label_path : list string)
    (images : list (list (float K))) (labels : list (option string)) :
  preprocess_training_data K w image_path label_path = Ok (images, labels)
  \/ augment_flip K w image_path label_path = Ok (images, labels)
  \/ augment_flip_rotate_90 K w image_path label_path = Ok (images, labels) ->
  length images = length image_path /\
  length labels = length label_path /\
  Forall2 (fun label c => extract_classification w label = Ok c)
    label_path labels.
Proof.
  intros [H | [H | H]]; apply loader_ok in H as [Hi Hl];
    (split; [exact (mapM_length _ _ _ Hi)|]);
    (split; [exact (mapM_length _ _ _ Hl) | exact (mapM_Forall2 _ _ _ Hl)]).
Qed.

(** The label loop of [randomforest.py] appends one label per [name]
    element. *)
Lemma randomforest_label_count (labels_path : list string)
    (labels : list (option string)) :
  Randomforest.label_loop w labels_path = Ok labels ->
  exists roots,
    Forall2 (fun label root => ET_parse w label = Ok root) labels_path roots /\
    labels = flat_map (fun root => map text (name_elements root)) roots.
Proof.
  unfold Randomforest.label_loop. intros H.
  bind_inv H as per_file Hp. injection H as <-.
  revert per_file Hp. induction labels_path as [|label ls IH];
    simpl; intros per_file Hp.
  - injection Hp as <-. exists []. split; [constructor | reflexivity].
  - bind_inv Hp as names Hn. bind_inv Hp as rest Hr. injection Hp as <-.
    unfold Randomforest.label_step in Hn. bind_inv Hn as root Hroot.
    injection Hn as <-.
    destruct (IH rest Hr) as (roots & Hf & E).
    exists (root :: roots). split; [constructor; assumption|].
    simpl. now rewrite E, iter_name_elements.
Qed.

End Labels.

(** C3 on [randomforest.py]: with two tiles of 50 x 50 pixels and
    annotations holding one and two objects, the script ends its loading
    with two image vectors and three labels. *)
Lemma randomforest_labels_misaligned :
  exists images labels,
    Randomforest.load Fixtures.nearest_kernels Fixtures.tiles_world
    = Ok (images, labels) /\
    length images = 2 /\
    labels = [Some "tree"; Some "tree"; Some "road"].
Proof.
  assert (H : match Randomforest.load Fixtures.nearest_kernels
                      Fixtures.tiles_world with
              | Ok (images, labels) =>
                  length images = 2 /\
                  labels = [Some "tree"; Some "tree"; Some "road"]
              | Raise _ => False
              end) by (vm_compute; auto).
  destruct (Randomforest.load Fixtures.nearest_kernels Fixtures.tiles_world)
    as [[images labels]|]; [|contradiction].
  exists images, labels. tauto.
Qed.

(** C7. The three loaders return the same labels on the same annotation
    paths, so the combined labels of the script are the labels of
    [preprocess_training_data] three times over, in order. *)
Theorem augmentation_preserves_labels (K : Kernels) (w : World) :
  (forall image_path label_path images labels
          augmented_images augmented_labels
          augmented_images2 augmented_labels2,
     preprocess_training_data K w image_path label_path
     = Ok (images, labels) ->
     augment_flip K w image_path label_path
     = Ok (augmented_images, augmented_labels) ->
     augment_flip_rotate_90 K w image_path label_path
     = Ok (augmented_images2, augmented_labels2) ->
     augmented_labels = augmented_labels2 /\ augmented_labels = labels) /\
  (forall combined_images combined_labels,
     main K w = Ok (combined_images, combined_labels) ->
     exists image_path label_path images labels,
       get_training_data w default_path = Ok (image_path, label_path) /\
       preprocess_training_data K w image_path label_path
       = Ok (images, labels) /\
       combined_labels = labels ++ labels ++ labels).
Proof.
  assert (Hsame : forall image_path label_path images labels
          augmented_images augmented_labels
          augmented_images2 augmented_labels2,
     preprocess_training_data K w image_path label_path
     = Ok (images, labels) ->
     augment_flip K w image_path label_path
     = Ok (augmented_images, augmented_labels) ->
     augment_flip_rotate_90 K w image_path label_path
     = Ok (augmented_images2, augmented_labels2) ->
     augmented_labels = augmented_labels2 /\ augmented_labels = labels).
  { intros ip lp im1 l1 im2 l2 im3 l3 H1 H2 H3.
    apply loader_ok in H1 as [_ H1], H2 as [_ H2], H3 as [_ H3].
    rewrite H1 in H2, H3. injection H2 as <-. injection H3 as <-. auto. }
  split; [exact Hsame|].
  intros ci cl H. unfold main in H.
  bind_inv H as p Hg. destruct p as [ip lp].
  bind_inv H as p1 H1. destruct p1 as [im1 l1].
  bind_inv H as p2 H2. destruct p2 as [im2 l2].
  bind_inv H as p3 H3. destruct p3 as [im3 l3].
  injection H as <- <-.
  destruct (Hsame _ _ _ _ _ _ _ _ H1 H2 H3) as [-> ->].
  exists ip, lp, im1, l1. auto.
Qed.

Lemma augmentation_preserves_labels_witness :
  exists combined_images labels,
    main Fixtures.nearest_kernels Fixtures.small_world
    = Ok (combined_images, labels ++ labels ++ labels) /\
    labels = [Some "tree"; Some "road"].
Proof.
  assert (Hlab : match main Fixtures.nearest_kernels Fixtures.small_world with
                 | Ok (_, cl) =>
                     cl = [Some "tree"; Some "road"; Some "tree"; Some "road";
                           Some "tree"; Some "road"]
                 | Raise _ => False
                 end) by (vm_compute; reflexivity).
  destruct (augmentation_preserves_labels Fixtures.nearest_kernels
              Fixtures.small_world) as [_ H].
  destruct (main Fixtures.nearest_kernels Fixtures.small_world)
    as [[ci cl]|] eqn:E; [|contradiction].
  destruct (H ci cl eq_refl) as (ip & lp & im & l & Hg & Hp & ->).
  exists ci, l. split; [reflexivity|].
  assert (Hlen : length l = 2).
  { pose proof (f_equal (@length _) Hlab) as L.
    rewrite !length_app in L. simpl in L. lia. }
  destruct l as [|a [|b [|c l]]]; try discriminate Hlen.
  injection Hlab as -> -> _. reflexivity.
Defined.

(** ** Feature vectors, image by image *)

(** C1 (amended). In [3_randomforest.py] every vector that
    [preprocess_training_data], [augment_flip] or [augment_flip_rotate_90]
    appends has length width x height x 3 of its image.  In
    [randomforest.py] every vector the image loop appends has length
    50 x 50 x 4, which is width x height x 4 exactly when the image is
    50 x 50. *)
Theorem feature_vector_lengths (K : Kernels) (w : World)
    (image_path label_path : list string) :
  (forall images labels,
     preprocess_training_data K w image_path label_path = Ok (images, labels)
     \/ augment_flip K w image_path label_path = Ok (images, labels)
     \/ augment_flip_rotate_90 K w image_path label_path = Ok (images, labels) ->
     Forall2 (fun image v =>
                exists ds, rasterio_open w image = Ok ds /\
                           length v = width ds * height ds * 3)
       image_path images) /\
  (forall images,
     Randomforest.image_loop K w image_path = Ok images ->
     Forall2 (fun image v =>
                exists ds, gdal_Open w image = Some ds /\
                           length v = 50 * 50 * 4 /\
                           (length v = width ds * height ds * 4 <->
                            width ds = 50 /\ height ds = 50))
       image_path images).
Proof.
  split.
  - intros images labels [H | [H | H]];
      apply loader_ok in H as [H _]; apply mapM_Forall2 in H;
      revert H; apply Forall2_impl; intros image v H.
    + apply preprocess_training_data_image_ok in H
        as (ds & Ho & _ & _ & L). eauto.
    + apply augment_flip_image_ok in H as (ds & Ho & _ & L). eauto.
    + apply augment_flip_rotate_90_image_ok in H as (ds & Ho & _ & L). eauto.
  - intros images H. apply mapM_Forall2 in H.
    revert H; apply Forall2_impl; intros image v H.
    apply image_step_ok in H as (ds & Ho & _ & Hw & Hh & L).
    exists ds. split; [exact Ho|]. split; [exact L|].
    rewrite L. destruct Hw as [-> | ->], Hh as [-> | ->]; lia.
Qed.

Lemma feature_vector_lengths_witness :
  exists images labels,
    preprocess_training_data Fixtures.nearest_kernels Fixtures.small_world
      [Fixtures.a_tif; Fixtures.b_tif] [Fixtures.a_xml; Fixtures.b_xml]
    = Ok (images, labels) /\
    Forall2 (fun image v =>
               exists ds, rasterio_open Fixtures.small_world image = Ok ds /\
                          length v = width ds * height ds * 3)
      [Fixtures.a_tif; Fixtures.b_tif] images.
Proof.
  assert (Hok : is_ok (preprocess_training_data Fixtures.nearest_kernels
                         Fixtures.small_world [Fixtures.a_tif; Fixtures.b_tif]
                         [Fixtures.a_xml; Fixtures.b_xml]) = true)
    by (vm_compute; reflexivity).
  destruct (preprocess_training_data Fixtures.nearest_kernels
              Fixtures.small_world [Fixtures.a_tif; Fixtures.b_tif]
              [Fixtures.a_xml; Fixtures.b_xml])
    as [[images labels]|] eqn:E; [|discriminate Hok].
  exists images, labels. split; [reflexivity|].
  destruct (feature_vector_lengths Fixtures.nearest_kernels
              Fixtures.small_world [Fixtures.a_tif; Fixtures.b_tif]
              [Fixtures.a_xml; Fixtures.b_xml]) as [H _].
  apply (H images labels). left. exact E.
Defined.

(** C1, as stated, fails on [randomforest.py]: a raster of one pixel is
    accepted and its vector has 50 x 50 x 4 entries, not 1 x 1 x 4. *)
Lemma one_pixel_raster_vector :
  exists v,
    gdal_Open Fixtures.small_world Fixtures.a_tif'
    = Some (Fixtures.flat_raster 1 1 4) /\
    Randomforest.image_loop Fixtures.nearest_kernels Fixtures.small_world
      [Fixtures.a_tif'] = Ok [v] /\
    length v = 50 * 50 * 4 /\
    length v <> width (Fixtures.flat_raster 1 1 4)
                * height (Fixtures.flat_raster 1 1 4) * 4.
Proof.
  assert (H : match Randomforest.image_loop Fixtures.nearest_kernels
                      Fixtures.small_world [Fixtures.a_tif'] with
              | Ok [v] => length v = 50 * 50 * 4
              | _ => False
              end) by (vm_compute; reflexivity).
  destruct (Randomforest.image_loop Fixtures.nearest_kernels
              Fixtures.small_world [Fixtures.a_tif'])
    as [[|v [|? ?]]|]; try contradiction.
  exists v. split; [reflexivity|]. split; [reflexivity|].
  split; [exact H|]. rewrite H. vm_compute. discriminate.
Qed.

(** ** The square-raster precondition *)

Section Squares.

Variable K : Kernels.
Variable w : World.

Lemma preprocess_training_data_image_non_square (image : string)
    (ds : Dataset) :
  rasterio_open w image = Ok ds -> 4 <= count ds ->
  width ds <> height ds ->
  preprocess_training_data_image K w image = Raise ValueError.
Proof.
  intros Ho Hc Hne. unfold preprocess_training_data_image.
  rewrite (preprocess_image_four_bands w image ds Ho Hc). simpl.
  rewrite set_channel_mismatch; [reflexivity | simpl; lia |].
  simpl. destruct (broadcastable _ _) eqn:E; [|reflexivity].
  apply broadcastable_transposed in E. contradiction.
Qed.

Lemma image_step_succeeds (image : string) (ds : Dataset) :
  gdal_Open w image = Some ds -> 4 <= count ds ->
  (width ds = 50 \/ width ds = 1) -> (height ds = 50 \/ height ds = 1) ->
  exists v, Randomforest.image_step K w image = Ok v.
Proof.
  intros Ho Hc Hw Hh. unfold Randomforest.image_step. rewrite Ho. simpl.
  rewrite !GetRasterBand_in_range by lia. simpl.
  assert (Hb : forall n,
             broadcastable (shape2 (band_array ds n)) (50, 50) = true).
  { intros n. apply broadcastable_fixed. simpl. auto. }
  destruct (@set_channel_succeeds _ _ (of_int K)
              (zeros3 (fzero K) 50 50 4) 0 (band_array ds 1))
    as (c0 & -> & S0); [simpl; lia | apply Hb |].
  injection S0 as A0 A1 A2. simpl in A0, A1, A2. simpl.
  destruct (@set_channel_succeeds _ _ (of_int K) c0 1 (band_array ds 2))
    as (c1 & -> & S1); [lia | rewrite A0, A1; apply Hb |].
  injection S1 as B0 B1 B2. simpl.
  destruct (@set_channel_succeeds _ _ (of_int K) c1 2 (band_array ds 3))
    as (c2 & -> & S2); [lia | rewrite B0, B1, A0, A1; apply Hb |].
  injection S2 as C0 C1 C2. simpl.
  destruct (@set_channel_succeeds _ _ (of_int K) c2 3 (band_array ds 4))
    as (c3 & -> & S3); [lia | rewrite C0, C1, B0, B1, A0, A1; apply Hb |].
  simpl. eauto.
Qed.

Lemma masked_nonempty (xs ms : list Z) :
  length xs = length ms ->
  existsb (fun x => negb (Z.eqb x 0)) ms = true ->
  map fst (filter snd (combine xs (map (fun x => negb (Z.eqb x 0)) ms)))
  <> [].
Proof.
  revert ms. induction xs as [|x xs IH]; intros [|m ms] L H;
    try discriminate.
  injection L as L. simpl in *.
  destruct (negb (Z.eqb m 0)); simpl; [discriminate | now apply IH].
Qed.

Lemma bool_index_nonempty (a alpha : array2 Z) :
  wf_array2 a -> wf_array2 alpha -> shape2 a = shape2 alpha ->
  existsb (fun x => negb (Z.eqb x 0)) (data2 alpha) = true ->
  values_where a alpha <> [].
Proof.
  intros Wa Wm S Hex.
  pose proof (bool_index_values_where a alpha Wa Wm S) as E.
  unfold bool_index in E. injection S as Sr Sc. simpl in E.
  rewrite Sr, Sc, !Nat.eqb_refl in E. simpl in E. injection E as <-.
  apply masked_nonempty; [|exact Hex].
  unfold wf_array2 in Wa, Wm. rewrite Wa, Wm, Sr, Sc. reflexivity.
Qed.

(** A square raster with a pixel that is not transparent goes through
    [preprocess_training_data]. *)
Lemma preprocess_training_data_image_square (image : string) (ds : Dataset) :
  rasterio_open w image = Ok ds -> wf_dataset ds = true -> 4 <= count ds ->
  existsb (fun x => negb (Z.eqb x 0)) (data2 (band_array ds 4)) = true ->
  width ds = height ds ->
  exists v, preprocess_training_data_image K w image = Ok v.
Proof.
  intros Ho Hwf Hc Hex Hsq. unfold preprocess_training_data_image.
  rewrite (preprocess_image_four_bands w image ds Ho Hc). simpl.
  assert (Hb : forall n,
             broadcastable (shape2 (band_array ds n))
               (width ds, height ds) = true).
  { intros n. apply broadcastable_transposed. exact Hsq. }
  destruct (@set_channel_succeeds _ _ (of_int K)
              (zeros3 (fzero K) (width ds) (height ds) 3) 0 (band_array ds 1))
    as (c0 & -> & S0); [simpl; lia | apply Hb |].
  injection S0 as A0 A1 A2. simpl in A0, A1, A2. simpl.
  destruct (@set_channel_succeeds _ _ (of_int K) c0 1 (band_array ds 2))
    as (c1 & -> & S1); [lia | rewrite A0, A1; apply Hb |].
  injection S1 as B0 B1 B2. simpl.
  destruct (@set_channel_succeeds _ _ (of_int K) c1 2 (band_array ds 3))
    as (c2 & -> & S2); [lia | rewrite B0, B1, A0, A1; apply Hb |].
  simpl.
  rewrite mask_bands_values_where;
    try (apply band_array_wf; [exact Hwf | lia]); try reflexivity.
  cbn [bind].
  destruct (resize_stack_succeeds K (width ds) (height ds)
              (values_where (band_array ds 1) (band_array ds 4))
              (values_where (band_array ds 2) (band_array ds 4))
              (values_where (band_array ds 3) (band_array ds 4)))
    as [rgb ->];
    try (apply bool_index_nonempty;
         [apply band_array_wf; [exact Hwf | lia]
         |apply band_array_wf; [exact Hwf | lia]
         |reflexivity | exact Hex]).
  simpl. eauto.
Qed.

End Squares.

Lemma reshape3_ok_iff {F : Type} (v : list F) (n0 n1 n2 : nat) :
  is_ok (reshape3 v n0 n1 n2) = true <-> length v = n0 * n1 * n2.
Proof.
  unfold reshape3. destruct (length v =? n0 * n1 * n2) eqn:E; simpl.
  - apply Nat.eqb_eq in E. tauto.
  - apply Nat.eqb_neq in E. split; [discriminate | contradiction].
Qed.

(** C9 (amended). In [3_randomforest.py] the band assignments of
    [preprocess_training_data] raise [ValueError] on every raster that is
    not square, and a vector the loop produces passes [reshape(50, 50, 3)]
    exactly when its raster is 50 x 50; a raster with a pixel that is not
    transparent goes through exactly when it is square.  In
    [randomforest.py] the
    assignments into the fixed (50, 50, 4) buffer follow NumPy's
    broadcasting: the image step succeeds exactly when the width is 50 or 1
    and the height is 50 or 1, and every vector it produces passes
    [reshape(50, 50, 4)]. *)
Theorem raster_shape_precondition (K : Kernels) (w : World) (image : string)
    (ds : Dataset) :
  4 <= count ds ->
  (rasterio_open w image = Ok ds ->
   (width ds <> height ds ->
    preprocess_training_data_image K w image = Raise ValueError) /\
   (forall v,
      preprocess_training_data_image K w image = Ok v ->
      width ds = height ds /\
      (is_ok (image_show K v) = true <-> width ds = 50 /\ height ds = 50)) /\
   (wf_dataset ds = true ->
    existsb (fun x => negb (Z.eqb x 0)) (data2 (band_array ds 4)) = true ->
    (is_ok (preprocess_training_data_image K w image) = true <->
     width ds = height ds))) /\
  (gdal_Open w image = Some ds ->
   (is_ok (Randomforest.image_step K w image) = true <->
    (width ds = 50 \/ width ds = 1) /\ (height ds = 50 \/ height ds = 1)) /\
   (forall v,
      Randomforest.image_step K w image = Ok v ->
      is_ok (Randomforest.image_show K v) = true)).
Proof.
  intros Hc. split; intros Ho; split; [| split | |].
  - now apply preprocess_training_data_image_non_square.
  - intros v H.
    apply preprocess_training_data_image_ok in H
      as (ds' & Ho' & _ & Hsq & L).
    rewrite Ho in Ho'. injection Ho' as <-.
    split; [exact Hsq|].
    unfold image_show. rewrite reshape3_ok_iff, L, Hsq. nia.
  - intros Hwf Hex. split.
    + intros H.
      destruct (preprocess_training_data_image K w image) as [v|] eqn:E;
        [|discriminate].
      apply preprocess_training_data_image_ok in E
        as (ds' & Ho' & _ & Hsq & _).
      rewrite Ho in Ho'. injection Ho' as <-. exact Hsq.
    + intros Hsq.
      destruct (preprocess_training_data_image_square K w image ds
                  Ho Hwf Hc Hex Hsq) as [v ->].
      reflexivity.
  - split.
    + intros H.
      destruct (Randomforest.image_step K w image) as [v|] eqn:E;
        [|discriminate].
      apply image_step_ok in E as (ds' & Ho' & _ & Hw & Hh & _).
      rewrite Ho in Ho'. injection Ho' as <-. auto.
    + intros [Hw Hh].
      destruct (image_step_succeeds K w image ds Ho Hc Hw Hh) as [v ->].
      reflexivity.
  - intros v H. apply image_step_ok in H as (_ & _ & _ & _ & _ & L).
    unfold Randomforest.image_show. now apply reshape3_ok_iff.
Qed.

Lemma raster_shape_precondition_witness :
  preprocess_training_data_image Fixtures.nearest_kernels
    (Fixtures.training_world (Fixtures.flat_raster 2 3 4) Fixtures.tile_2x2
       Fixtures.tile_2x2 Fixtures.tile_2x2 None None) Fixtures.a_tif
  = Raise ValueError /\
  is_ok (v <- preprocess_training_data_image Fixtures.nearest_kernels
                Fixtures.tiles_world Fixtures.a_tif ;;
         image_show Fixtures.nearest_kernels v) = true /\
  is_ok (Randomforest.image_step Fixtures.nearest_kernels
           Fixtures.tiles_world Fixtures.a_tif') = true.
Proof.
  split; [|split].
  - apply (raster_shape_precondition Fixtures.nearest_kernels
             (Fixtures.training_world (Fixtures.flat_raster 2 3 4)
                Fixtures.tile_2x2 Fixtures.tile_2x2 Fixtures.tile_2x2
                None None) Fixtures.a_tif (Fixtures.flat_raster 2 3 4)).
    + vm_compute. lia.
    + reflexivity.
    + vm_compute. discriminate.
  - assert (Hok : is_ok (preprocess_training_data_image
                           Fixtures.nearest_kernels Fixtures.tiles_world
                           Fixtures.a_tif) = true)
      by (vm_compute; reflexivity).
    destruct (preprocess_training_data_image Fixtures.nearest_kernels
                Fixtures.tiles_world Fixtures.a_tif) as [v|] eqn:E;
      [|discriminate Hok].
    destruct (raster_shape_precondition Fixtures.nearest_kernels
                Fixtures.tiles_world Fixtures.a_tif
                (Fixtures.flat_raster 50 50 4)) as [H _];
      [vm_compute; lia|].
    destruct H as (_ & H & _); [vm_compute; reflexivity|].
    apply (H v E). split; reflexivity.
  - apply (raster_shape_precondition Fixtures.nearest_kernels
             Fixtures.tiles_world Fixtures.a_tif'
             (Fixtures.flat_raster 50 50 4)).
    + vm_compute. lia.
    + vm_compute. reflexivity.
    + vm_compute. auto.
Defined.

(** C9, as stated, fails on [randomforest.py]: a raster 50 pixels wide and
    1 pixel high is not square, no assignment raises, and its vector
    passes [reshape(50, 50, 4)]. *)
Lemma strip_raster_accepted :
  gdal_Open Fixtures.strip_world Fixtures.a_tif'
  = Some (Fixtures.flat_raster 50 1 4) /\
  width (Fixtures.flat_raster 50 1 4) <> height (Fixtures.flat_raster 50 1 4) /\
  is_ok (v <- Randomforest.image_step Fixtures.nearest_kernels
                Fixtures.strip_world Fixtures.a_tif' ;;
         Randomforest.image_show Fixtures.nearest_kernels v) = true.
Proof.
  split; [reflexivity|]. split; [vm_compute; discriminate|].
  vm_compute. reflexivity.
Qed.

(** ** Masking, then resizing *)

Lemma resize_stack_resizes (K : Kernels) (nX nY : nat)
    (masked : list Z * list Z * list Z) (rgb : array3 (float K)) :
  resize_stack K nX nY masked = Ok rgb ->
  exists r g b,
    resize K (fst (fst masked)) (nX, nY) = Ok r /\ shape2 r = (nX, nY) /\
    resize K (snd (fst masked)) (nX, nY) = Ok g /\ shape2 g = (nX, nY) /\
    resize K (snd masked) (nX, nY) = Ok b /\ shape2 b = (nX, nY).
Proof.
  destruct masked as [[rm gm] bm]. unfold resize_stack. intros H.
  bind_inv H as r Hr. bind_inv H as g Hg. bind_inv H as b Hb.
  exists r, g, b. simpl.
  pose proof (resize_ok K _ _ _ Hr) as (_ & Sr & _).
  pose proof (resize_ok K _ _ _ Hg) as (_ & Sg & _).
  pose proof (resize_ok K _ _ _ Hb) as (_ & Sb & _).
  repeat split; assumption.
Qed.

Section Masks.

Variable ds : Dataset.
Hypothesis Hwf : wf_dataset ds = true.
Hypothesis Hcount : 4 <= count ds.

Lemma band_masks :
  mask_bands (band_array ds 1) (band_array ds 2) (band_array ds 3)
    (band_array ds 4)
  = Ok (values_where (band_array ds 1) (band_array ds 4),
        values_where (band_array ds 2) (band_array ds 4),
        values_where (band_array ds 3) (band_array ds 4)).
Proof.
  apply mask_bands_values_where;
    try (apply band_array_wf; [exact Hwf | lia]); reflexivity.
Qed.

Lemma flipped_band_masks :
  mask_bands (flipud (band_array ds 1)) (flipud (band_array ds 2))
    (flipud (band_array ds 3)) (flipud (band_array ds 4))
  = Ok (values_where (flipud (band_array ds 1)) (flipud (band_array ds 4)),
        values_where (flipud (band_array ds 2)) (flipud (band_array ds 4)),
        values_where (flipud (band_array ds 3)) (flipud (band_array ds 4))).
Proof.
  apply mask_bands_values_where;
    try (apply flipud_wf, band_array_wf; [exact Hwf | lia]); reflexivity.
Qed.

End Masks.

(** * Further properties *)

(** ** The map file, line by line *)

Section Lines.

Import PyStr.

Lemma snoc_append (s t : string) (c : ascii) :
  (snoc s c ++ t)%string = (s ++ String c t)%string.
Proof.
  unfold snoc. induction s as [|d s IH]; simpl; [reflexivity|].
  now rewrite IH.
Qed.

Lemma readlines_go_concat (s cur : string) :
  String.concat "" (readlines_go cur s) = (cur ++ s)%string.
Proof.
  revert cur. induction s as [|c s IH]; intros cur; simpl.
  - destruct cur as [|d cur]; simpl; [reflexivity|].
    f_equal. clear. induction cur; simpl; [reflexivity | now f_equal].
  - destruct (Ascii.eqb c newline) eqn:E.
    + apply Ascii.eqb_eq in E. subst c.
      assert (R : forall l x, String.concat "" (x :: l)
                              = (x ++ String.concat "" l)%string).
      { intros [|y l] x; simpl; [|reflexivity].
        clear. induction x; simpl; [reflexivity | now f_equal]. }
      rewrite R, (IH ""). simpl. apply snoc_append.
    + rewrite IH. apply snoc_append.
Qed.

Lemma chars_snoc (s : string) (c : ascii) :
  list_ascii_of_string (snoc s c) = list_ascii_of_string s ++ [c].
Proof.
  unfold snoc. induction s as [|d s IH]; simpl; [reflexivity | now rewrite IH].
Qed.

Lemma removelast_cons {A : Type} (x : A) (l : list A) :
  l <> [] -> removelast (x :: l) = x :: removelast l.
Proof. destruct l; [congruence | reflexivity]. Qed.

Lemma readlines_go_shape (s cur : string) :
  ~ In newline (list_ascii_of_string cur) ->
  Forall ends_with_newline (removelast (readlines_go cur s)) /\
  Forall (fun l => ends_with_newline l \/ unterminated l) (readlines_go cur s).
Proof.
  revert cur. induction s as [|c s IH]; intros cur Hcur; simpl.
  - destruct cur as [|d cur'] eqn:E; simpl; [split; constructor|].
    split; [constructor|]. constructor; [|constructor].
    right. split; [discriminate | exact Hcur].
  - destruct (Ascii.eqb c newline) eqn:E.
    + apply Ascii.eqb_eq in E. subst c.
      assert (Hn : ends_with_newline (snoc cur newline)) by (exists cur; auto).
      destruct (IH "") as [H1 H2]; [simpl; tauto|].
      split; [|constructor; auto].
      destruct (readlines_go "" s) eqn:R; simpl; [constructor|].
      constructor; [exact Hn | exact H1].
    + apply IH. rewrite chars_snoc. intros Hin.
      apply in_app_or in Hin as [Hin | [E' | []]]; [tauto|].
      rewrite E', Ascii.eqb_refl in E. discriminate.
Qed.

(** Tokens of [split]: never empty, never holding whitespace, made of
    characters of the text. *)
Lemma split_go_tokens (s cur : string) :
  (forall c, In c (list_ascii_of_string cur) -> isspace c = false) ->
  Forall (fun t =>
            t <> "" /\
            forall c, In c (list_ascii_of_string t) ->
                      isspace c = false /\
                      In c (list_ascii_of_string cur ++ list_ascii_of_string s))
    (split_go cur s).
Proof.
  revert cur. induction s as [|c s IH]; intros cur Hcur; simpl.
  - destruct cur as [|d cur'] eqn:E; constructor; [|constructor].
    split; [discriminate|]. intros c Hc. split; [now apply Hcur|].
    rewrite app_nil_r. exact Hc.
  - destruct (isspace c) eqn:Hsp.
    + assert (Hrest : Forall (fun t =>
                t <> "" /\
                forall c0, In c0 (list_ascii_of_string t) ->
                  isspace c0 = false /\
                  In c0 (list_ascii_of_string cur ++ c :: list_ascii_of_string s))
                (split_go "" s)).
      { eapply Forall_impl; [|apply (IH ""); simpl; tauto].
        intros t [Ht Hc]. split; [exact Ht|]. intros c0 Hc0.
        destruct (Hc c0 Hc0) as [H1 H2]. split; [exact H1|].
        apply in_or_app. right. right. exact H2. }
      destruct cur as [|d cur'] eqn:E; [exact Hrest|].
      constructor; [|exact Hrest].
      split; [discriminate|]. intros c0 Hc0. split; [now apply Hcur|].
      apply in_or_app. now left.
    + eapply Forall_impl; [|apply (IH (snoc cur c))].
      * intros t [Ht Hc]. split; [exact Ht|]. intros c0 Hc0.
        destruct (Hc c0 Hc0) as [H1 H2]. split; [exact H1|].
        rewrite chars_snoc, <- app_assoc in H2. exact H2.
      * intros c0 Hc0. rewrite chars_snoc in Hc0.
        apply in_app_or in Hc0 as [Hc0 | [<- | []]]; auto.
Qed.

Lemma chars_replace (old new : ascii) (s : string) :
  list_ascii_of_string (replace old new s)
  = map (fun d => if Ascii.eqb d old then new else d) (list_ascii_of_string s).
Proof. induction s as [|d s IH]; simpl; [reflexivity | now rewrite IH]. Qed.

Lemma loop_tokens_clean (line : string) :
  Forall clean_token
    (split (replace backslash slash (strip newline line))).
Proof.
  eapply Forall_impl; [|apply split_go_tokens; simpl; tauto].
  intros t [Ht Hc]. split; [exact Ht|]. intros c Hin.
  destruct (Hc c Hin) as [H1 H2]. split; [exact H1|].
  simpl in H2. rewrite chars_replace in H2.
  apply in_map_iff in H2 as (d & <- & _).
  destruct (Ascii.eqb d backslash) eqn:E; [discriminate|].
  intros ->. now rewrite Ascii.eqb_refl in E.
Qed.

End Lines.

Lemma mapM_raise_inv {A B : Type} (f : A -> result B) (l : list A) (e : exn) :
  mapM f l = Raise e -> exists x, In x l /\ f x = Raise e.
Proof.
  induction l as [|x l IH]; simpl; [discriminate|].
  destruct (f x) as [y|e'] eqn:Hx; simpl.
  - destruct (mapM f l) as [ys|e''] eqn:Hl; simpl; [discriminate|].
    intros [= ->]. destruct (IH eq_refl) as (z & Hz & Hfz).
    exists z. split; [now right | exact Hfz].
  - intros [= ->]. exists x. split; [now left | exact Hx].
Qed.

Lemma map_line_raises (prefix line : string) (e : exn) :
  map_line prefix line = Raise e ->
  e = IndexError /\ length (PyStr.split line) < 2.
Proof.
  rewrite map_line_tokens, <- line_tokens_length.
  destruct (line_tokens line) as [|t0 [|t1 rest]]; simpl;
    try discriminate; intros [= <-]; split; auto.
Qed.

Lemma map_line_ok (prefix line : string) (p : string * string) :
  map_line prefix line = Ok p ->
  2 <= length (PyStr.split line) /\
  exists t0 t1,
    clean_token t0 /\ clean_token t1 /\
    p = ((prefix ++ t0)%string, (prefix ++ t1)%string).
Proof.
  intros H. split.
  - rewrite map_line_tokens in H. rewrite <- line_tokens_length.
    destruct (line_tokens line) as [|t0 [|t1 rest]]; simpl in *;
      try discriminate; lia.
  - unfold map_line in H. pose proof (loop_tokens_clean line) as Hc.
    destruct (PyStr.split _) as [|t0 [|t1 rest]]; simpl in H;
      try discriminate.
    injection H as <-. exists t0, t1.
    inversion Hc as [|? ? Hc0 Hc']. inversion Hc' as [|? ? Hc1 _]. auto.
Qed.

Section MapFile.

Variable w : World.

(** What the two map-file loops share: the outcome of the loop over the
    lines of a file that opened. *)
Lemma map_lines_outcome (prefix : string) (lines : list string) :
  (is_ok (mapM (map_line prefix) lines) = true <->
   Forall (fun line => 2 <= length (PyStr.split line)) lines) /\
  (forall e, mapM (map_line prefix) lines = Raise e ->
     e = IndexError /\
     Exists (fun line => length (PyStr.split line) < 2) lines) /\
  (forall pairs, mapM (map_line prefix) lines = Ok pairs ->
     length pairs = length lines /\
     Forall (fun p => exists t0 t1,
               clean_token t0 /\ clean_token t1 /\
               p = ((prefix ++ t0)%string, (prefix ++ t1)%string)) pairs).
Proof.
  split; [|split].
  - split.
    + intros H. destruct (mapM (map_line prefix) lines) as [pairs|] eqn:E;
        [|discriminate].
      apply mapM_Forall2 in E. clear H.
      induction E as [|line p ls ps Hp _ IH]; constructor; [|exact IH].
      now apply map_line_ok in Hp.
    + intros H. destruct (map_loop_pairs prefix lines H) as (pairs & -> & _).
      reflexivity.
  - intros e H. apply mapM_raise_inv in H as (line & Hin & Hline).
    apply map_line_raises in Hline as [-> Hlt]. split; [reflexivity|].
    apply Exists_exists. eauto.
  - intros pairs H. split; [exact (mapM_length _ _ _ H)|].
    apply mapM_Forall2 in H.
    induction H as [|line p ls ps Hp _ IH]; constructor; [|exact IH].
    now apply map_line_ok in Hp.
Qed.

End MapFile.

(** X1. The lines [readlines] hands to the loop partition the text of the
    file: joined they give the text back, every line but the last ends
    with its only newline, and the last either does too or is a rest
    without newline that is not empty. *)
Theorem readlines_partition (file : string) :
  String.concat "" (PyStr.readlines file) = file /\
  Forall ends_with_newline (removelast (PyStr.readlines file)) /\
  Forall (fun line => ends_with_newline line \/ unterminated line)
    (PyStr.readlines file).
Proof.
  split; [apply (readlines_go_concat file "")|].
  apply readlines_go_shape. simpl. tauto.
Qed.

(** X3. Every path [get_training_data] returns is [path_to_data + '/']
    followed by a token that is not empty and holds neither whitespace
    nor a backslash. *)
Theorem get_training_data_clean_paths (w : World) (path_to_data : string)
    (image_path label_path : list string) :
  get_training_data w path_to_data = Ok (image_path, label_path) ->
  Forall (fun path =>
            exists t, clean_token t /\
                      path = ((path_to_data ++ "/") ++ t)%string)
    (image_path ++ label_path).
Proof.
  unfold get_training_data. intros H.
  bind_inv H as file Hopen. bind_inv H as pairs Hp. injection H as <- <-.
  destruct (map_lines_outcome (path_to_data ++ "/")%string
              (PyStr.readlines file)) as (_ & _ & Hlen).
  destruct (Hlen pairs Hp) as [_ Hc]. clear Hp Hlen.
  apply Forall_app. split.
  - induction Hc as [|p ps (t0 & t1 & H0 & H1 & ->) _ IH]; simpl;
      constructor; eauto.
  - induction Hc as [|p ps (t0 & t1 & H0 & H1 & ->) _ IH]; simpl;
      constructor; eauto.
Qed.

Lemma get_training_data_clean_paths_witness :
  Forall (fun path =>
            exists t, clean_token t /\
                      path = ((default_path ++ "/") ++ t)%string)
    ([Fixtures.a_tif; Fixtures.b_tif] ++ [Fixtures.a_xml; Fixtures.b_xml]).
Proof.
  apply (get_training_data_clean_paths Fixtures.small_world default_path).
  vm_compute. reflexivity.
Defined.

(** ** The map file against its reference formulation *)

Section Reference.

Import PyStr.

Lemma append_nil_r (s : string) : (s ++ "")%string = s.
Proof. induction s as [|c s IH]; simpl; [reflexivity | now rewrite IH]. Qed.

Lemma append_assoc (s t u : string) :
  ((s ++ t) ++ u)%string = (s ++ (t ++ u))%string.
Proof. induction s as [|c s IH]; simpl; [reflexivity | now rewrite IH]. Qed.

(** [readlines] gives lines of the text. *)
Lemma readlines_lines_of (file : string) : lines_of file (readlines file).
Proof.
  split; [apply (readlines_go_concat file "")|].
  apply readlines_go_shape. simpl. tauto.
Qed.

Lemma readlines_go_body (body s cur : string) :
  ~ In newline (list_ascii_of_string body) ->
  readlines_go cur (body ++ s) = readlines_go (cur ++ body) s.
Proof.
  revert cur. induction body as [|c body IH]; intros cur Hn; simpl.
  - now rewrite append_nil_r.
  - destruct (Ascii.eqb c newline) eqn:E.
    + apply Ascii.eqb_eq in E. subst c. simpl in Hn. tauto.
    + rewrite IH by (simpl in Hn; tauto). now rewrite snoc_append.
Qed.

Lemma concat_cons (l : string) (ls : list string) :
  String.concat "" (l :: ls) = (l ++ String.concat "" ls)%string.
Proof.
  destruct ls as [|l' ls]; simpl; [now rewrite append_nil_r | reflexivity].
Qed.

Lemma readlines_terminated (body rest : string) :
  ~ In newline (list_ascii_of_string body) ->
  readlines (snoc body newline ++ rest)
  = snoc body newline :: readlines rest.
Proof.
  intros Hn. unfold readlines. unfold snoc at 1.
  rewrite append_assoc, (readlines_go_body body _ "" Hn). simpl.
  reflexivity.
Qed.

(** ... and they are the only ones. *)
Lemma lines_of_readlines (file : string) (lines : list string) :
  lines_of file lines -> lines = readlines file.
Proof.
  revert file. induction lines as [|l ls IH]; intros file (Hc & Hi & Ha).
  - simpl in Hc. now subst file.
  - rewrite concat_cons in Hc. subst file.
    destruct ls as [|l' ls'].
    + simpl. rewrite append_nil_r.
      inversion Ha as [|? ? [(body & -> & Hn) | [Hne Hn]] _]; subst.
      * rewrite <- (append_nil_r (snoc body newline)) at 2.
        now rewrite (readlines_terminated body "" Hn).
      * unfold readlines.
        rewrite <- (append_nil_r l) at 2.
        rewrite (readlines_go_body l "" "" Hn). simpl.
        destruct l; [congruence | reflexivity].
    + rewrite removelast_cons in Hi by discriminate.
      inversion Hi as [|? ? (body & -> & Hn) Hi']; subst.
      inversion Ha as [|? ? _ Ha']; subst.
      rewrite (readlines_terminated body _ Hn). f_equal.
      apply IH. split; [reflexivity|]. split; assumption.
Qed.

(** [split] gives the tokens of the text. *)
Lemma split_go_tokens_of (s cur : string) :
  (forall c, In c (list_ascii_of_string cur) -> isspace c = false) ->
  tokens_of (cur ++ s) (split_go cur s).
Proof.
  revert cur. induction s as [|c s IH]; intros cur Hcur; simpl.
  - destruct cur as [|d cur'] eqn:E; [constructor|].
    rewrite <- E in *. apply tokens_word; [|exact I | constructor].
    split; [subst; discriminate | exact Hcur].
  - destruct (isspace c) eqn:Hsp.
    + assert (Hrest : tokens_of (String c s) (split_go "" s)).
      { apply tokens_blank; [exact Hsp|]. apply (IH ""). simpl. tauto. }
      destruct cur as [|d cur'] eqn:E; [exact Hrest|].
      rewrite <- E in *. apply tokens_word; [|exact Hsp | exact Hrest].
      split; [subst; discriminate | exact Hcur].
    + rewrite <- snoc_append. apply IH.
      intros c0 Hc0. rewrite chars_snoc in Hc0.
      apply in_app_or in Hc0 as [Hc0 | [<- | []]]; auto.
Qed.

Lemma split_tokens_of (s : string) : tokens_of s (split s).
Proof. apply (split_go_tokens_of s ""). simpl. tauto. Qed.

Lemma split_go_word (t s cur : string) :
  (forall c, In c (list_ascii_of_string t) -> isspace c = false) ->
  split_go cur (t ++ s) = split_go (cur ++ t) s.
Proof.
  revert cur. induction t as [|d t IH]; intros cur Ht; simpl.
  - now rewrite append_nil_r.
  - rewrite (Ht d) by (simpl; auto).
    rewrite IH by (intros c Hc; apply Ht; simpl; auto).
    now rewrite snoc_append.
Qed.

(** ... and they are the only ones. *)
Lemma tokens_of_split (s : string) (ts : list string) :
  tokens_of s ts -> ts = split s.
Proof.
  induction 1 as [|c s ts Hsp _ IH|t s ts [Hne Ht] Hb _ IH].
  - reflexivity.
  - unfold split. simpl. rewrite Hsp. exact IH.
  - unfold split. rewrite (split_go_word t s "" Ht). simpl.
    destruct s as [|c s]; simpl.
    + destruct t; [congruence|]. now rewrite IH.
    + simpl in Hb. rewrite Hb.
      destruct t; [congruence|]. f_equal.
      rewrite IH. unfold split. simpl. now rewrite Hb.
Qed.

(** [replace] of backslash by slash, and nothing else. *)
Lemma replace_slashed (s : string) : slashed s (replace backslash slash s).
Proof.
  induction s as [|c s IH]; simpl; [constructor|].
  destruct (Ascii.eqb c backslash) eqn:E.
  - apply Ascii.eqb_eq in E. subst c. now constructor.
  - constructor; [|exact IH]. intros ->.
    now rewrite Ascii.eqb_refl in E.
Qed.

Lemma slashed_replace (s s' : string) :
  slashed s s' -> s' = replace backslash slash s.
Proof.
  induction 1 as [|s s' _ IH|c s s' Hc _ IH]; simpl.
  - reflexivity.
  - now rewrite IH.
  - apply Ascii.eqb_neq in Hc. now rewrite Hc, IH.
Qed.

Lemma has_tokens_split (n : nat) (line : string) :
  has_tokens n line <-> n <= length (split line).
Proof.
  split.
  - intros (ts & Ht & Hn). now rewrite <- (tokens_of_split line ts Ht).
  - intros Hn. exists (split line). split; [apply split_tokens_of | exact Hn].
Qed.

Lemma lacks_tokens_split (n : nat) (line : string) :
  lacks_tokens n line <-> length (split line) < n.
Proof.
  split.
  - intros (ts & Ht & Hn). now rewrite <- (tokens_of_split line ts Ht).
  - intros Hn. exists (split line). split; [apply split_tokens_of | exact Hn].
Qed.

(** The pair one turn of the loop appends. *)
Lemma map_line_pair (prefix line : string) (p : string * string) :
  map_line prefix line = Ok p -> line_pair prefix line (fst p) (snd p).
Proof.
  rewrite map_line_tokens. unfold line_tokens.
  destruct (split (replace backslash slash (chomp line)))
    as [|t0 [|t1 rest]] eqn:E; try discriminate.
  intros [= <-]. exists (replace backslash slash (chomp line)), t0, t1, rest.
  split; [apply replace_slashed|]. rewrite <- E.
  split; [apply split_tokens_of|]. auto.
Qed.

End Reference.

Section MapFileReference.

Variable w : World.

(** The outcome of the loop over the lines of a text, whatever the
    prefix. *)
Lemma map_lines_reference (prefix file : string) (lines : list string) :
  lines_of file lines ->
  (is_ok (mapM (map_line prefix) (PyStr.readlines file)) = true <->
   Forall (has_tokens 2) lines) /\
  (forall e, mapM (map_line prefix) (PyStr.readlines file) = Raise e ->
     e = IndexError /\ Exists (lacks_tokens 2) lines) /\
  (forall pairs, mapM (map_line prefix) (PyStr.readlines file) = Ok pairs ->
     length pairs = length lines /\
     forall i line,
       nth_error lines i = Some line ->
       exists p,
         nth_error pairs i = Some p /\
         line_pair prefix line (fst p) (snd p)).
Proof.
  intros Hl. apply lines_of_readlines in Hl. subst lines.
  destruct (map_lines_outcome prefix (PyStr.readlines file))
    as (Hok & Herr & Hlen).
  split; [|split].
  - rewrite Hok. split; intros H; eapply Forall_impl; try exact H;
      intros line; apply has_tokens_split.
  - intros e He. destruct (Herr e He) as [-> Hex]. split; [reflexivity|].
    apply Exists_exists in Hex as (line & Hin & Hlt).
    apply Exists_exists. exists line. split; [exact Hin|].
    now apply lacks_tokens_split.
  - intros pairs Hp. destruct (Hlen pairs Hp) as [L _].
    split; [exact L|]. intros i line Hi.
    apply mapM_Forall2 in Hp.
    destruct (Forall2_nth_error_l _ _ _ i line Hp Hi) as (p & Hpi & Hline).
    exists p. split; [exact Hpi|]. now apply map_line_pair.
Qed.

End MapFileReference.

(** C4. For a map file whose every line has at least two
    whitespace-separated tokens, [get_training_data] returns two lists
    with one entry per line; entry [i] of the first is
    [path_to_data + '/' +] the first token of line [i], entry [i] of the
    second is [path_to_data + '/' +] its second token, the tokens being
    those of the line without its trailing newline and with every
    backslash replaced by a slash.  Lines, tokens and replacement are
    the reference formulations [lines_of], [tokens_of] and [slashed]. *)
Theorem get_training_data_pairs (w : World) (path_to_data file : string)
    (lines : list string) :
  open_read w (path_to_data ++ "/map.txt")%string = Ok file ->
  lines_of file lines ->
  Forall (has_tokens 2) lines ->
  exists image_path label_path,
    get_training_data w path_to_data = Ok (image_path, label_path) /\
    length image_path = length lines /\
    length label_path = length lines /\
    forall i line,
      nth_error lines i = Some line ->
      exists body t0 t1 rest,
        slashed (chomp line) body /\
        tokens_of body (t0 :: t1 :: rest) /\
        nth_error image_path i = Some ((path_to_data ++ "/") ++ t0)%string /\
        nth_error label_path i = Some ((path_to_data ++ "/") ++ t1)%string.
Proof.
  intros Hopen Hl Hlines.
  destruct (map_lines_reference (path_to_data ++ "/")%string file lines Hl)
    as (Hok & _ & Hpairs).
  apply Hok in Hlines.
  destruct (mapM (map_line (path_to_data ++ "/")%string)
              (PyStr.readlines file)) as [pairs|] eqn:E; [|discriminate].
  destruct (Hpairs pairs eq_refl) as [L Hent].
  exists (map fst pairs), (map snd pairs).
  unfold get_training_data. rewrite Hopen. cbn [bind]. rewrite E. cbn [bind].
  split; [reflexivity|]. rewrite !length_map.
  split; [exact L|]. split; [exact L|].
  intros i line Hi.
  destruct (Hent i line Hi)
    as (p & Hp & body & t0 & t1 & rest & Hs & Ht & H0 & H1).
  exists body, t0, t1, rest.
  split; [exact Hs|]. split; [exact Ht|].
  rewrite !nth_error_map, Hp. simpl. now rewrite H0, H1.
Qed.

Lemma get_training_data_pairs_witness :
  exists image_path label_path,
    get_training_data Fixtures.small_world default_path
    = Ok (image_path, label_path) /\
    length image_path = 2 /\
    nth_error image_path 0 = Some Fixtures.a_tif /\
    nth_error label_path 0 = Some Fixtures.a_xml.
Proof.
  destruct (get_training_data_pairs Fixtures.small_world default_path
              Fixtures.map_text (PyStr.readlines Fixtures.map_text))
    as (ip & lp & H & Li & _ & Hent).
  - vm_compute. reflexivity.
  - apply readlines_lines_of.
  - apply Forall_forall. intros line Hin. apply has_tokens_split.
    vm_compute in Hin.
    destruct Hin as [<- | [<- | []]]; vm_compute; lia.
  - exists ip, lp. split; [exact H|]. split; [exact Li|].
    destruct (Hent 0 (nth 0 (PyStr.readlines Fixtures.map_text) ""))
      as (body & t0 & t1 & rest & Hs & Ht & H0 & H1); [reflexivity|].
    apply slashed_replace in Hs. subst body.
    apply tokens_of_split in Ht. vm_compute in Ht.
    injection Ht as -> -> _.
    split; [exact H0 | exact H1].
Defined.

(** X2. [get_training_data] raises what opening the map file or reading
    its text raises.  Once the text is read, it returns exactly when
    every line has at least two tokens, with one image path and one
    label path per line; otherwise it raises [IndexError] (a blank line
    is enough), the only exception the loop over the lines can raise. *)
Theorem get_training_data_outcome (w : World) (path_to_data : string) :
  (forall e,
     open_read w (path_to_data ++ "/map.txt")%string = Raise e ->
     get_training_data w path_to_data = Raise e) /\
  (forall file lines,
     open_read w (path_to_data ++ "/map.txt")%string = Ok file ->
     lines_of file lines ->
     (is_ok (get_training_data w path_to_data) = true <->
      Forall (has_tokens 2) lines) /\
     (forall e, get_training_data w path_to_data = Raise e ->
        e = IndexError /\ Exists (lacks_tokens 2) lines) /\
     (forall image_path label_path,
        get_training_data w path_to_data = Ok (image_path, label_path) ->
        length image_path = length lines /\
        length label_path = length lines)).
Proof.
  split.
  - intros e Hopen. unfold get_training_data. now rewrite Hopen.
  - intros file lines Hopen Hl.
    destruct (map_lines_reference (path_to_data ++ "/")%string file lines Hl)
      as (Hok & Herr & Hlen).
    unfold get_training_data. rewrite Hopen. cbn [bind].
    destruct (mapM (map_line (path_to_data ++ "/")) (PyStr.readlines file))
      as [pairs|e0] eqn:E; cbn [bind].
    + split; [exact Hok|]. split; [discriminate|].
      intros ip lp [= <- <-]. rewrite !length_map.
      destruct (Hlen pairs eq_refl) as [L _]. auto.
    + split; [exact Hok|]. split; [|discriminate].
      intros e [= <-]. now apply Herr.
Qed.

Lemma get_training_data_outcome_witness :
  get_training_data MoreFixtures.blank_line_world default_path
  = Raise IndexError /\
  is_ok (get_training_data Fixtures.small_world default_path) = true.
Proof.
  split.
  - destruct (get_training_data_outcome MoreFixtures.blank_line_world
                default_path) as [_ Hread].
    destruct (Hread MoreFixtures.blank_line_text
                (PyStr.readlines MoreFixtures.blank_line_text))
      as (_ & Herr & _);
      [vm_compute; reflexivity | apply readlines_lines_of |].
    destruct (get_training_data MoreFixtures.blank_line_world default_path)
      as [p|e] eqn:E.
    + assert (H : is_ok (get_training_data MoreFixtures.blank_line_world
                           default_path) = false)
        by (vm_compute; reflexivity).
      rewrite E in H. discriminate H.
    + destruct (Herr e eq_refl) as [-> _]. reflexivity.
  - destruct (get_training_data_outcome Fixtures.small_world default_path)
      as [_ Hread].
    apply (Hread Fixtures.map_text (PyStr.readlines Fixtures.map_text));
      [vm_compute; reflexivity | apply readlines_lines_of |].
    apply Forall_forall. intros line Hin. apply has_tokens_split.
    vm_compute in Hin.
    destruct Hin as [<- | [<- | []]]; vm_compute; lia.
Defined.

(** X4. The map-file loop of [randomforest.py] raises what opening the
    file or reading its text raises.  Once the text is read, it ends
    exactly when every line has at least two tokens, else with
    [IndexError] and nothing else; when it ends there is one image path
    and one label path per line, each the data folder followed by the
    first, respectively second, token of the line without its trailing
    newline and with every backslash replaced by a slash. *)
Theorem randomforest_map_loop_outcome (w : World) :
  (forall e,
     open_read w Randomforest.mapfile = Raise e ->
     Randomforest.map_loop w = Raise e) /\
  (forall file lines,
     open_read w Randomforest.mapfile = Ok file ->
     lines_of file lines ->
     (is_ok (Randomforest.map_loop w) = true <->
      Forall (has_tokens 2) lines) /\
     (forall e, Randomforest.map_loop w = Raise e ->
        e = IndexError /\ Exists (lacks_tokens 2) lines) /\
     (forall image_path labels_path,
        Randomforest.map_loop w = Ok (image_path, labels_path) ->
        length image_path = length lines /\
        length labels_path = length lines /\
        forall i line,
          nth_error lines i = Some line ->
          exists body t0 t1 rest,
            slashed (chomp line) body /\
            tokens_of body (t0 :: t1 :: rest) /\
            nth_error image_path i
            = Some (Randomforest.data_prefix ++ t0)%string /\
            nth_error labels_path i
            = Some (Randomforest.data_prefix ++ t1)%string)).
Proof.
  split.
  - intros e Hopen. unfold Randomforest.map_loop. now rewrite Hopen.
  - intros file lines Hopen Hl.
    destruct (map_lines_reference Randomforest.data_prefix file lines Hl)
      as (Hok & Herr & Hlen).
    unfold Randomforest.map_loop. rewrite Hopen. cbn [bind].
    destruct (mapM (map_line Randomforest.data_prefix)
                (PyStr.readlines file)) as [pairs|e0] eqn:E; cbn [bind].
    + split; [exact Hok|]. split; [discriminate|].
      intros ip lp [= <- <-]. rewrite !length_map.
      destruct (Hlen pairs eq_refl) as [L Hent].
      split; [exact L|]. split; [exact L|].
      intros i line Hi.
      destruct (Hent i line Hi)
        as (p & Hp & body & t0 & t1 & rest & Hs & Ht & H0 & H1).
      exists body, t0, t1, rest.
      split; [exact Hs|]. split; [exact Ht|].
      rewrite !nth_error_map, Hp. simpl. now rewrite H0, H1.
    + split; [exact Hok|]. split; [|discriminate].
      intros e [= <-]. now apply Herr.
Qed.

Lemma randomforest_map_loop_outcome_witness :
  (exists image_path labels_path,
     Randomforest.map_loop Fixtures.small_world
     = Ok (image_path, labels_path) /\
     nth_error image_path 1 = Some Fixtures.b_tif' /\
     nth_error labels_path 1
     = Some (Fixtures.rf_dir ++ "/labels/b.xml")%string) /\
  Randomforest.map_loop MoreFixtures.blank_line_world = Raise IndexError.
Proof.
  split.
  - destruct (randomforest_map_loop_outcome Fixtures.small_world)
      as [_ Hread].
    destruct (Hread Fixtures.map_text (PyStr.readlines Fixtures.map_text))
      as (_ & _ & Hent);
      [vm_compute; reflexivity | apply readlines_lines_of |].
    assert (Hok : is_ok (Randomforest.map_loop Fixtures.small_world) = true)
      by (vm_compute; reflexivity).
    destruct (Randomforest.map_loop Fixtures.small_world)
      as [[ip lp]|] eqn:E; [|discriminate Hok].
    exists ip, lp. split; [reflexivity|].
    destruct (Hent ip lp eq_refl) as (_ & _ & Hline).
    destruct (Hline 1 (nth 1 (PyStr.readlines Fixtures.map_text) ""))
      as (body & t0 & t1 & rest & Hs & Ht & H0 & H1); [reflexivity|].
    apply slashed_replace in Hs. subst body.
    apply tokens_of_split in Ht. vm_compute in Ht.
    injection Ht as -> -> _.
    split; [exact H0 | exact H1].
  - destruct (randomforest_map_loop_outcome MoreFixtures.blank_line_world)
      as [_ Hread].
    destruct (Hread MoreFixtures.blank_line_text
                (PyStr.readlines MoreFixtures.blank_line_text))
      as (_ & Herr & _);
      [vm_compute; reflexivity | apply readlines_lines_of |].
    destruct (Randomforest.map_loop MoreFixtures.blank_line_world)
      as [p|e] eqn:E.
    + assert (H : is_ok (Randomforest.map_loop
                           MoreFixtures.blank_line_world) = false)
        by (vm_compute; reflexivity).
      rewrite E in H. discriminate H.
    + destruct (Herr e eq_refl) as [-> _]. reflexivity.
Defined.

(** ** Flipping and masking *)

Lemma flat_map_ext_in {A B : Type} (f g : A -> list B) (l : list A) :
  (forall x, In x l -> f x = g x) -> flat_map f l = flat_map g l.
Proof.
  intros H. induction l as [|x l IH]; simpl; [reflexivity|].
  rewrite (H x) by now left. rewrite IH; [reflexivity|].
  intros y Hy. apply H. now right.
Qed.

Lemma seq_mirror (r : nat) :
  map (fun i => r - 1 - i) (seq 0 r) = rev (seq 0 r).
Proof.
  induction r as [|r IH]; [reflexivity|].
  rewrite seq_S at 2. rewrite rev_app_distr.
  change (rev [0 + r] ++ rev (seq 0 r)) with (r :: rev (seq 0 r)).
  rewrite <- IH. cbn [seq map]. f_equal; [lia|].
  rewrite <- seq_shift, map_map. apply map_ext. intros i. lia.
Qed.

Lemma concat_rev_length {A : Type} (l : list (list A)) :
  length (concat (rev l)) = length (concat l).
Proof.
  induction l as [|x l IH]; simpl; [reflexivity|].
  rewrite concat_app, !length_app, IH. simpl.
  rewrite app_nil_r. lia.
Qed.

Lemma values_where_rows (a alpha : array2 Z) :
  values_where a alpha
  = concat (map (masked_row a alpha) (seq 0 (nrows a))).
Proof. unfold values_where. now rewrite flat_map_concat_map. Qed.

Lemma masked_row_flipud (a alpha : array2 Z) (i : nat) :
  wf_array2 a -> wf_array2 alpha -> shape2 a = shape2 alpha ->
  i < nrows a ->
  masked_row (flipud a) (flipud alpha) i
  = masked_row a alpha (nrows a - 1 - i).
Proof.
  intros Wa Wm S Hi. injection S as Sr Sc.
  unfold masked_row. simpl. apply flat_map_ext_in. intros j Hj.
  apply in_seq in Hj.
  rewrite (flipud_get2 a i j), (flipud_get2 alpha i j), Sr;
    auto; lia.
Qed.

Lemma flipped_mask_rows (a alpha : array2 Z) :
  wf_array2 a -> wf_array2 alpha -> shape2 a = shape2 alpha ->
  values_where a alpha
  = concat (map (masked_row a alpha) (seq 0 (nrows a))) /\
  values_where (flipud a) (flipud alpha)
  = concat (rev (map (masked_row a alpha) (seq 0 (nrows a)))) /\
  length (values_where (flipud a) (flipud alpha))
  = length (values_where a alpha).
Proof.
  intros Wa Wm S.
  assert (E : values_where (flipud a) (flipud alpha)
              = concat (rev (map (masked_row a alpha) (seq 0 (nrows a))))).
  { rewrite values_where_rows. simpl.
    rewrite <- map_rev, <- seq_mirror, map_map. f_equal.
    apply map_ext_in. intros i Hi. apply in_seq in Hi.
    apply masked_row_flipud; auto; lia. }
  split; [apply values_where_rows|]. split; [exact E|].
  rewrite E, values_where_rows. apply concat_rev_length.
Qed.

(** X5. In [augment_flip], the mask of a flipped band by the flipped alpha
    holds the masked values of the rows of the image from the bottom row
    up, each row left to right, where the mask of the band as read holds
    them from the top row down; both have the same number of values. *)
Theorem augment_flip_mask_rows (ds : Dataset) (n : nat) :
  wf_dataset ds = true ->
  1 <= n <= count ds ->
  4 <= count ds ->
  let band := band_array ds n in
  let alpha := band_array ds 4 in
  let rows := map (masked_row band alpha) (seq 0 (height ds)) in
  bool_index band (ne0 alpha) = Ok (concat rows) /\
  bool_index (flipud band) (ne0 (flipud alpha)) = Ok (concat (rev rows)) /\
  length (concat (rev rows)) = length (concat rows).
Proof.
  intros Hwf Hn Hc band alpha rows.
  assert (Wb : wf_array2 band) by (apply band_array_wf; auto).
  assert (Wa : wf_array2 alpha) by (apply band_array_wf; auto; lia).
  destruct (flipped_mask_rows band alpha Wb Wa eq_refl) as (E1 & E2 & E3).
  rewrite bool_index_values_where by auto.
  rewrite bool_index_values_where by (try apply flipud_wf; auto).
  rewrite E2, E1. repeat split. apply concat_rev_length.
Qed.

Lemma augment_flip_mask_rows_witness :
  bool_index (band_array Fixtures.tile_2x2 1)
    (ne0 (band_array Fixtures.tile_2x2 4)) = Ok ([11] ++ [13; 14])%Z /\
  bool_index (flipud (band_array Fixtures.tile_2x2 1))
    (ne0 (flipud (band_array Fixtures.tile_2x2 4)))
  = Ok ([13; 14] ++ [11])%Z.
Proof.
  destruct (augment_flip_mask_rows Fixtures.tile_2x2 1) as (H1 & H2 & _).
  - reflexivity.
  - vm_compute. lia.
  - vm_compute. lia.
  - split; [exact H1 | exact H2].
Defined.

(** ** Which rasters the augmenting loaders accept *)

Lemma masked_empty (xs ms : list Z) :
  existsb (fun x => negb (Z.eqb x 0)) ms = false ->
  map fst (filter snd (combine xs (map (fun x => negb (Z.eqb x 0)) ms))) = [].
Proof.
  revert ms. induction xs as [|x xs IH]; intros [|m ms] H;
    try reflexivity.
  simpl in *. apply orb_false_iff in H as [H1 H2].
  rewrite H1. now apply IH.
Qed.

Lemma values_where_empty_iff (a alpha : array2 Z) :
  wf_array2 a -> wf_array2 alpha -> shape2 a = shape2 alpha ->
  (values_where a alpha = [] <-> some_nonzero alpha = false).
Proof.
  intros Wa Wm S. unfold some_nonzero.
  destruct (existsb _ (data2 alpha)) eqn:E.
  - split; [|discriminate]. intros H.
    now apply (bool_index_nonempty a alpha Wa Wm S) in E.
  - split; [reflexivity|]. intros _.
    pose proof (bool_index_values_where a alpha Wa Wm S) as B.
    unfold bool_index in B. injection S as Sr Sc. simpl in B.
    rewrite Sr, Sc, !Nat.eqb_refl in B. simpl in B. injection B as <-.
    now apply masked_empty.
Qed.

Lemma some_nonzero_flipud (alpha : array2 Z) :
  wf_array2 alpha -> some_nonzero (flipud alpha) = some_nonzero alpha.
Proof.
  intros W.
  pose proof (values_where_empty_iff alpha alpha W W eq_refl) as H1.
  pose proof (values_where_empty_iff (flipud alpha) (flipud alpha)
                (flipud_wf alpha W) (flipud_wf alpha W) eq_refl) as H2.
  destruct (flipped_mask_rows alpha alpha W W eq_refl) as (_ & _ & L).
  destruct (some_nonzero alpha), (some_nonzero (flipud alpha));
    try reflexivity.
  - destruct H2 as [_ H2]. specialize (H2 eq_refl). rewrite H2 in L.
    destruct (values_where alpha alpha); [|discriminate L].
    destruct H1 as [H1 _]. now specialize (H1 eq_refl).
  - destruct H1 as [_ H1]. specialize (H1 eq_refl). rewrite H1 in L.
    destruct (values_where (flipud alpha) (flipud alpha)); [|discriminate L].
    destruct H2 as [H2 _]. now specialize (H2 eq_refl).
Qed.

Lemma resize_stack_ok_iff (K : Kernels) (nX nY : nat) (rm gm bm : list Z) :
  is_ok (resize_stack K nX nY (rm, gm, bm)) = true
  <-> rm <> [] /\ gm <> [] /\ bm <> [].
Proof.
  split.
  - intros H.
    destruct (resize_stack K nX nY (rm, gm, bm)) as [rgb|] eqn:E;
      [|discriminate].
    apply resize_stack_resizes in E
      as (r & g & b & Hr & _ & Hg & _ & Hb & _). simpl in *.
    apply resize_ok in Hr as [Hr _], Hg as [Hg _], Hb as [Hb _]. auto.
  - intros (Hr & Hg & Hb).
    destruct (resize_stack_succeeds K nX nY rm gm bm Hr Hg Hb) as [rgb ->].
    reflexivity.
Qed.

(** X6. [augment_flip] and [augment_flip_rotate_90] have no condition on
    the shape of the raster: on a raster with its four bands they go
    through exactly when some pixel has a non-zero alpha, whatever the
    width and the height. *)
Theorem augment_accepts_any_shape (K : Kernels) (w : World) (image : string)
    (ds : Dataset) :
  rasterio_open w image = Ok ds ->
  wf_dataset ds = true ->
  4 <= count ds ->
  (is_ok (augment_flip_image K w image) = true
   <-> some_nonzero (band_array ds 4) = true) /\
  (is_ok (augment_flip_rotate_90_image K w image) = true
   <-> some_nonzero (band_array ds 4) = true).
Proof.
  intros Ho Hwf Hc.
  assert (W : forall n, 1 <= n <= 4 -> wf_array2 (band_array ds n)).
  { intros n Hn. apply band_array_wf; auto; lia. }
  assert (Hne : forall n, 1 <= n <= 4 ->
            (values_where (band_array ds n) (band_array ds 4) <> []
             <-> some_nonzero (band_array ds 4) = true)).
  { intros n Hn.
    rewrite (values_where_empty_iff _ _ (W n Hn) (W 4 ltac:(lia)) eq_refl).
    destruct (some_nonzero (band_array ds 4)); split; congruence. }
  assert (Hnf : forall n, 1 <= n <= 4 ->
            (values_where (flipud (band_array ds n))
               (flipud (band_array ds 4)) <> []
             <-> some_nonzero (band_array ds 4) = true)).
  { intros n Hn.
    rewrite (values_where_empty_iff _ _ (flipud_wf _ (W n Hn))
               (flipud_wf _ (W 4 ltac:(lia))) eq_refl).
    rewrite some_nonzero_flipud by (apply W; lia).
    destruct (some_nonzero (band_array ds 4)); split; congruence. }
  split.
  - unfold augment_flip_image.
    rewrite (preprocess_image_four_bands w image ds Ho Hc). cbn [bind].
    rewrite (flipped_band_masks ds Hwf Hc). cbn [bind].
    destruct (resize_stack K (width ds) (height ds) _) as [rgb|] eqn:E;
      cbn [bind is_ok].
    + assert (H : is_ok (resize_stack K (width ds) (height ds)
                   (values_where (flipud (band_array ds 1))
                      (flipud (band_array ds 4)),
                    values_where (flipud (band_array ds 2))
                      (flipud (band_array ds 4)),
                    values_where (flipud (band_array ds 3))
                      (flipud (band_array ds 4)))) = true)
        by now rewrite E.
      apply resize_stack_ok_iff in H as (H1 & _).
      split; [intros _ | reflexivity]. apply (Hnf 1); [lia | exact H1].
    + split; [discriminate|]. intros Hs. exfalso.
      assert (H : is_ok (resize_stack K (width ds) (height ds)
                   (values_where (flipud (band_array ds 1))
                      (flipud (band_array ds 4)),
                    values_where (flipud (band_array ds 2))
                      (flipud (band_array ds 4)),
                    values_where (flipud (band_array ds 3))
                      (flipud (band_array ds 4)))) = true).
      { apply resize_stack_ok_iff.
        repeat split; apply Hnf; auto; lia. }
      rewrite E in H. discriminate H.
  - unfold augment_flip_rotate_90_image.
    rewrite (preprocess_image_four_bands w image ds Ho Hc). cbn [bind].
    rewrite (band_masks ds Hwf Hc). cbn [bind].
    destruct (resize_stack K (width ds) (height ds) _) as [rgb|] eqn:E;
      cbn [bind is_ok].
    + assert (H : is_ok (resize_stack K (width ds) (height ds)
                   (values_where (band_array ds 1) (band_array ds 4),
                    values_where (band_array ds 2) (band_array ds 4),
                    values_where (band_array ds 3) (band_array ds 4)))
                  = true) by now rewrite E.
      apply resize_stack_ok_iff in H as (H1 & _).
      split; [intros _ | reflexivity]. apply (Hne 1); [lia | exact H1].
    + split; [discriminate|]. intros Hs. exfalso.
      assert (H : is_ok (resize_stack K (width ds) (height ds)
                   (values_where (band_array ds 1) (band_array ds 4),
                    values_where (band_array ds 2) (band_array ds 4),
                    values_where (band_array ds 3) (band_array ds 4)))
                  = true).
      { apply resize_stack_ok_iff.
        repeat split; apply Hne; auto; lia. }
      rewrite E in H. discriminate H.
Qed.

Lemma augment_accepts_any_shape_witness :
  is_ok (augment_flip_image Fixtures.nearest_kernels
           (Fixtures.training_world (Fixtures.flat_raster 2 3 4)
              Fixtures.tile_2x2 Fixtures.tile_2x2 Fixtures.tile_2x2
              None None) Fixtures.a_tif) = true /\
  is_ok (augment_flip_rotate_90_image Fixtures.nearest_kernels
           (Fixtures.training_world (Fixtures.flat_raster 2 3 4)
              Fixtures.tile_2x2 Fixtures.tile_2x2 Fixtures.tile_2x2
              None None) Fixtures.a_tif) = true.
Proof.
  destruct (augment_accepts_any_shape Fixtures.nearest_kernels
              (Fixtures.training_world (Fixtures.flat_raster 2 3 4)
                 Fixtures.tile_2x2 Fixtures.tile_2x2 Fixtures.tile_2x2
                 None None) Fixtures.a_tif (Fixtures.flat_raster 2 3 4))
    as [H1 H2].
  - reflexivity.
  - reflexivity.
  - vm_compute. lia.
  - split; [apply H1 | apply H2]; reflexivity.
Defined.

(** ** The lists the scripts end their loading with *)

Lemma nth_error_app3 {A : Type} (a b c : list A) (n i k : nat) :
  length a = n -> length b = n -> length c = n -> i < n -> k < 3 ->
  nth_error (a ++ b ++ c) (k * n + i)
  = nth_error (match k with 0 => a | 1 => b | _ => c end) i.
Proof.
  intros La Lb Lc Hi Hk.
  destruct k as [|[|[|k]]]; try lia; simpl.
  - apply nth_error_app1. lia.
  - rewrite nth_error_app2 by lia. rewrite nth_error_app1 by lia.
    f_equal. lia.
  - rewrite nth_error_app2 by lia. rewrite nth_error_app2 by lia.
    f_equal. lia.
Qed.

Lemma main_entries (K : Kernels) (w : World)
    (combined_images : list (list (float K)))
    (combined_labels : list (option string)) :
  main K w = Ok (combined_images, combined_labels) ->
  exists image_path label_path,
    get_training_data w default_path = Ok (image_path, label_path) /\
    length label_path = length image_path /\
    length combined_images = 3 * length image_path /\
    length combined_labels = 3 * length image_path /\
    forall i image label,
      nth_error image_path i = Some image ->
      nth_error label_path i = Some label ->
      exists ds c,
        rasterio_open w image = Ok ds /\
        width ds = height ds /\
        extract_classification w label = Ok c /\
        forall k, k < 3 ->
          nth_error combined_labels (k * length image_path + i) = Some c /\
          exists v,
            nth_error combined_images (k * length image_path + i) = Some v /\
            length v = width ds * height ds * 3.
Proof.
  intros H. unfold main in H.
  bind_inv H as p Hg. destruct p as [ip lp].
  bind_inv H as p1 H1. destruct p1 as [im1 l1].
  bind_inv H as p2 H2. destruct p2 as [im2 l2].
  bind_inv H as p3 H3. destruct p3 as [im3 l3].
  injection H as <- <-.
  exists ip, lp. split; [exact Hg|].
  assert (Llp : length lp = length ip).
  { unfold get_training_data in Hg. bind_inv Hg as file Hf.
    bind_inv Hg as pairs Hp. injection Hg as <- <-.
    now rewrite !length_map. }
  apply loader_ok in H1 as [I1 L1], H2 as [I2 L2], H3 as [I3 L3].
  rewrite L1 in L2, L3. injection L2 as <-. injection L3 as <-.
  pose proof (mapM_length _ _ _ I1) as N1.
  pose proof (mapM_length _ _ _ I2) as N2.
  pose proof (mapM_length _ _ _ I3) as N3.
  pose proof (mapM_length _ _ _ L1) as NL.
  split; [exact Llp|].
  split; [rewrite !length_app; lia|].
  split; [rewrite !length_app; lia|].
  intros i image label Hi Hl.
  assert (Hlt : i < length ip) by (apply nth_error_Some; congruence).
  apply mapM_Forall2 in I1, I2, I3, L1.
  destruct (Forall2_nth_error_l _ _ _ i image I1 Hi) as (v1 & Hv1 & B1).
  destruct (Forall2_nth_error_l _ _ _ i image I2 Hi) as (v2 & Hv2 & B2).
  destruct (Forall2_nth_error_l _ _ _ i image I3 Hi) as (v3 & Hv3 & B3).
  destruct (Forall2_nth_error_l _ _ _ i label L1 Hl) as (c & Hc & Bc).
  apply preprocess_training_data_image_ok in B1
    as (ds & Ho & _ & Hsq & Len1).
  apply augment_flip_image_ok in B2 as (ds2 & Ho2 & _ & Len2).
  apply augment_flip_rotate_90_image_ok in B3 as (ds3 & Ho3 & _ & Len3).
  rewrite Ho in Ho2, Ho3. injection Ho2 as <-. injection Ho3 as <-.
  exists ds, c. split; [exact Ho|]. split; [exact Hsq|].
  split; [exact Bc|]. intros k Hk.
  rewrite (nth_error_app3 l1 l1 l1 (length ip) i k) by lia.
  rewrite (nth_error_app3 im1 im2 im3 (length ip) i k) by lia.
  destruct k as [|[|k]].
  - split; [exact Hc|]. eauto.
  - split; [exact Hc|]. eauto.
  - split; [exact Hc|]. eauto.
Qed.

(** X7. When the script has combined its lists, they have the same
    length, three times the number of lines of the map file; for line
    [i] of a file of [n] lines, the entries [i], [n + i] and [2 n + i]
    carry the label of its annotation and a vector of
    width x height x 3 values of its raster, which is square. *)
Theorem main_combined_aligned (K : Kernels) (w : World)
    (combined_images : list (list (float K)))
    (combined_labels : list (option string)) :
  main K w = Ok (combined_images, combined_labels) ->
  exists image_path label_path,
    get_training_data w default_path = Ok (image_path, label_path) /\
    length label_path = length image_path /\
    length combined_images = 3 * length image_path /\
    length combined_labels = 3 * length image_path /\
    forall i image label,
      nth_error image_path i = Some image ->
      nth_error label_path i = Some label ->
      exists ds c,
        rasterio_open w image = Ok ds /\
        width ds = height ds /\
        extract_classification w label = Ok c /\
        forall k, k < 3 ->
          nth_error combined_labels (k * length image_path + i) = Some c /\
          exists v,
            nth_error combined_images (k * length image_path + i) = Some v /\
            length v = width ds * height ds * 3.
Proof. apply main_entries. Qed.

Lemma main_combined_aligned_witness :
  exists combined_images combined_labels,
    main Fixtures.nearest_kernels Fixtures.small_world
    = Ok (combined_images, combined_labels) /\
    length combined_images = 6 /\ length combined_labels = 6.
Proof.
  assert (Hok : is_ok (main Fixtures.nearest_kernels Fixtures.small_world)
                = true) by (vm_compute; reflexivity).
  destruct (main Fixtures.nearest_kernels Fixtures.small_world)
    as [[ci cl]|] eqn:E; [|discriminate Hok].
  exists ci, cl. split; [reflexivity|].
  destruct (main_combined_aligned Fixtures.nearest_kernels
              Fixtures.small_world ci cl E)
    as (ip & lp & Hg & _ & H1 & H2 & _).
  assert (Hip : get_training_data Fixtures.small_world default_path
                = Ok ([Fixtures.a_tif; Fixtures.b_tif],
                      [Fixtures.a_xml; Fixtures.b_xml]))
    by (vm_compute; reflexivity).
  rewrite Hip in Hg. injection Hg as <- <-.
  split; [exact H1 | exact H2].
Defined.

Lemma single_names_labels (roots : list Element) :
  Forall (fun root => length (name_elements root) = 1) roots ->
  flat_map (fun root => map text (name_elements root)) roots
  = map (fun root => match name_elements root with
                     | e :: _ => text e
                     | [] => None
                     end) roots.
Proof.
  induction 1 as [|root rs H1 _ IH]; simpl; [reflexivity|].
  rewrite IH. destruct (name_elements root) as [|e [|e' l]];
    simpl in H1; try discriminate. reflexivity.
Qed.

(** X8. [randomforest.py] ends its loading with one vector per line of
    the map file and one label per [name] element of the annotations,
    file after file; when every annotation has exactly one [name]
    element the two lists have the same length and label [i] is the
    text of the [name] element of annotation [i]. *)
Theorem randomforest_load_labels (K : Kernels) (w : World)
    (images : list (list (float K))) (labels : list (option string)) :
  Randomforest.load K w = Ok (images, labels) ->
  exists image_path labels_path roots,
    Randomforest.map_loop w = Ok (image_path, labels_path) /\
    length images = length image_path /\
    length labels_path = length image_path /\
    Forall2 (fun label root => ET_parse w label = Ok root)
      labels_path roots /\
    labels = flat_map (fun root => map text (name_elements root)) roots /\
    (Forall (fun root => length (name_elements root) = 1) roots ->
     length labels = length images /\
     forall i root,
       nth_error roots i = Some root ->
       exists e,
         name_elements root = [e] /\ nth_error labels i = Some (text e)).
Proof.
  intros H. unfold Randomforest.load in H.
  bind_inv H as p Hm. destruct p as [ip lp].
  bind_inv H as im Hi. bind_inv H as lb Hl. injection H as <- <-.
  destruct (randomforest_label_count w lp lb Hl) as (roots & Hf & ->).
  exists ip, lp, roots. split; [exact Hm|].
  pose proof (mapM_length _ _ _ Hi) as Li.
  assert (Llp : length lp = length ip).
  { unfold Randomforest.map_loop in Hm. bind_inv Hm as file Hfile.
    bind_inv Hm as pairs Hp. injection Hm as <- <-.
    now rewrite !length_map. }
  split; [exact Li|]. split; [exact Llp|]. split; [exact Hf|].
  split; [reflexivity|].
  intros Hone.
  pose proof (single_names_labels roots Hone) as E.
  rewrite E. split.
  - rewrite length_map, Li, <- Llp. symmetry.
    eapply Forall2_length; eauto.
  - intros i root Hr. rewrite nth_error_map, Hr. simpl.
    rewrite Forall_forall in Hone.
    specialize (Hone root (nth_error_In _ _ Hr)).
    destruct (name_elements root) as [|e [|e' l]];
      simpl in Hone; try discriminate.
    exists e. auto.
Qed.

Lemma randomforest_load_labels_witness :
  exists images labels,
    Randomforest.load Fixtures.nearest_kernels Fixtures.strip_world
    = Ok (images, labels) /\
    length images = 2 /\
    labels = flat_map (fun root => map text (name_elements root))
               [Fixtures.voc_one; Fixtures.voc_one].
Proof.
  assert (Hok : match Randomforest.load Fixtures.nearest_kernels
                        Fixtures.strip_world with
                | Ok (i, l) =>
                    length i = 2 /\
                    l = flat_map (fun root => map text (name_elements root))
                          [Fixtures.voc_one; Fixtures.voc_one]
                | Raise _ => False
                end) by (vm_compute; auto).
  destruct (Randomforest.load Fixtures.nearest_kernels Fixtures.strip_world)
    as [[images labels]|] eqn:E; [|contradiction].
  exists images, labels. split; [reflexivity|].
  destruct (randomforest_load_labels Fixtures.nearest_kernels
              Fixtures.strip_world images labels E)
    as (ip & lp & roots & _ & _ & _ & _ & _ & _).
  exact Hok.
Defined.

(** ** Where a pixel lands in a feature vector *)

Lemma nth_error_combine {A B : Type} (l1 : list A) (l2 : list B) (k : nat)
    (x : A) (y : B) :
  nth_error l1 k = Some x -> nth_error l2 k = Some y ->
  nth_error (combine l1 l2) k = Some (x, y).
Proof.
  revert l2 k. induction l1 as [|a l1 IH]; intros [|b l2] [|k] H1 H2;
    simpl in *; try discriminate.
  - now injection H1 as ->; injection H2 as ->.
  - now apply IH.
Qed.

Lemma nth_error_map_seq {B : Type} (f : nat -> B) (n k : nat) :
  k < n -> nth_error (map f (seq 0 n)) k = Some (f k).
Proof. intros H. now rewrite nth_error_map, seq_nth_error. Qed.

Lemma indices2_nth (n0 n1 i j : nat) :
  i < n0 -> j < n1 -> nth_error (indices2 n0 n1) (i * n1 + j) = Some (i, j).
Proof.
  intros Hi Hj. unfold indices2.
  rewrite (nth_error_chunks _ _ n1 i j i).
  - now apply nth_error_map_seq.
  - intros y _. now rewrite length_map, length_seq.
  - now apply seq_nth_error.
  - exact Hj.
Qed.

Lemma indices3_nth (n0 n1 n2 i j c : nat) :
  i < n0 -> j < n1 -> c < n2 ->
  nth_error (indices3 n0 n1 n2) ((i * n1 + j) * n2 + c) = Some (i, j, c).
Proof.
  intros Hi Hj Hc. unfold indices3.
  replace ((i * n1 + j) * n2 + c) with (i * (n1 * n2) + (j * n2 + c)) by lia.
  rewrite (nth_error_chunks _ _ (n1 * n2) i (j * n2 + c) i).
  - rewrite (nth_error_chunks _ _ n2 j c j).
    + now apply nth_error_map_seq.
    + intros y _. now rewrite length_map, length_seq.
    + now apply seq_nth_error.
    + exact Hc.
  - intros y _. rewrite (flat_map_length_const _ _ n2).
    + now rewrite length_seq.
    + intros z _. now rewrite length_map, length_seq.
  - now apply seq_nth_error.
  - nia.
Qed.

Lemma get3_in_range {F : Type} (a : array3 F) (i j c : nat) :
  wf_array3 a -> i < dim0 a -> j < dim1 a -> c < dim2 a ->
  exists x, get3 a i j c = Some x.
Proof.
  unfold wf_array3, get3. intros W Hi Hj Hc.
  destruct (nth_error (data3 a) ((i * dim1 a + j) * dim2 a + c)) eqn:E;
    [eauto|].
  apply nth_error_None in E.
  assert (H1 : i * dim1 a + j + 1 <= dim0 a * dim1 a) by nia.
  assert (H2 : (i * dim1 a + j + 1) * dim2 a <= dim0 a * dim1 a * dim2 a)
    by (apply Nat.mul_le_mono_r; exact H1).
  nia.
Qed.

(** What an assignment to a channel leaves at each index. *)
Lemma set_channel_get3 {B F : Type} (conv : B -> F) (dst r : array3 F)
    (ch : nat) (src : array2 B) (i j c : nat) :
  set_channel conv dst ch src = Ok r ->
  wf_array3 dst -> i < dim0 dst -> j < dim1 dst -> c < dim2 dst ->
  get3 r i j c
  = if c =? ch
    then match get2 src (if nrows src =? 1 then 0 else i)
                        (if ncols src =? 1 then 0 else j) with
         | Some x => Some (conv x)
         | None => get3 dst i j c
         end
    else get3 dst i j c.
Proof.
  intros H W Hi Hj Hc.
  destruct (get3_in_range dst i j c W Hi Hj Hc) as [old Hold].
  unfold set_channel in H.
  destruct (negb (ch <? dim2 dst)); [discriminate|].
  destruct (negb (broadcastable _ _)); [discriminate|].
  injection H as <-. unfold get3 in *. simpl.
  rewrite nth_error_map.
  rewrite (nth_error_combine _ _ _ (i, j, c) old);
    [|now apply indices3_nth | exact Hold].
  simpl. rewrite Hold.
  destruct (c =? ch); [|reflexivity].
  destruct (get2 src _ _); reflexivity.
Qed.

Lemma band_get2 (ds : Dataset) (n i j : nat) :
  wf_dataset ds = true -> 1 <= n <= count ds ->
  i < height ds -> j < width ds ->
  exists x, get2 (band_array ds n) i j = Some x.
Proof.
  intros Hwf Hn Hi Hj. apply get2_in_range; auto.
  now apply band_array_wf.
Qed.

Lemma broadcast_index_same (n i : nat) :
  i < n -> (if n =? 1 then 0 else i) = i.
Proof. intros H. destruct (n =? 1) eqn:E; [apply Nat.eqb_eq in E; lia | reflexivity]. Qed.

Lemma resize_get2 (K : Kernels) (image : list Z) (nX nY : nat)
    (r : array2 (float K)) (i j : nat) :
  resize K image (nX, nY) = Ok r -> i < nX -> j < nY ->
  nrows r = nX /\ ncols r = nY /\
  get2 r i j = Some (resize_sample K image (nX, nY) i j).
Proof.
  unfold resize. destruct image as [|x image]; [discriminate|].
  intros H Hi Hj. injection H as <-. unfold get2. simpl.
  split; [reflexivity|]. split; [reflexivity|].
  now rewrite nth_error_map, indices2_nth.
Qed.

Lemma resize_stack_get3 (K : Kernels) (nX nY : nat) (rm gm bm : list Z)
    (rgb : array3 (float K)) (i j c : nat) :
  resize_stack K nX nY (rm, gm, bm) = Ok rgb ->
  i < nX -> j < nY -> c < 3 ->
  shape3 rgb = (nX, nY, 3) /\
  get3 rgb i j c
  = Some (resize_sample K (nth c [rm; gm; bm] []) (nX, nY) i j).
Proof.
  unfold resize_stack. intros H Hi Hj Hc.
  bind_inv H as r Hr. bind_inv H as g Hg. bind_inv H as b Hb.
  bind_inv H as c0 H0. bind_inv H as c1 H1. bind_inv H as c2 H2.
  injection H as <-.
  destruct (resize_get2 K rm nX nY r i j Hr Hi Hj) as (Rr & Cr & Gr).
  destruct (resize_get2 K gm nX nY g i j Hg Hi Hj) as (Rg & Cg & Gg).
  destruct (resize_get2 K bm nX nY b i j Hb Hi Hj) as (Rb & Cb & Gb).
  pose proof (set_channel_ok _ _ _ _ _ H0) as (S0 & W0 & _).
  pose proof (set_channel_ok _ _ _ _ _ H1) as (S1 & W1 & _).
  pose proof (set_channel_ok _ _ _ _ _ H2) as (S2 & W2 & _).
  specialize (W0 (zeros3_wf _ _ _ _)). specialize (W1 W0).
  injection S0 as A0 A1 A2. simpl in A0, A1, A2.
  injection S1 as B0 B1 B2. rewrite A0 in B0. rewrite A1 in B1.
  rewrite A2 in B2.
  split; [rewrite S2; unfold shape3; now rewrite B0, B1, B2|].
  rewrite (set_channel_get3 _ _ _ _ _ i j c H2 W1) by lia.
  rewrite (set_channel_get3 _ _ _ _ _ i j c H1 W0) by lia.
  rewrite (set_channel_get3 _ _ _ _ _ i j c H0 (zeros3_wf _ _ _ _))
    by (simpl; lia).
  rewrite Rr, Cr, Rg, Cg, Rb, Cb, !(broadcast_index_same nX i Hi),
    !(broadcast_index_same nY j Hj), Gr, Gg, Gb.
  destruct c as [|[|[|c]]]; try lia; reflexivity.
Qed.

(** X9. The vectors of [preprocess_training_data] and [augment_flip]
    interleave the three resized channels pixel by pixel: entry
    [(i * nY + j) * 3 + c], for [i] below the width [nX] and [j] below the
    height [nY], is the sample at [(i, j)] of the resize of the masked
    red, green or blue values, for [c] 0, 1 or 2. *)
Theorem resized_vector_layout (K : Kernels) (w : World) (image : string)
    (ds : Dataset) (i j c : nat) :
  rasterio_open w image = Ok ds ->
  wf_dataset ds = true ->
  4 <= count ds ->
  i < width ds -> j < height ds -> c < 3 ->
  (forall v,
     preprocess_training_data_image K w image = Ok v ->
     nth_error v ((i * height ds + j) * 3 + c)
     = Some (resize_sample K
               (values_where (band_array ds (c + 1)) (band_array ds 4))
               (width ds, height ds) i j)) /\
  (forall v,
     augment_flip_image K w image = Ok v ->
     nth_error v ((i * height ds + j) * 3 + c)
     = Some (resize_sample K
               (values_where (flipud (band_array ds (c + 1)))
                  (flipud (band_array ds 4)))
               (width ds, height ds) i j)).
Proof.
  intros Ho Hwf Hc Hi Hj Hch.
  split; intros v H.
  - unfold preprocess_training_data_image in H.
    rewrite (preprocess_image_four_bands w image ds Ho Hc) in H.
    cbn [bind] in H.
    bind_inv H as c0 H0. bind_inv H as c1 H1. bind_inv H as c2 H2.
    rewrite (band_masks ds Hwf Hc) in H. cbn [bind] in H.
    bind_inv H as rgb Hrgb. injection H as <-.
    destruct (resize_stack_get3 K _ _ _ _ _ rgb i j c Hrgb Hi Hj Hch)
      as (S & G).
    unfold get3 in G. injection S as _ D1 D2. rewrite D1, D2 in G.
    unfold flatten3. rewrite G.
    destruct c as [|[|[|c]]]; try lia; reflexivity.
  - unfold augment_flip_image in H.
    rewrite (preprocess_image_four_bands w image ds Ho Hc) in H.
    cbn [bind] in H.
    rewrite (flipped_band_masks ds Hwf Hc) in H. cbn [bind] in H.
    bind_inv H as rgb Hrgb. injection H as <-.
    destruct (resize_stack_get3 K _ _ _ _ _ rgb i j c Hrgb Hi Hj Hch)
      as (S & G).
    unfold get3 in G. injection S as _ D1 D2. rewrite D1, D2 in G.
    unfold flatten3. rewrite G.
    destruct c as [|[|[|c]]]; try lia; reflexivity.
Qed.

Lemma resized_vector_layout_witness :
  exists v,
    augment_flip_image Fixtures.nearest_kernels Fixtures.small_world
      Fixtures.a_tif = Ok v /\
    nth_error v ((1 * 2 + 0) * 3 + 2) = Some 34%Z.
Proof.
  assert (Hok : is_ok (augment_flip_image Fixtures.nearest_kernels
                         Fixtures.small_world Fixtures.a_tif) = true)
    by (vm_compute; reflexivity).
  destruct (augment_flip_image Fixtures.nearest_kernels Fixtures.small_world
              Fixtures.a_tif) as [v|] eqn:E; [|discriminate Hok].
  exists v. split; [reflexivity|].
  destruct (resized_vector_layout Fixtures.nearest_kernels
              Fixtures.small_world Fixtures.a_tif Fixtures.tile_2x2 1 0 2)
    as [_ H]; try reflexivity; try (vm_compute; lia).
  exact (H v E).
Defined.

(** The vector of one turn of the image loop of [randomforest.py],
    entry by entry. *)
Lemma image_step_entries (K : Kernels) (w : World) (image : string)
    (ds : Dataset) (v : list (float K)) :
  gdal_Open w image = Some ds ->
  wf_dataset ds = true ->
  4 <= count ds ->
  Randomforest.image_step K w image = Ok v ->
  forall i j c, i < 50 -> j < 50 -> c < 4 ->
    exists x,
      get2 (band_array ds (c + 1))
        (if height ds =? 1 then 0 else i)
        (if width ds =? 1 then 0 else j) = Some x /\
      nth_error v ((i * 50 + j) * 4 + c) = Some (of_int K x).
Proof.
  intros Ho Hwf Hc Hv.
  destruct (image_step_ok K w image v Hv) as (ds' & Ho' & _ & Hw & Hh & _).
  rewrite Ho in Ho'. injection Ho' as <-.
  intros i j c Hi Hj Hch.
  unfold Randomforest.image_step in Hv. rewrite Ho in Hv. cbn [bind] in Hv.
  rewrite !GetRasterBand_in_range in Hv by lia. cbn [bind] in Hv.
  bind_inv Hv as c0 H0. bind_inv Hv as c1 H1.
  bind_inv Hv as c2 H2. bind_inv Hv as c3 H3.
  injection Hv as <-.
  pose proof (set_channel_ok _ _ _ _ _ H0) as (S0 & W0 & _).
  pose proof (set_channel_ok _ _ _ _ _ H1) as (S1 & W1 & _).
  pose proof (set_channel_ok _ _ _ _ _ H2) as (S2 & W2 & _).
  pose proof (set_channel_ok _ _ _ _ _ H3) as (S3 & W3 & _).
  specialize (W0 (zeros3_wf _ _ _ _)). specialize (W1 W0).
  specialize (W2 W1).
  injection S0 as A0 A1 A2. simpl in A0, A1, A2.
  injection S1 as B0 B1 B2. rewrite A0 in B0. rewrite A1 in B1.
  rewrite A2 in B2.
  injection S2 as C0 C1 C2. rewrite B0 in C0. rewrite B1 in C1.
  rewrite B2 in C2.
  injection S3 as D0 D1 D2. rewrite C0 in D0. rewrite C1 in D1.
  rewrite C2 in D2.
  assert (Hb : exists x,
             get2 (band_array ds (c + 1))
               (if height ds =? 1 then 0 else i)
               (if width ds =? 1 then 0 else j) = Some x).
  { apply band_get2; auto; try lia.
    - destruct Hh as [-> | ->]; simpl; lia.
    - destruct Hw as [-> | ->]; simpl; lia. }
  destruct Hb as [x Hx]. exists x. split; [exact Hx|].
  assert (G : get3 c3 i j c = Some (of_int K x)).
  { rewrite (set_channel_get3 _ _ _ _ _ i j c H3 W2) by lia.
    rewrite (set_channel_get3 _ _ _ _ _ i j c H2 W1) by lia.
    rewrite (set_channel_get3 _ _ _ _ _ i j c H1 W0) by lia.
    rewrite (set_channel_get3 _ _ _ _ _ i j c H0 (zeros3_wf _ _ _ _))
      by (simpl; lia).
    simpl nrows. simpl ncols.
    destruct c as [|[|[|[|c]]]]; try lia; simpl Nat.eqb at 1;
      cbn [Nat.eqb]; simpl in Hx; rewrite ?Hx; reflexivity. }
  unfold get3 in G. rewrite D1, D2 in G. exact G.
Qed.

(** X10. The vector [randomforest.py] makes of an accepted raster
    interleaves the four bands pixel by pixel: entry
    [(i * 50 + j) * 4 + c] is the pixel of band [c + 1] (red, green, blue,
    near infrared) at row [i] and column [j], or at row 0 or column 0
    where the raster has a single row or column and is broadcast. *)
Theorem image_step_layout (K : Kernels) (w : World) (image : string)
    (ds : Dataset) :
  gdal_Open w image = Some ds ->
  wf_dataset ds = true ->
  4 <= count ds ->
  (width ds = 50 \/ width ds = 1) ->
  (height ds = 50 \/ height ds = 1) ->
  exists v,
    Randomforest.image_step K w image = Ok v /\
    forall i j c, i < 50 -> j < 50 -> c < 4 ->
      exists x,
        get2 (band_array ds (c + 1))
          (if height ds =? 1 then 0 else i)
          (if width ds =? 1 then 0 else j) = Some x /\
        nth_error v ((i * 50 + j) * 4 + c) = Some (of_int K x).
Proof.
  intros Ho Hwf Hc Hw Hh.
  destruct (image_step_succeeds K w image ds Ho Hc Hw Hh) as [v Hv].
  exists v. split; [exact Hv|].
  now apply (image_step_entries K w image ds v).
Qed.

Lemma image_step_layout_witness :
  exists v,
    Randomforest.image_step Fixtures.nearest_kernels Fixtures.small_world
      Fixtures.a_tif' = Ok v /\
    nth_error v ((49 * 50 + 49) * 4 + 3) = Some 4%Z.
Proof.
  destruct (image_step_layout Fixtures.nearest_kernels Fixtures.small_world
              Fixtures.a_tif' (Fixtures.flat_raster 1 1 4))
    as (v & Hv & H).
  - vm_compute. reflexivity.
  - reflexivity.
  - vm_compute. lia.
  - right. reflexivity.
  - right. reflexivity.
  - exists v. split; [exact Hv|].
    destruct (H 49 49 3) as (x & Hx & Hn); [lia | lia | lia |].
    change (Some 4%Z = Some x) in Hx. injection Hx as <-.
    exact Hn.
Defined.

(** ** The band reads, through the image loop *)

Lemma set_channel_raises {B F : Type} (conv : B -> F) (dst : array3 F)
    (ch : nat) (src : array2 B) (e : exn) :
  ch < dim2 dst ->
  set_channel conv dst ch src = Raise e -> e = ValueError.
Proof.
  intros Hch. unfold set_channel.
  apply Nat.ltb_lt in Hch. rewrite Hch. cbn [negb].
  destruct (broadcastable _ _); cbn [negb]; [discriminate|].
  now intros [= <-].
Qed.

(** With its four bands there, a turn of the image loop of
    [randomforest.py] gets past its reads: what it can still raise is
    the [ValueError] of an assignment into the buffer. *)
Lemma image_step_raises (K : Kernels) (w : World) (image : string)
    (ds : Dataset) (e : exn) :
  gdal_Open w image = Some ds ->
  4 <= count ds ->
  Randomforest.image_step K w image = Raise e -> e = ValueError.
Proof.
  intros Ho Hc. unfold Randomforest.image_step. rewrite Ho. cbn [bind].
  rewrite !GetRasterBand_in_range by lia. cbn [bind].
  destruct (set_channel (of_int K) (zeros3 (fzero K) 50 50 4) 0
              (band_array ds 1)) as [c0|e0] eqn:H0; cbn [bind].
  2: { intros [= <-]. apply (set_channel_raises _ _ _ _ _) in H0;
       [exact H0 | simpl; lia]. }
  pose proof (set_channel_ok _ _ _ _ _ H0) as (S0 & _).
  injection S0 as _ _ A2. simpl in A2.
  destruct (set_channel (of_int K) c0 1 (band_array ds 2))
    as [c1|e1] eqn:H1; cbn [bind].
  2: { intros [= <-]. apply (set_channel_raises _ _ _ _ _) in H1;
       [exact H1 | lia]. }
  pose proof (set_channel_ok _ _ _ _ _ H1) as (S1 & _).
  injection S1 as _ _ B2. rewrite A2 in B2.
  destruct (set_channel (of_int K) c1 2 (band_array ds 3))
    as [c2|e2] eqn:H2; cbn [bind].
  2: { intros [= <-]. apply (set_channel_raises _ _ _ _ _) in H2;
       [exact H2 | lia]. }
  pose proof (set_channel_ok _ _ _ _ _ H2) as (S2 & _).
  injection S2 as _ _ C2. rewrite B2 in C2.
  destruct (set_channel (of_int K) c2 3 (band_array ds 4))
    as [c3|e3] eqn:H3; cbn [bind]; [discriminate|].
  intros [= <-]. apply (set_channel_raises _ _ _ _ _) in H3;
    [exact H3 | lia].
Qed.

(** C2 (amended). The per-image read step succeeds and returns the band
    arrays on every raster with at least four bands: [preprocess_image]
    returns the four arrays, and a turn of the image loop of
    [randomforest.py] gets past its four reads, so that it fails only
    if an assignment into the buffer does, and otherwise returns a
    vector that holds the four band arrays pixel by pixel.  On a
    three-band raster the step raises: [IndexError] from rasterio's
    [read(4)] in [preprocess_image], [AttributeError] from
    [GetRasterBand(4)] being [None] in [randomforest.py]. *)
Theorem band_reads_need_four_bands (K : Kernels) (w : World) (image : string)
    (ds : Dataset) :
  (rasterio_open w image = Ok ds ->
   (4 <= count ds ->
    preprocess_image w image
    = Ok (width ds, height ds, band_array ds 1, band_array ds 2,
          band_array ds 3, band_array ds 4)) /\
   (count ds = 3 -> preprocess_image w image = Raise IndexError)) /\
  (gdal_Open w image = Some ds ->
   (4 <= count ds ->
    (ReadAsArray (GetRasterBand ds 4) = Ok (band_array ds 4) /\
     ReadAsArray (GetRasterBand ds 3) = Ok (band_array ds 3) /\
     ReadAsArray (GetRasterBand ds 2) = Ok (band_array ds 2) /\
     ReadAsArray (GetRasterBand ds 1) = Ok (band_array ds 1)) /\
    (forall e, Randomforest.image_step K w image = Raise e ->
       e = ValueError) /\
    ((width ds = 50 \/ width ds = 1) ->
     (height ds = 50 \/ height ds = 1) ->
     is_ok (Randomforest.image_step K w image) = true) /\
    (wf_dataset ds = true ->
     forall v, Randomforest.image_step K w image = Ok v ->
       forall i j c, i < 50 -> j < 50 -> c < 4 ->
         exists x,
           get2 (band_array ds (c + 1))
             (if height ds =? 1 then 0 else i)
             (if width ds =? 1 then 0 else j) = Some x /\
           nth_error v ((i * 50 + j) * 4 + c) = Some (of_int K x))) /\
   (count ds = 3 ->
    ReadAsArray (GetRasterBand ds 4) = Raise AttributeError /\
    Randomforest.image_step K w image = Raise AttributeError)).
Proof.
  split; intros Hopen; split; intros Hc.
  - now apply preprocess_image_four_bands.
  - apply (preprocess_image_few_bands w image ds Hopen). lia.
  - split; [rewrite !GetRasterBand_in_range by lia; auto|].
    split; [intros e; now apply (image_step_raises K w image ds)|].
    split.
    + intros Hw Hh.
      destruct (image_step_succeeds K w image ds Hopen Hc Hw Hh) as [v ->].
      reflexivity.
    + intros Hwf v Hv. now apply (image_step_entries K w image ds v).
  - split.
    + apply GetRasterBand_out_of_range. lia.
    + apply (image_step_few_bands K w image ds Hopen). lia.
Qed.

Lemma band_reads_need_four_bands_witness :
  preprocess_image Fixtures.small_world Fixtures.a_tif
  = Ok (2, 2, band_array Fixtures.tile_2x2 1, band_array Fixtures.tile_2x2 2,
        band_array Fixtures.tile_2x2 3, band_array Fixtures.tile_2x2 4) /\
  Randomforest.image_step Fixtures.nearest_kernels Fixtures.three_band_world
    Fixtures.a_tif' = Raise AttributeError /\
  exists v,
    Randomforest.image_step Fixtures.nearest_kernels Fixtures.small_world
      Fixtures.a_tif' = Ok v /\
    nth_error v ((7 * 50 + 9) * 4 + 0) = Some 1%Z /\
    nth_error v ((7 * 50 + 9) * 4 + 3) = Some 4%Z.
Proof.
  split; [|split].
  - apply (band_reads_need_four_bands Fixtures.nearest_kernels
             Fixtures.small_world Fixtures.a_tif Fixtures.tile_2x2).
    + reflexivity.
    + vm_compute. lia.
  - apply (band_reads_need_four_bands Fixtures.nearest_kernels
             Fixtures.three_band_world Fixtures.a_tif'
             (Fixtures.flat_raster 50 50 3)).
    + vm_compute. reflexivity.
    + reflexivity.
  - destruct (band_reads_need_four_bands Fixtures.nearest_kernels
                Fixtures.small_world Fixtures.a_tif'
                (Fixtures.flat_raster 1 1 4)) as [_ Hgdal].
    destruct Hgdal as [Hfour _]; [vm_compute; reflexivity|].
    destruct Hfour as (_ & _ & Hok & Hent); [vm_compute; lia|].
    specialize (Hok (or_intror eq_refl) (or_intror eq_refl)).
    destruct (Randomforest.image_step Fixtures.nearest_kernels
                Fixtures.small_world Fixtures.a_tif') as [v|] eqn:E;
      [|discriminate Hok].
    exists v. split; [reflexivity|].
    specialize (Hent eq_refl v eq_refl).
    split.
    + destruct (Hent 7 9 0) as (x & Hx & Hn); [lia | lia | lia |].
      change (Some 1%Z = Some x) in Hx. injection Hx as <-. exact Hn.
    + destruct (Hent 7 9 3) as (x & Hx & Hn); [lia | lia | lia |].
      change (Some 4%Z = Some x) in Hx. injection Hx as <-. exact Hn.
Defined.

(** ** The resized arrays, through the stacking *)




(** ** Channel selections *)

Lemma flat_map_flat_map {A B C : Type} (f : A -> list B) (g : B -> list C)
    (l : list A) :
  flat_map g (flat_map f l) = flat_map (fun x => flat_map g (f x)) l.
Proof.
  induction l as [|x l IH]; simpl; [reflexivity|].
  now rewrite flat_map_app, IH.
Qed.

Lemma flat_map_indices2 {B : Type} (F : nat * nat -> list B) (n0 n1 : nat) :
  flat_map F (indices2 n0 n1)
  = flat_map (fun k => F (k / n1, k mod n1)) (seq 0 (n0 * n1)).
Proof.
  unfold indices2. rewrite flat_map_flat_map, flat_map_grid.
  apply flat_map_ext_in. intros i _.
  rewrite flat_map_map. apply flat_map_ext_in. intros j Hj.
  apply in_seq in Hj.
  replace ((i * n1 + j) / n1) with i
    by (apply Nat.div_unique with j; lia).
  replace ((i * n1 + j) mod n1) with j
    by (apply Nat.mod_unique with i; lia).
  reflexivity.
Qed.

Lemma cells_self {A : Type} (l : list A) :
  flat_map (fun k => match nth_error l k with Some x => [x] | None => [] end)
    (seq 0 (length l)) = l.
Proof.
  induction l as [|x l IH]; [reflexivity|].
  simpl length. rewrite <- cons_seq, <- seq_shift. simpl.
  f_equal. rewrite flat_map_map. exact IH.
Qed.

(** The channels of every pixel, in order: the buffer itself. *)
Lemma all_channels_self {A : Type} (a : array3 A) :
  wf_array3 a ->
  flat_map (fun p =>
    flat_map (fun c =>
      match get3 a (fst p) (snd p) c with
      | Some x => [x]
      | None => []
      end) (seq 0 (dim2 a)))
    (indices2 (dim0 a) (dim1 a))
  = data3 a.
Proof.
  intros W. unfold wf_array3 in W.
  rewrite flat_map_indices2.
  transitivity
    (flat_map (fun k => match nth_error (data3 a) k with
                        | Some x => [x]
                        | None => []
                        end) (seq 0 (length (data3 a))));
    [|apply cells_self].
  rewrite W, (flat_map_grid _ (dim0 a * dim1 a) (dim2 a)).
  apply flat_map_ext_in. intros k Hk. apply in_seq in Hk.
  unfold get3. simpl fst. simpl snd.
  assert (D : dim1 a <> 0) by nia.
  replace (k / dim1 a * dim1 a + k mod dim1 a) with k; [reflexivity|].
  rewrite (Nat.div_mod_eq k (dim1 a)) at 1. lia.
Qed.

Lemma array3_eq {A : Type} (a : array3 A) (d0 d1 d2 : nat) (l : list A) :
  dim0 a = d0 -> dim1 a = d1 -> dim2 a = d2 -> data3 a = l ->
  mk_array3 d0 d1 d2 l = a.
Proof. destruct a. simpl. now intros -> -> -> ->. Qed.

(** Taking the three channels of a three-channel picture, by index list
    or by slice, gives the picture back. *)
Lemma all_three_channels {A : Type} (a : array3 A) :
  wf_array3 a ->
  dim2 a = 3 ->
  take_channels a [0; 1; 2] = Ok a /\ slice_channels a 3 = a.
Proof.
  intros W D. split.
  - unfold take_channels. rewrite D. simpl forallb. cbv iota.
    f_equal. apply array3_eq; auto.
    rewrite <- (all_channels_self a W), D. reflexivity.
  - unfold slice_channels. rewrite D. simpl Nat.min.
    apply array3_eq; auto.
    rewrite <- (all_channels_self a W), D. reflexivity.
Qed.

(** X11. Both channel selections of the figures of [3_randomforest.py]
    leave a (50, 50, 3) picture as it is: [image_show[..., [0, 1, 2]]],
    which the script comments as a conversion from BGR to RGB, and
    [image_show[:, :, :3]], commented as leaving out the near infrared. *)
Theorem channel_selections_identity {A : Type} (a : array3 A) :
  wf_array3 a ->
  dim2 a = 3 ->
  take_channels a [0; 1; 2] = Ok a /\ slice_channels a 3 = a.
Proof.
  apply all_three_channels.
Qed.

Lemma channel_selections_identity_witness :
  take_channels (mk_array3 1 2 3 [1; 2; 3; 4; 5; 6]) [0; 1; 2]
  = Ok (mk_array3 1 2 3 [1; 2; 3; 4; 5; 6]).
Proof.
  apply (channel_selections_identity (mk_array3 1 2 3 [1; 2; 3; 4; 5; 6]));
    reflexivity.
Defined.

(** ** The first figure *)

Section FirstFigure.

Variable K : Kernels.
Variable clip_0_1 : float K -> float K.
Variable ragged_allowed : bool.

Lemma sample_figure_shown (images : list (list (float K)))
    (labels : list (option string)) (i : nat)
    (row : list (float K)) (label : option string) :
  nth_error images i = Some row ->
  length row = 50 * 50 * 3 ->
  nth_error labels i = Some label ->
  sample_figure K clip_0_1 images labels i = Ok (shown K clip_0_1 row label).
Proof.
  intros Hr Hl Hlab. unfold sample_figure, getitem, reshape3.
  rewrite Hr. cbn [bind]. rewrite Hl, Nat.eqb_refl. cbn [bind].
  rewrite Hlab. cbn [bind].
  destruct (all_three_channels (mk_array3 50 50 3 row))
    as [-> _]; [exact Hl | reflexivity |].
  cbn [bind]. unfold shown, map3. simpl. now rewrite map_id.
Qed.

Lemma sample_figure_raises (images : list (list (float K)))
    (labels : list (option string)) (i : nat) :
  (nth_error images i = None ->
   sample_figure K clip_0_1 images labels i = Raise IndexError) /\
  (forall row, nth_error images i = Some row ->
     length row <> 50 * 50 * 3 ->
     sample_figure K clip_0_1 images labels i = Raise ValueError) /\
  (forall row, nth_error images i = Some row ->
     length row = 50 * 50 * 3 ->
     nth_error labels i = None ->
     sample_figure K clip_0_1 images labels i = Raise IndexError).
Proof.
  unfold sample_figure, getitem, reshape3. split; [|split].
  - intros ->. reflexivity.
  - intros row -> Hl. cbn [bind].
    apply Nat.eqb_neq in Hl. now rewrite Hl.
  - intros row -> Hl Hn. cbn [bind]. rewrite Hl, Nat.eqb_refl. cbn [bind].
    rewrite Hn. reflexivity.
Qed.

Lemma sample_figure_ok (images : list (list (float K)))
    (labels : list (option string)) (i : nat)
    (p : array3 (float K) * string) :
  sample_figure K clip_0_1 images labels i = Ok p ->
  exists row label,
    nth_error images i = Some row /\ length row = 50 * 50 * 3 /\
    nth_error labels i = Some label /\ p = shown K clip_0_1 row label.
Proof.
  intros H.
  destruct (sample_figure_raises images labels i) as (R1 & R2 & R3).
  destruct (nth_error images i) as [row|] eqn:Er.
  2: { rewrite R1 in H by reflexivity. discriminate. }
  destruct (Nat.eq_dec (length row) (50 * 50 * 3)) as [E|E].
  2: { rewrite (R2 row eq_refl E) in H. discriminate. }
  destruct (nth_error labels i) as [label|] eqn:El.
  2: { rewrite (R3 row eq_refl E eq_refl) in H. discriminate. }
  rewrite (sample_figure_shown images labels i row label Er E El) in H.
  injection H as <-. exists row, label. auto.
Qed.


Lemma mapM_of_Forall2 {A B : Type} (f : A -> result B)
    (l : list A) (l' : list B) :
  Forall2 (fun x y => f x = Ok y) l l' -> mapM f l = Ok l'.
Proof.
  induction 1 as [|x y l l' Hx _ IH]; simpl; [reflexivity|].
  now rewrite Hx, IH.
Qed.

Lemma Forall2_impl_both {A B : Type} (R R' : A -> B -> Prop)
    (l : list A) (l' : list B) :
  (forall x y, R x y -> R' x y) -> Forall2 R l l' -> Forall2 R' l l'.
Proof.
  intros HR. induction 1; constructor; auto.
Qed.

Lemma sample_figures_iff (combined_images : list (list (float K)))
    (combined_labels : list (option string))
    (figs : list (array3 (float K) * string)) :
  sample_figures K clip_0_1 ragged_allowed combined_images combined_labels
  = Ok figs <->
  same_lengths combined_images || ragged_allowed = true /\
  Forall2 (fun i fig =>
             exists row label,
               nth_error combined_images i = Some row /\
               length row = 50 * 50 * 3 /\
               nth_error combined_labels i = Some label /\
               fig = shown K clip_0_1 row label)
    [0; 1; 2; 3; 4] figs.
Proof.
  unfold sample_figures, np_array. split.
  - intros H.
    destruct (same_lengths combined_images || ragged_allowed);
      [|discriminate].
    split; [reflexivity|]. cbn [bind] in H.
    apply mapM_Forall2 in H.
    eapply Forall2_impl_both; [|exact H].
    intros i fig Hf. now apply sample_figure_ok.
  - intros [-> H]. cbn [bind].
    apply mapM_of_Forall2.
    eapply Forall2_impl_both; [|exact H].
    intros i fig (row & label & Hr & Hl & Hlab & ->).
    now apply sample_figure_shown.
Qed.

End FirstFigure.

(** X12. The first figure of [3_randomforest.py] is drawn exactly when
    [np.array] accepts the combined rows and each of the first five has
    50 * 50 * 3 values and a label; picture [i] is then row [i] with
    its values clipped, in the order of the row (the selection of the
    channels 0, 1, 2 changes nothing), under the title of label [i]. *)
Theorem sample_figures_outcome (K : Kernels) (clip_0_1 : float K -> float K)
    (ragged_allowed : bool)
    (combined_images : list (list (float K)))
    (combined_labels : list (option string))
    (figs : list (array3 (float K) * string)) :
  sample_figures K clip_0_1 ragged_allowed combined_images combined_labels
  = Ok figs <->
  same_lengths combined_images || ragged_allowed = true /\
  Forall2 (fun i fig =>
             exists row label,
               nth_error combined_images i = Some row /\
               length row = 50 * 50 * 3 /\
               nth_error combined_labels i = Some label /\
               fig = shown K clip_0_1 row label)
    [0; 1; 2; 3; 4] figs.
Proof.
  apply sample_figures_iff.
Qed.

Lemma sample_figures_outcome_witness :
  sample_figures Fixtures.nearest_kernels (fun x => Z.min 1 (Z.max 0 x)) false
    (repeat (repeat 7%Z (50 * 50 * 3)) 5) (repeat (Some "tree") 5)
  = Ok (repeat (mk_array3 50 50 3 (repeat 1%Z (50 * 50 * 3)),
                "Label: tree") 5).
Proof.
  apply (sample_figures_outcome Fixtures.nearest_kernels
           (fun x => Z.min 1 (Z.max 0 x)) false
           (repeat (repeat 7%Z (50 * 50 * 3)) 5) (repeat (Some "tree") 5)).
  split; [vm_compute; reflexivity|].
  repeat (constructor;
          [exists (repeat 7%Z (50 * 50 * 3)), (Some "tree");
           split; [reflexivity|]; split; [vm_compute; reflexivity|];
           split; [reflexivity|]; vm_compute; reflexivity|]).
  constructor.
Defined.

(** ** The script through its first figure *)

Lemma same_lengths_all {A : Type} (rows : list (list A)) (n : nat) :
  Forall (fun r => length r = n) rows -> same_lengths rows = true.
Proof.
  intros H. destruct rows as [|r rest]; [reflexivity|]. simpl.
  inversion H as [|? ? Hr Hrest]; subst.
  apply forallb_forall. intros r' Hin.
  rewrite Forall_forall in Hrest. rewrite (Hrest r' Hin).
  apply Nat.eqb_refl.
Qed.

Lemma main_figures_inv (K : Kernels) (clip_0_1 : float K -> float K)
    (ragged_allowed : bool) (w : World)
    (figs : list (array3 (float K) * string)) :
  main_figures K clip_0_1 ragged_allowed w = Ok figs ->
  exists combined_images combined_labels,
    main K w = Ok (combined_images, combined_labels) /\
    sample_figures K clip_0_1 ragged_allowed combined_images combined_labels
    = Ok figs.
Proof.
  intros H. unfold main_figures in H.
  destruct (main K w) as [[ci cl]|e]; [|discriminate].
  exists ci, cl. split; [reflexivity | exact H].
Qed.

(** X13. When [3_randomforest.py] gets through its first figure, the
    map file lists at least two pairs, and every raster behind one of
    the first five combined rows is 50 x 50 pixels; figure
    [k * n + j] (with [n] the number of pairs) has shape (50, 50, 3)
    and carries the classification of annotation [j] in its title. *)
Theorem first_figure_needs (K : Kernels) (clip_0_1 : float K -> float K)
    (ragged_allowed : bool) (w : World)
    (figs : list (array3 (float K) * string)) :
  main_figures K clip_0_1 ragged_allowed w = Ok figs ->
  exists image_path label_path,
    get_training_data w default_path = Ok (image_path, label_path) /\
    2 <= length image_path /\
    length figs = 5 /\
    forall k j image label,
      k * length image_path + j < 5 ->
      nth_error image_path j = Some image ->
      nth_error label_path j = Some label ->
      exists ds c picture,
        rasterio_open w image = Ok ds /\
        width ds = 50 /\ height ds = 50 /\
        extract_classification w label = Ok c /\
        nth_error figs (k * length image_path + j)
        = Some (picture, ("Label: " ++ py_str c)%string) /\
        shape3 picture = (50, 50, 3).
Proof.
  intros H. apply main_figures_inv in H as (ci & cl & Hm & Hs).
  apply main_entries in Hm as (ip & lp & Hg & Llp & Lci & Lcl & Hent).
  apply sample_figures_iff in Hs as [_ Hf].
  exists ip, lp. split; [exact Hg|].
  assert (L5 : length figs = 5).
  { apply Forall2_length in Hf. simpl in Hf. lia. }
  assert (Hrow : forall i, i < 5 ->
            exists row label,
              nth_error ci i = Some row /\ length row = 50 * 50 * 3 /\
              nth_error cl i = Some label /\
              nth_error figs i = Some (shown K clip_0_1 row label)).
  { intros i Hi.
    assert (Hn : nth_error [0; 1; 2; 3; 4] i = Some i).
    { do 5 (destruct i as [|i]; [reflexivity|]). lia. }
    destruct (Forall2_nth_error_l _ _ _ i i Hf Hn)
      as (fig & Hfig & row & label & Hr & Hl & Hlab & ->).
    exists row, label. auto. }
  assert (N2 : 2 <= length ip).
  { destruct (Hrow 4) as (row & _ & Hr & _); [lia|].
    assert (4 < length ci) by (apply nth_error_Some; congruence). lia. }
  split; [exact N2|]. split; [exact L5|].
  intros k j image label Hk Hi Hl.
  assert (Hk3 : k < 3) by nia.
  destruct (Hent j image label Hi Hl) as (ds & c & Ho & Hsq & Hc & Hk').
  destruct (Hk' k Hk3) as (Hlab & v & Hv & Lv).
  destruct (Hrow _ Hk) as (row & label' & Hr & Lr & Hlab' & Hfig).
  rewrite Hr in Hv. injection Hv as <-.
  rewrite Hlab' in Hlab. injection Hlab as ->.
  assert (Hw : width ds = 50) by nia.
  exists ds, c, (mk_array3 50 50 3 (map clip_0_1 row)).
  split; [exact Ho|]. split; [exact Hw|]. split; [lia|].
  split; [exact Hc|]. split; [exact Hfig | reflexivity].
Qed.

Lemma nth_error_split_index (n m : nat) :
  0 < n -> m < 3 * n -> exists k i, k < 3 /\ i < n /\ m = k * n + i.
Proof.
  intros Hn Hm.
  destruct (Nat.lt_ge_cases m n) as [H1|H1];
    [exists 0, m; lia|].
  destruct (Nat.lt_ge_cases m (2 * n)) as [H2|H2];
    [exists 1, (m - n); lia | exists 2, (m - 2 * n); lia].
Qed.

(** X14. When the loading of [3_randomforest.py] succeeds, the map
    file lists at least two pairs and every raster is 50 pixels wide,
    the first figure is drawn, with five pictures, whatever NumPy does
    with rows of unequal lengths. *)
Theorem first_figure_enough (K : Kernels) (clip_0_1 : float K -> float K)
    (ragged_allowed : bool) (w : World)
    (combined_images : list (list (float K)))
    (combined_labels : list (option string))
    (image_path label_path : list string) :
  main K w = Ok (combined_images, combined_labels) ->
  get_training_data w default_path = Ok (image_path, label_path) ->
  2 <= length image_path ->
  (forall image ds,
     In image image_path -> rasterio_open w image = Ok ds -> width ds = 50) ->
  exists figs,
    main_figures K clip_0_1 ragged_allowed w = Ok figs /\ length figs = 5.
Proof.
  intros Hm Hg N2 H50.
  unfold main_figures. rewrite Hm. cbn [bind].
  apply main_entries in Hm as (ip & lp & Hg' & Llp & Lci & Lcl & Hent).
  rewrite Hg in Hg'. injection Hg' as <- <-.
  assert (Hall : forall m, m < 3 * length image_path ->
            exists row label,
              nth_error combined_images m = Some row /\
              length row = 50 * 50 * 3 /\
              nth_error combined_labels m = Some label).
  { intros m Hm.
    destruct (nth_error_split_index (length image_path) m)
      as (k & i & Hk & Hi & ->); [lia | exact Hm |].
    destruct (nth_error image_path i) as [image|] eqn:Ei;
      [|apply nth_error_None in Ei; lia].
    destruct (nth_error label_path i) as [label|] eqn:El;
      [|apply nth_error_None in El; lia].
    destruct (Hent i image label Ei El) as (ds & c & Ho & Hsq & Hc & Hk').
    destruct (Hk' k Hk) as (Hlab & v & Hv & Lv).
    assert (Hw : width ds = 50)
      by (apply (H50 image ds); [eapply nth_error_In; eauto | exact Ho]).
    exists v, c. split; [exact Hv|]. split; [|exact Hlab].
    rewrite Lv, <- Hsq, Hw. reflexivity. }
  assert (Hsame : same_lengths combined_images = true).
  { apply (same_lengths_all _ (50 * 50 * 3)). apply Forall_forall.
    intros r Hin. apply In_nth_error in Hin as [m Hm'].
    assert (m < length combined_images)
      by (apply nth_error_Some; congruence).
    destruct (Hall m) as (row & _ & Hr & Lr & _); [lia|].
    rewrite Hr in Hm'. injection Hm' as <-. exact Lr. }
  unfold sample_figures, np_array. rewrite Hsame. cbn [orb bind].
  destruct (mapM_ok (sample_figure K clip_0_1 combined_images combined_labels)
              (seq 0 5)) as [figs Hfigs].
  { apply Forall_forall. intros i Hi. apply in_seq in Hi.
    destruct (Hall i) as (row & label & Hr & Lr & Hlab); [lia|].
    exists (shown K clip_0_1 row label).
    now apply sample_figure_shown. }
  exists figs. split; [exact Hfigs|].
  apply mapM_length in Hfigs. exact Hfigs.
Qed.

Lemma first_figure_needs_witness :
  exists figs,
    main_figures Fixtures.nearest_kernels (fun x => Z.min 1 (Z.max 0 x))
      false Fixtures.tiles_world = Ok figs /\
    length figs = 5.
Proof.
  assert (Hok : is_ok (main_figures Fixtures.nearest_kernels
                         (fun x => Z.min 1 (Z.max 0 x)) false
                         Fixtures.tiles_world) = true)
    by (vm_compute; reflexivity).
  destruct (main_figures Fixtures.nearest_kernels
              (fun x => Z.min 1 (Z.max 0 x)) false Fixtures.tiles_world)
    as [figs|] eqn:E; [|discriminate Hok].
  exists figs. split; [reflexivity|].
  destruct (first_figure_needs Fixtures.nearest_kernels
              (fun x => Z.min 1 (Z.max 0 x)) false Fixtures.tiles_world
              figs E) as (ip & lp & _ & _ & L & _).
  exact L.
Defined.

Lemma first_figure_enough_witness :
  exists figs,
    main_figures Fixtures.nearest_kernels (fun x => Z.min 1 (Z.max 0 x))
      true Fixtures.tiles_world = Ok figs /\
    length figs = 5.
Proof.
  assert (Hok : is_ok (main Fixtures.nearest_kernels Fixtures.tiles_world)
                = true) by (vm_compute; reflexivity).
  destruct (main Fixtures.nearest_kernels Fixtures.tiles_world)
    as [[ci cl]|] eqn:E; [|discriminate Hok].
  assert (Ha : rasterio_open Fixtures.tiles_world Fixtures.a_tif
               = Ok (Fixtures.flat_raster 50 50 4))
    by (vm_compute; reflexivity).
  assert (Hb : rasterio_open Fixtures.tiles_world Fixtures.b_tif
               = Ok (Fixtures.flat_raster 50 50 4))
    by (vm_compute; reflexivity).
  apply (first_figure_enough Fixtures.nearest_kernels
           (fun x => Z.min 1 (Z.max 0 x)) true Fixtures.tiles_world ci cl
           [Fixtures.a_tif; Fixtures.b_tif] [Fixtures.a_xml; Fixtures.b_xml]).
  - exact E.
  - vm_compute. reflexivity.
  - simpl. lia.
  - intros image ds [<-|[<-|[]]] Ho.
    + rewrite Ha in Ho. injection Ho as <-. reflexivity.
    + rewrite Hb in Ho. injection Ho as <-. reflexivity.
Defined.

(** ** The figure of the test images *)

Lemma indices2_in (n0 n1 i j : nat) :
  In (i, j) (indices2 n0 n1) -> i < n0 /\ j < n1.
Proof.
  unfold indices2. intros H. apply in_flat_map in H as (i' & Hi & H).
  apply in_map_iff in H as (j' & E & Hj). injection E as <- <-.
  apply in_seq in Hi, Hj. lia.
Qed.

Lemma pixel_channels {A : Type} (a : array3 A) (i j m : nat) :
  wf_array3 a -> i < dim0 a -> j < dim1 a -> m <= dim2 a ->
  length (flat_map (fun c => match get3 a i j c with
                             | Some x => [x]
                             | None => []
                             end) (seq 0 m)) = m /\
  forall c, c < m ->
    nth_error (flat_map (fun c => match get3 a i j c with
                                  | Some x => [x]
                                  | None => []
                                  end) (seq 0 m)) c
    = get3 a i j c.
Proof.
  intros W Hi Hj Hm.
  assert (H1 : forall y, In y (seq 0 m) ->
             length (match get3 a i j y with
                     | Some x => [x]
                     | None => []
                     end) = 1).
  { intros y Hy. apply in_seq in Hy.
    destruct (get3_in_range a i j y W Hi Hj) as [x ->]; [lia | reflexivity]. }
  split.
  - rewrite (flat_map_length_const _ _ 1 H1), length_seq. lia.
  - intros c Hc.
    pose proof (nth_error_chunks
                  (fun c => match get3 a i j c with
                            | Some x => [x]
                            | None => []
                            end) (seq 0 m) 1 c 0 c H1
                  (seq_nth_error m c Hc) Nat.lt_0_1) as E.
    rewrite Nat.mul_1_r, Nat.add_0_r in E. rewrite E.
    destruct (get3_in_range a i j c W Hi Hj) as [x ->]; [lia | reflexivity].
Qed.

Lemma slice_channels_get3 {A : Type} (a : array3 A) (n i j c : nat) :
  wf_array3 a -> i < dim0 a -> j < dim1 a -> c < n -> c < dim2 a ->
  get3 (slice_channels a n) i j c = get3 a i j c.
Proof.
  intros W Hi Hj Hn Hc.
  unfold get3 at 1. unfold slice_channels. cbn [dim1 dim2 data3].
  set (m := Nat.min n (dim2 a)).
  assert (Hm : m <= dim2 a) by (subst m; lia).
  assert (Hcm : c < m) by (subst m; lia).
  rewrite (nth_error_chunks _ _ m (i * dim1 a + j) c (i, j)).
  - cbn [fst snd]. now apply (pixel_channels a i j m).
  - intros [i' j'] Hin. apply indices2_in in Hin as [Hi' Hj'].
    cbn [fst snd]. now apply (pixel_channels a i' j' m).
  - now apply indices2_nth.
  - exact Hcm.
Qed.

Lemma slice_channels_wf {A : Type} (a : array3 A) (n : nat) :
  wf_array3 a -> wf_array3 (slice_channels a n).
Proof.
  intros W. unfold wf_array3, slice_channels. cbn [dim0 dim1 dim2 data3].
  rewrite (flat_map_length_const _ _ (Nat.min n (dim2 a))).
  - now rewrite indices2_length.
  - intros [i j] Hin. apply indices2_in in Hin as [Hi Hj]. cbn [fst snd].
    apply (pixel_channels a i j); auto. lia.
Qed.

Section TestFigure.

Variable K : Kernels.
Variable channels : nat.
Variables (X_test : list (list (float K))) (y_test y_pred : list (option string)).

Lemma test_figure_ok (i : nat) (fig : array3 (float K) * string) :
  test_figure K channels X_test y_test y_pred i = Ok fig ->
  exists row label pred_label,
    nth_error X_test i = Some row /\
    length row = 50 * 50 * channels /\
    nth_error y_test i = Some label /\
    nth_error y_pred i = Some pred_label /\
    fig = (slice_channels (mk_array3 50 50 channels row) 3,
           ("True: " ++ py_str label
            ++ String PyStr.newline ("Predicted: " ++ py_str pred_label))%string).
Proof.
  intros H. unfold test_figure, getitem, reshape3 in H.
  destruct (nth_error X_test i) as [row|]; [|discriminate]. cbn [bind] in H.
  destruct (length row =? 50 * 50 * channels) eqn:E; [|discriminate].
  cbn [bind] in H. apply Nat.eqb_eq in E.
  destruct (nth_error y_test i) as [label|]; [|discriminate].
  cbn [bind] in H.
  destruct (nth_error y_pred i) as [pred_label|]; [|discriminate].
  cbn [bind] in H. injection H as <-.
  exists row, label, pred_label. auto.
Qed.

End TestFigure.

(** X15. When the figure of the test images is drawn, there are at
    least five test rows, true labels and predictions; each of the
    first five rows has 50 * 50 * channels values, and picture [i]
    shows, at row [r], column [c] and channel [k] below 3, value
    [(r * 50 + c) * channels + k] of row [i]: with the four channels of
    [randomforest.py] the fourth value of every pixel is left out. *)
Theorem test_figures_outcome (K : Kernels) (channels : nat)
    (X_test : list (list (float K))) (y_test y_pred : list (option string))
    (figs : list (array3 (float K) * string)) :
  test_figures K channels X_test y_test y_pred = Ok figs ->
  length figs = 5 /\
  5 <= length X_test /\ 5 <= length y_test /\ 5 <= length y_pred /\
  forall i, i < 5 ->
    exists row label pred_label picture,
      nth_error X_test i = Some row /\
      length row = 50 * 50 * channels /\
      nth_error y_test i = Some label /\
      nth_error y_pred i = Some pred_label /\
      nth_error figs i
      = Some (picture,
              ("True: " ++ py_str label
               ++ String PyStr.newline
                    ("Predicted: " ++ py_str pred_label))%string) /\
      shape3 picture = (50, 50, Nat.min 3 channels) /\
      forall r c k, r < 50 -> c < 50 -> k < 3 -> k < channels ->
        get3 picture r c k = nth_error row ((r * 50 + c) * channels + k).
Proof.
  intros H. unfold test_figures in H.
  pose proof (mapM_length _ _ _ H) as L. rewrite length_seq in L.
  apply mapM_Forall2 in H.
  assert (Hrow : forall i, i < 5 ->
            exists row label pred_label,
              nth_error X_test i = Some row /\
              length row = 50 * 50 * channels /\
              nth_error y_test i = Some label /\
              nth_error y_pred i = Some pred_label /\
              nth_error figs i
              = Some (slice_channels (mk_array3 50 50 channels row) 3,
                      ("True: " ++ py_str label
                       ++ String PyStr.newline
                            ("Predicted: " ++ py_str pred_label))%string)).
  { intros i Hi.
    destruct (Forall2_nth_error_l _ _ _ i i H (seq_nth_error 5 i Hi))
      as (fig & Hfig & Hf).
    apply test_figure_ok in Hf
      as (row & label & pred_label & Hr & Hl & Hy & Hp & ->).
    exists row, label, pred_label. auto. }
  split; [exact L|].
  destruct (Hrow 4) as (row & label & pred_label & Hr & _ & Hy & Hp & _);
    [lia|].
  split; [apply (proj1 (nth_error_Some X_test 4)); congruence|].
  split; [apply (proj1 (nth_error_Some y_test 4)); congruence|].
  split; [apply (proj1 (nth_error_Some y_pred 4)); congruence|].
  clear row label pred_label Hr Hy Hp.
  intros i Hi.
  destruct (Hrow i Hi) as (row & label & pred_label & Hr & Hl & Hy & Hp & Hf).
  exists row, label, pred_label,
    (slice_channels (mk_array3 50 50 channels row) 3).
  split; [exact Hr|]. split; [exact Hl|]. split; [exact Hy|].
  split; [exact Hp|]. split; [exact Hf|]. split; [reflexivity|].
  intros r c k Hr' Hc Hk Hkc.
  apply (slice_channels_get3 (mk_array3 50 50 channels row) 3 r c k);
    auto.
Qed.

Lemma test_figures_outcome_witness :
  exists figs,
    test_figures Fixtures.nearest_kernels 4
      (repeat (repeat 7%Z (50 * 50 * 4)) 5)
      (repeat (Some "tree") 5) (repeat (Some "road") 5) = Ok figs /\
    length figs = 5.
Proof.
  assert (Hok : is_ok (test_figures Fixtures.nearest_kernels 4
                         (repeat (repeat 7%Z (50 * 50 * 4)) 5)
                         (repeat (Some "tree") 5) (repeat (Some "road") 5))
                = true) by (vm_compute; reflexivity).
  destruct (test_figures Fixtures.nearest_kernels 4
              (repeat (repeat 7%Z (50 * 50 * 4)) 5)
              (repeat (Some "tree") 5) (repeat (Some "road") 5))
    as [figs|] eqn:E; [|discriminate Hok].
  exists figs. split; [reflexivity|].
  exact (proj1 (test_figures_outcome Fixtures.nearest_kernels 4
                  (repeat (repeat 7%Z (50 * 50 * 4)) 5)
                  (repeat (Some "tree") 5) (repeat (Some "road") 5)
                  figs E)).
Defined.
